(** * NCBM: network configuration backup manager

    A shallow embedding of the reliability core of the system
    (device_manager.py, diff_engine.py, backup_manager.py, scheduler.py),
    of the device lines of config.py and of the two routes of app.py
    that run the pipeline by hand, together with the properties its
    specification states about it and further properties of the code.

    Layout: the Python string primitives the code relies on, then one
    module per source file, then the theorems.

    Text is modelled as [string] whose characters are the code points
    below 256; whitespace, case folding and line boundaries follow
    Python's [str] methods on that range.

    The file system is taken as on Linux: entry names are compared as
    they are written, the line separator is the line feed, so that text
    is stored as it is written and only reading translates line ends,
    and a device name stands for the entry of that name in the backup
    directory. A name with a path separator, or one of the dot names,
    points elsewhere; what is stated about directories is stated for
    plain names. *)

From Stdlib Require Import ZArith Lia Ascii Sorted.
From stdpp Require Import strings gmap list pretty.

Local Open Scope Z_scope.

(* ===================================================================== *)
(** * Python string primitives *)
(* ===================================================================== *)

Module PyStr.

Definition code (c : ascii) : N := N_of_ascii c.

Definition between (lo hi n : N) : bool := ((lo <=? n) && (n <=? hi))%N.

(** [str.isspace] on one character: TAB..CR, FS..US, SPACE, NEL, NBSP. *)
Definition isspace (c : ascii) : bool :=
  let n := code c in
  between 9 13 n || between 28 32 n || (n =? 133)%N || (n =? 160)%N.

(** The characters [str.splitlines] breaks on: LF, VT, FF, CR, FS, GS,
    RS and NEL. *)
Definition is_linebreak (c : ascii) : bool :=
  let n := code c in
  between 10 13 n || between 28 30 n || (n =? 133)%N.

Definition is_upper (c : ascii) : bool :=
  let n := code c in
  between 65 90 n || between 192 214 n || between 216 222 n.

Definition lower_char (c : ascii) : ascii :=
  if is_upper c then ascii_of_N (code c + 32) else c.

(** [s.lower()] *)
Fixpoint lower (s : string) : string :=
  match s with
  | "" => ""
  | String c r => String (lower_char c) (lower r)
  end.

(** [s.lstrip()], [s.rstrip()], [s.strip()] *)
Fixpoint lstrip (s : string) : string :=
  match s with
  | "" => ""
  | String c r => if isspace c then lstrip r else s
  end.

Fixpoint rstrip (s : string) : string :=
  match s with
  | "" => ""
  | String c r =>
      match rstrip r with
      | "" => if isspace c then "" else String c ""
      | r' => String c r'
      end
  end.

Definition strip (s : string) : string := lstrip (rstrip s).

(** [s.startswith(p)] *)
Fixpoint startswith (p s : string) : bool :=
  match p, s with
  | "", _ => true
  | String _ _, "" => false
  | String a p', String b s' => (a =? b)%char && startswith p' s'
  end.

(** [s.endswith(p)] *)
Fixpoint endswith (p s : string) : bool :=
  (p =? s)%string ||
  match s with
  | "" => false
  | String _ s' => endswith p s'
  end.

(** [p in s] *)
Fixpoint contains (p s : string) : bool :=
  startswith p s ||
  match s with
  | "" => false
  | String _ s' => contains p s'
  end.

(** [''.join(parts)] *)
Fixpoint concat (parts : list string) : string :=
  match parts with
  | [] => ""
  | p :: ps => p +:+ concat ps
  end.

(** [sep.join(parts)] *)
Fixpoint join (sep : string) (parts : list string) : string :=
  match parts with
  | [] => ""
  | [p] => p
  | p :: ps => p +:+ sep +:+ join sep ps
  end.

(** [s.splitlines(keepends)]: CR LF counts as one boundary, and a
    trailing boundary does not open an empty last line. *)
Definition cr : ascii := "013"%char.
Definition lf : ascii := "010"%char.

Definition newline : string := String lf "".

Definition ending (keepends : bool) (e : string) : string :=
  if keepends then e else "".

Fixpoint splitlines (keepends : bool) (s : string) : list string :=
  match s with
  | "" => []
  | String c r =>
      if is_linebreak c then
        match r with
        | String d r' =>
            if (c =? cr)%char && (d =? lf)%char
            then ending keepends (String c (String d "")) :: splitlines keepends r'
            else ending keepends (String c "") :: splitlines keepends r
        | "" => [ending keepends (String c "")]
        end
      else
        match splitlines keepends r with
        | [] => [String c ""]
        | l :: ls => String c l :: ls
        end
  end.

(** [s.replace(old, new)] for a non-empty [old]: non-overlapping
    occurrences, leftmost first. [skip] counts the characters of the
    current occurrence still to be dropped. *)
Fixpoint replace_from (old new : string) (skip : nat) (s : string) : string :=
  match s with
  | "" => ""
  | String c r =>
      match skip with
      | S k => replace_from old new k r
      | O =>
          if startswith old s
          then new +:+ replace_from old new (String.length old - 1) r
          else String c (replace_from old new 0 r)
      end
  end.

Definition replace (old new s : string) : string := replace_from old new 0 s.

(** [s.split(sep)] for a separator of one character: the fields between
    the separators, empty ones included; never an empty list. *)
Fixpoint split (sep : ascii) (s : string) : list string :=
  match s with
  | "" => [""]
  | String c r =>
      if (c =? sep)%char then "" :: split sep r
      else
        match split sep r with
        | [] => [String c ""]
        | field :: fields => String c field :: fields
        end
  end.

(** [int(s)] for a text, base ten: whitespace around the numeral is
    skipped (TAB..CR and SPACE, and NEL and NBSP, which the conversion
    first turns into spaces; not FS..US), a sign may lead, and single
    underscores may stand between digits. [max_str_digits] is
    [sys.get_int_max_str_digits()]: zero for no limit, otherwise a numeral
    of more digits than that (and than 640) is refused. [None] stands for
    ValueError. *)
Definition int_space (c : ascii) : bool :=
  let n := code c in
  between 9 13 n || (n =? 32)%N || (n =? 133)%N || (n =? 160)%N.

Definition is_digit (c : ascii) : bool := between 48 57 (code c).

Definition digit (c : ascii) : Z := Z.of_N (code c) - 48.

Fixpoint int_lstrip (s : string) : string :=
  match s with
  | "" => ""
  | String c r => if int_space c then int_lstrip r else s
  end.

Fixpoint int_tail (s : string) : bool :=
  match s with
  | "" => true
  | String c r => int_space c && int_tail r
  end.

(** The numeral after its first digit: the value and the number of
    digits read so far. *)
Fixpoint int_digits (value : Z) (digits : nat) (s : string) : option (Z * nat) :=
  match s with
  | "" => Some (value, digits)
  | String c r =>
      if is_digit c then int_digits (value * 10 + digit c) (S digits) r
      else if (c =? "_")%char then
        match r with
        | String d r' =>
            if is_digit d then int_digits (value * 10 + digit d) (S digits) r'
            else None
        | "" => None
        end
      else if int_tail s then Some (value, digits) else None
  end.

Definition int_unsigned (s : string) : option (Z * nat) :=
  match s with
  | String c r => if is_digit c then int_digits (digit c) 1 r else None
  | "" => None
  end.

Definition int (max_str_digits : nat) (s : string) : option Z :=
  let s := int_lstrip s in
  let signed :=
    match s with
    | String c r =>
        if (c =? "+")%char then (false, r)
        else if (c =? "-")%char then (true, r)
        else (false, s)
    | "" => (false, s)
    end in
  match int_unsigned signed.2 with
  | Some (value, digits) =>
      if (0 <? max_str_digits)%nat && (max_str_digits <? digits)%nat
         && (640 <? digits)%nat
      then None
      else Some (if signed.1 then - value else value)
  | None => None
  end.

(** A numeral without sign or underscore, and the number it writes. *)
Fixpoint all_digits (s : string) : bool :=
  match s with
  | "" => true
  | String c r => is_digit c && all_digits r
  end.

Fixpoint numeral_value (value : Z) (s : string) : Z :=
  match s with
  | "" => value
  | String c r => numeral_value (value * 10 + digit c) r
  end.

(** What reading in text mode makes of a file's text (universal
    newlines): CR LF, and CR by itself, come back as LF. *)
Fixpoint universal_newlines (s : string) : string :=
  match s with
  | "" => ""
  | String c r =>
      if (c =? cr)%char then
        match r with
        | String d r' =>
            if (d =? lf)%char then String lf (universal_newlines r')
            else String lf (universal_newlines r)
        | "" => String lf ""
        end
      else String c (universal_newlines r)
  end.

(** The number of bytes of a text written as UTF-8: one for a character
    below 128, two for the others of the range. *)
Fixpoint utf8_length (s : string) : nat :=
  match s with
  | "" => 0
  | String c r => (if (code c <? 128)%N then 1 else 2) + utf8_length r
  end.

(** [a < b] on texts: by code point, the first difference deciding, a
    proper beginning being smaller. *)
Fixpoint str_lt (a b : string) : bool :=
  match a, b with
  | _, "" => false
  | "", String _ _ => true
  | String x a', String y b' =>
      (code x <? code y)%N || ((code x =? code y)%N && str_lt a' b')
  end.

(** [s[:n]] *)
Fixpoint str_take (n : nat) (s : string) : string :=
  match n, s with
  | S k, String c r => String c (str_take k r)
  | _, _ => ""
  end.

(** A text without line boundary: one line for [splitlines]. *)
Fixpoint no_linebreak (s : string) : bool :=
  match s with
  | "" => true
  | String c r => negb (is_linebreak c) && no_linebreak r
  end.

End PyStr.

(* ===================================================================== *)
(** * diff_engine.py *)
(* ===================================================================== *)

Module DiffEngine.
Import PyStr.

Record DiffResult := {
  has_changes : bool;
  diff : string;
  added_lines : nat;
  removed_lines : nat;
  modified_lines : nat
}.

Definition no_changes : DiffResult :=
  {| has_changes := false; diff := ""; added_lines := 0;
     removed_lines := 0; modified_lines := 0 |}.

Definition skip_patterns : list string :=
  [ "clock";
    "ntp clock-period";
    "!Time:";
    "!Last configuration change";
    "!NVRAM config last updated";
    "version " ].

(** The loop of [_filter_dynamic_lines]; [filtered] is the list being
    appended to. *)
Fixpoint filter_loop (lines filtered : list string) : list string :=
  match lines with
  | [] => filtered
  | line :: rest =>
      let line_lower := strip (lower line) in
      if (line_lower =? "")%string || startswith "!" line_lower then
        if existsb (fun pattern => contains pattern line_lower) ["!last"; "!nvram"]
        then filter_loop rest filtered
        else filter_loop rest (filtered ++ [line])
      else
        let should_skip :=
          existsb (fun pattern => contains pattern line_lower) skip_patterns in
        if negb should_skip
        then filter_loop rest (filtered ++ [line])
        else filter_loop rest filtered
  end.

Definition _filter_dynamic_lines (lines : list string) : list string :=
  filter_loop lines [].

Section Compare.

(** [difflib.unified_diff(a, b, fromfile='old_config',
    tofile='new_config', lineterm='', n=3)], the standard library's
    differ, is taken as given. *)
Variable unified_diff : list string -> list string -> list string.

Definition count_marked (mark header : string) (diff_lines : list string) : nat :=
  length (List.filter
            (fun line => startswith mark line && negb (startswith header line))
            diff_lines).

Definition compare_configs (old_config new_config : string) : DiffResult :=
  let old_config := strip old_config in
  let new_config := strip new_config in
  if (old_config =? new_config)%string then no_changes
  else
    let old_lines := splitlines true old_config in
    let new_lines := splitlines true new_config in
    let old_filtered := _filter_dynamic_lines old_lines in
    let new_filtered := _filter_dynamic_lines new_lines in
    let old_filtered_text := strip (concat old_filtered) in
    let new_filtered_text := strip (concat new_filtered) in
    if (old_filtered_text =? new_filtered_text)%string then no_changes
    else
      let diff_text := concat (unified_diff old_filtered new_filtered) in
      let diff_lines := splitlines false diff_text in
      let added := count_marked "+" "+++" diff_lines in
      let removed := count_marked "-" "---" diff_lines in
      if (strip diff_text =? "")%string then no_changes
      else
        {| has_changes := true; diff := diff_text; added_lines := added;
           removed_lines := removed; modified_lines := 0 |}.

End Compare.

(** ** Rendering a comparison *)

(** Message texts that are not Latin-1 are held as their UTF-8 bytes. *)
Definition quote : string := String "034"%char "".

(** [f'<div class=(quote)(class)(quote)>(line)</div>'] *)
Definition div (class line : string) : string :=
  "<div class=" +:+ quote +:+ class +:+ quote +:+ ">" +:+ line +:+ "</div>".

(** The body of the [for line in diff_lines] loop of [format_diff]. *)
Definition html_line (line : string) : string :=
  if startswith "+++" line || startswith "---" line then div "diff-header" line
  else if startswith "@@" line then div "diff-hunk" line
  else if startswith "+" line then div "diff-added" line
  else if startswith "-" line then div "diff-removed" line
  else div "diff-context" line.

(** The list [html_diff] that [format_diff] joins. *)
Definition html_diff (diff_result : DiffResult) : list string :=
  map html_line (splitlines false (diff diff_result)).

Definition format_diff (diff_result : DiffResult) (html : bool) : string :=
  if negb (has_changes diff_result) then "配置无变更"
  else if html then join newline (html_diff diff_result)
  else diff diff_result.

Definition get_summary (diff_result : DiffResult) : string :=
  if negb (has_changes diff_result) then "配置无变更"
  else "新增 " +:+ pretty (added_lines diff_result) +:+ " 行, 删除 "
       +:+ pretty (removed_lines diff_result) +:+ " 行".

(** ** The filter in the specification's words *)

(** The markers the specification lists for the volatility filter, in
    the spellings of the code's two pattern lists and of the devices'
    own stamp lines: clock state, NTP clock-period, and the last-change,
    NVRAM and time stamps. *)
Definition claimed_markers : list string :=
  [ "clock"; "ntp clock-period";
    "!last"; "!nvram"; "!time:";
    "last configuration change"; "nvram config last updated" ].

(** A line carries a marker when its text, lowered and trimmed as the
    filter reads it, holds one of them. *)
Definition carries_marker (markers : list string) (line : string) : bool :=
  let s := strip (lower line) in
  existsb (fun m => contains m s) markers.

Definition carries_claimed_marker (line : string) : bool :=
  carries_marker claimed_markers line.

(** The listed markers and the one more that the filter goes by. *)
Definition amended_markers : list string := claimed_markers ++ ["version "].

(** What decides a line's fate in the code: a blank or comment line (the
    trimmed line is empty or starts with an exclamation mark) goes when it
    holds [!last] or [!nvram]; any other line goes when it holds [clock]
    or [version ] (with the space). Case is ignored throughout. *)
Definition is_volatile (line : string) : bool :=
  let s := strip (lower line) in
  if (s =? "")%string || startswith "!" s
  then contains "!last" s || contains "!nvram" s
  else contains "clock" s || contains "version " s.

(** A stand-in for [difflib.unified_diff], used only to evaluate
    examples. difflib yields no line at all for equal sequences and opens
    with the two file headers otherwise; the hunks, which the change flag
    does not depend on, are left out. *)
Definition unified_diff_headers (a b : list string) : list string :=
  if decide (a = b) then [] else ["--- old_config"; "+++ new_config"].

(** Two captures of one NX-OS device taken five seconds apart: only the
    [!Time:] stamp differs. *)
Definition nxos_capture (stamp : string) : string :=
  join newline
    [ "!Command: show running-config";
      "!Time: " +:+ stamp;
      "hostname R1";
      "interface Vlan1" ].

(** Two captures of one IOS device: only the last-change stamp, as IOS
    prints it, differs. *)
Definition ios_capture (stamp : string) : string :=
  join newline
    [ "!";
      "! Last configuration change at " +:+ stamp;
      "!";
      "hostname R1" ].

Fixpoint all_lower (s : string) : bool :=
  match s with
  | "" => true
  | String c r => negb (is_upper c) && all_lower r
  end.

(** What the second test of [compare_configs] compares: the trimmed
    text, split into lines, without its volatile lines, joined and
    trimmed again. *)
Definition filtered_text (config : string) : string :=
  strip (concat (_filter_dynamic_lines (splitlines true (strip config)))).

(** A text made of whitespace only. *)
Fixpoint all_space (s : string) : bool :=
  match s with
  | "" => true
  | String c r => isspace c && all_space r
  end.

(** The lines of an HTML rendering that carry the given class. *)
Definition marked (class : string) (rendered : list string) : nat :=
  length (List.filter
            (startswith ("<div class=" +:+ quote +:+ class +:+ quote +:+ ">"))
            rendered).

End DiffEngine.

(* ===================================================================== *)
(** * The world the program runs in *)
(* ===================================================================== *)

(** Everything outside the program (devices answering over the network,
    the clock, faults of the file system, the mail relay) is an
    environment that answers each request as a function of what has
    happened so far; [env_written] says how many characters a write that
    fails has put into the file. The program's own state is the session cache and the
    backup tree; every exchange with the outside is also written to a
    trace, oldest event first. *)
Module Sys.

Record device_info := {
  ip : string;
  username : string;
  password : string;
  device_type : string
}.

(** A session object; [conn_serial] tells apart the sessions opened one
    after the other to the same device. *)
Record conn := {
  conn_peer : device_info;
  conn_serial : nat
}.

(** How [ConnectHandler(...)] ends: a session, NetmikoTimeoutException,
    NetmikoAuthenticationException, or any other exception. *)
Inductive open_result := Opened | TimedOut | AuthRejected | OtherError.

(** How [send_command(command)] ends: the output, or an exception with
    its message. *)
Inductive send_result := Output (text : string) | SendError (error_msg : string).

(** How the injected notifier's [send_alert] ends. [EmailNotifier] only
    ever answers [True] or [False]; a notifier that raises is what the
    scheduler's own handler is for. *)
Inductive alert_result := AlertSent | AlertNotSent | AlertRaised.

(** The requests to the file system: making a device's directory,
    listing the backup directory or a device's directory, reading a
    file's status, reading a file, opening one for writing, writing it
    out, removing it. *)
Inductive io_request :=
| IoMkdir (device : string)
| IoListroot
| IoListdir (device : string)
| IoStat (device file : string)
| IoRead (device file : string)
| IoOpen (device file : string)
| IoWrite (device file : string)
| IoRemove (device file : string).

(** [EvBackupStart] and [EvCleanupStart] are the two log lines by which
    a scheduled run marks its phases. *)
Inductive event :=
| EvProbe (c : conn) (alive : bool)
| EvDisconnect (c : conn)
| EvSleep (seconds : Z)
| EvOpen (peer : device_info) (r : open_result)
| EvSend (c : conn) (command : string) (r : send_result)
| EvIo (req : io_request) (ok : bool)
| EvAlert (device : string) (d : DiffEngine.DiffResult) (r : alert_result)
| EvBackupStart (device : string)
| EvCleanupStart.

Record Env := {
  env_open : list event -> device_info -> open_result;
  env_probe : list event -> conn -> bool;
  env_send : list event -> conn -> string -> send_result;
  env_now : list event -> Z;
  env_io_ok : list event -> io_request -> bool;
  env_written : list event -> nat;
  env_alert : list event -> string -> DiffEngine.DiffResult -> alert_result
}.

(** One stored backup: the file's name, the text it holds, and its
    modification time as [datetime.fromtimestamp] reads it, [None] when
    that raises (a time that no datetime can hold). *)
Record file := {
  file_name : string;
  file_content : string;
  file_mtime : option Z
}.

(** An entry of the backup directory, in the order [os.listdir] gives. *)
Inductive entry := NotADirectory | Directory (content : list file).

Record World := {
  trace : list event;
  connections : gmap string conn;
  files : list (string * entry)
}.

Definition log (e : event) (w : World) : World :=
  {| trace := trace w ++ [e]; connections := connections w; files := files w |}.

Definition with_connections (c : gmap string conn) (w : World) : World :=
  {| trace := trace w; connections := c; files := files w |}.

Definition with_files (t : list (string * entry)) (w : World) : World :=
  {| trace := trace w; connections := connections w; files := t |}.

(** Computations: state passing, with Python's exceptions as [Raised]. *)
Inductive res (A : Type) := Ok (a : A) | Raised.
Arguments Ok {A} a.
Arguments Raised {A}.

Definition M (A : Type) : Type := World -> res A * World.

Definition ret {A} (a : A) : M A := fun w => (Ok a, w).

Definition bind {A B} (m : M A) (k : A -> M B) : M B :=
  fun w => match m w with
           | (Ok a, w') => k a w'
           | (Raised, w') => (Raised, w')
           end.

Definition raise {A} : M A := fun w => (Raised, w).

(** [try: m except Exception: h] *)
Definition catch {A} (m : M A) (h : M A) : M A :=
  fun w => match m w with
           | (Ok a, w') => (Ok a, w')
           | (Raised, w') => h w'
           end.

Definition emit (e : event) : M unit := fun w => (Ok tt, log e w).

Definition get {A} (f : World -> A) : M A := fun w => (Ok (f w), w).

Definition modify (f : World -> World) : M unit := fun w => (Ok tt, f w).

(** ** Reading a trace *)

Definition opens_of (tr : list event) : list open_result :=
  flat_map (fun e => match e with EvOpen _ r => [r] | _ => [] end) tr.

Definition sleeps_of (tr : list event) : list Z :=
  flat_map (fun e => match e with EvSleep d => [d] | _ => [] end) tr.

(** The commands sent on sessions (liveness probes are [EvProbe]). *)
Definition sends_of (tr : list event) : list (string * send_result) :=
  flat_map (fun e => match e with EvSend _ c r => [(c, r)] | _ => [] end) tr.

(** The sleeps and connection attempts of a trace, in order: [Some d]
    for a sleep of [d] seconds, [None] for an attempt. *)
Definition timing (tr : list event) : list (option Z) :=
  flat_map (fun e => match e with
                     | EvSleep d => [Some d]
                     | EvOpen _ _ => [None]
                     | _ => []
                     end) tr.

(** The alerts handed to the notifier. *)
Definition alerts_of (tr : list event) : list (string * DiffEngine.DiffResult) :=
  flat_map (fun e => match e with EvAlert d x _ => [(d, x)] | _ => [] end) tr.

(** The devices whose pipeline was started. *)
Definition started_of (tr : list event) : list string :=
  flat_map (fun e => match e with EvBackupStart d => [d] | _ => [] end) tr.

(** The requests made to the file system. *)
Definition io_of (tr : list event) : list io_request :=
  flat_map (fun e => match e with EvIo req _ => [req] | _ => [] end) tr.

(** Kinds of events: exchanges with a device, requests to the file
    system, and the two phase marks of a scheduled run. *)
Definition is_network (e : event) : Prop :=
  match e with
  | EvProbe _ _ | EvDisconnect _ | EvSleep _ | EvOpen _ _ | EvSend _ _ _ => True
  | _ => False
  end.

Definition is_io (e : event) : Prop :=
  match e with
  | EvIo _ _ => True
  | _ => False
  end.

Definition is_mark (e : event) : Prop :=
  match e with
  | EvBackupStart _ | EvCleanupStart => True
  | _ => False
  end.

(** The connection attempts that met an authentication rejection. *)
Definition rejections (tr : list event) : list event :=
  List.filter (fun e => match e with EvOpen _ AuthRejected => true | _ => false end) tr.

(** Linear backoff as the specification words it: attempt [k > 1] first
    sleeps [delay * (k - 1)]. *)
Definition attempt_timing (delay : Z) (k : nat) : list (option Z) :=
  if (1 <? k)%nat then [Some (delay * (Z.of_nat k - 1)); None] else [None].

Definition backoff (delay : Z) (first count : nat) : list (option Z) :=
  flat_map (attempt_timing delay) (seq first count).

End Sys.

Notation "x <- m ;; k" := (Sys.bind m (fun x => k))
  (at level 100, m at next level, right associativity).
Notation "m ;; k" := (Sys.bind m (fun _ => k))
  (at level 100, right associativity).

(* ===================================================================== *)
(** * device_manager.py *)
(* ===================================================================== *)

Module DeviceManager.
Import PyStr Sys.

(** The manager's fixed attributes; the session cache [self.connections]
    is the [connections] field of the world. [backup_command] is
    [config.get_backup_config()['command']]. *)
Record DeviceManager := {
  devices : list (string * device_info);
  connection_retries : nat;
  retry_delay : Z;
  backup_command : string
}.

(** [DeviceManager(config)] *)
Definition init (devices : list (string * device_info)) (command : string)
  : DeviceManager :=
  {| devices := devices; connection_retries := 3; retry_delay := 2;
     backup_command := command |}.

(** [self.devices[device_name]], [None] when the name is no key. *)
Fixpoint lookup_device (l : list (string * device_info)) (device_name : string)
  : option device_info :=
  match l with
  | [] => None
  | (name, info) :: rest =>
      if (name =? device_name)%string then Some info else lookup_device rest device_name
  end.

(** [if retry_count is None: retry_count = self.connection_retries] *)
Definition budget (dm : DeviceManager) (retry_count : option nat) : nat :=
  match retry_count with
  | Some n => n
  | None => connection_retries dm
  end.

Section WithEnv.
Context (E : Env).

Definition send_probe (connection : conn) : M bool :=
  fun w => let alive := env_probe E (trace w) connection in
           (Ok alive, log (EvProbe connection alive) w).

Definition _check_connection (connection : option conn) : M bool :=
  match connection with
  | None => ret false
  | Some c => send_probe c
  end.

(** [try: connection.disconnect() except: pass] *)
Definition disconnect_quietly (connection : conn) : M unit :=
  emit (EvDisconnect connection).

Definition sleep (seconds : Z) : M unit := emit (EvSleep seconds).

Definition ConnectHandler (info : device_info) : M (open_result * conn) :=
  fun w => let r := env_open E (trace w) info in
           let c := {| conn_peer := info; conn_serial := length (trace w) |} in
           (Ok (r, c), log (EvOpen info r) w).

Definition send_command (connection : conn) (command : string) : M send_result :=
  fun w => let r := env_send E (trace w) connection command in
           (Ok r, log (EvSend connection command r) w).

Definition cached (device_name : string) : M (option conn) :=
  get (fun w => connections w !! device_name).

Definition store_connection (device_name : string) (c : conn) : M unit :=
  modify (fun w => with_connections (<[device_name := c]> (connections w)) w).

Definition forget (device_name : string) : M unit :=
  modify (fun w => with_connections (delete device_name (connections w)) w).

(** The [for attempt in range(1, retry_count + 1)] loop of [connect]. *)
Fixpoint connect_loop (dm : DeviceManager) (device_name : string)
    (device_info : device_info) (attempts : list nat) : M (option conn) :=
  match attempts with
  | [] => ret None
  | attempt :: rest =>
      (if (1 <? attempt)%nat
       then sleep (retry_delay dm * (Z.of_nat attempt - 1))
       else ret tt) ;;
      r <- ConnectHandler device_info ;;
      match r with
      | (Opened, connection) =>
          alive <- _check_connection (Some connection) ;;
          if alive then
            store_connection device_name connection ;;
            ret (Some connection)
          else
            disconnect_quietly connection ;;
            connect_loop dm device_name device_info rest
      | (TimedOut, _) => connect_loop dm device_name device_info rest
      | (AuthRejected, _) => ret None
      | (OtherError, _) => connect_loop dm device_name device_info rest
      end
  end.

Definition connect (dm : DeviceManager) (device_name : string)
    (retry_count : option nat) : M (option conn) :=
  match lookup_device (devices dm) device_name with
  | None => ret None
  | Some device_info =>
      existing <- cached device_name ;;
      reused <- match existing with
                | Some connection =>
                    alive <- _check_connection (Some connection) ;;
                    if alive then ret (Some connection)
                    else
                      disconnect_quietly connection ;;
                      forget device_name ;;
                      ret None
                | None => ret None
                end ;;
      match reused with
      | Some connection => ret (Some connection)
      | None =>
          let retry_count := budget dm retry_count in
          connect_loop dm device_name device_info (seq 1 retry_count)
      end
  end.

(** ['connection' in m or 'timeout' in m or 'closed' in m], on the
    lowered message. *)
Definition is_connection_error (error_msg : string) : bool :=
  let m := lower error_msg in
  contains "connection" m || contains "timeout" m || contains "closed" m.

(** Disconnect and delete the cached session of the device, if any. *)
Definition drop_cached (device_name : string) : M unit :=
  existing <- cached device_name ;;
  match existing with
  | Some connection => disconnect_quietly connection ;; forget device_name
  | None => ret tt
  end.

(** The [for attempt in range(1, max_attempts + 1)] loop of
    [execute_command]. *)
Fixpoint command_loop (dm : DeviceManager) (device_name command : string)
    (retry_on_failure : bool) (max_attempts : nat) (attempts : list nat)
    (connection : conn) : M (option string) :=
  match attempts with
  | [] => ret None
  | attempt :: rest =>
      r <- send_command connection command ;;
      match r with
      | Output output => ret (Some output)
      | SendError error_msg =>
          if retry_on_failure && (attempt <? max_attempts)%nat then
            if is_connection_error error_msg then
              drop_cached device_name ;;
              reconnected <- connect dm device_name None ;;
              match reconnected with
              | Some connection' =>
                  command_loop dm device_name command retry_on_failure
                               max_attempts rest connection'
              | None => ret None
              end
            else ret None
          else
            drop_cached device_name ;;
            ret None
      end
  end.

Definition execute_command (dm : DeviceManager) (device_name command : string)
    (retry_on_failure : bool) : M (option string) :=
  existing <- cached device_name ;;
  alive <- _check_connection existing ;;
  ready <- (if alive then ret existing
            else
              match existing with
              | Some connection =>
                  disconnect_quietly connection ;; forget device_name
              | None => ret tt
              end ;;
              connect dm device_name None) ;;
  match ready with
  | None => ret None
  | Some connection =>
      let max_attempts := if retry_on_failure then 2%nat else 1%nat in
      command_loop dm device_name command retry_on_failure max_attempts
                   (seq 1 max_attempts) connection
  end.

Definition get_config (dm : DeviceManager) (device_name : string)
  : M (option string) :=
  execute_command dm device_name (backup_command dm) true.

End WithEnv.

(** ** Releasing sessions *)

(** [disconnect]: the session is closed, whatever that raises, and its
    cache entry deleted. *)
Definition disconnect (device_name : string) : M unit :=
  existing <- cached device_name ;;
  match existing with
  | Some connection => disconnect_quietly connection ;; forget device_name
  | None => ret tt
  end.

(** The [for device_name in ...] loop of [disconnect_all]. *)
Fixpoint disconnect_each (names : list string) : M unit :=
  match names with
  | [] => ret tt
  | device_name :: rest => disconnect device_name ;; disconnect_each rest
  end.

(** [disconnect_all]: over [list(self.connections.keys())]. The cache
    does not record the order in which Python's dict would give the keys;
    [disconnect_each] is the loop for any order. *)
Definition disconnect_all : M unit :=
  names <- get (fun w => (map_to_list (connections w)).*1) ;;
  disconnect_each names.

(** ** Restoring a configuration *)

Definition _get_save_command (device_type : string) : string :=
  if existsb (String.eqb device_type)
       ["cisco_ios"; "cisco_ios_telnet"; "cisco_nxos"; "cisco_asa"]
  then "write memory"
  else if existsb (String.eqb device_type) ["huawei"] then "save"
  else if existsb (String.eqb device_type) ["hp_comware"; "hp_procurve"] then "save"
  else if existsb (String.eqb device_type) ["juniper"; "juniper_junos"] then "commit"
  else "write memory".

(** The [for line in config_content.splitlines()] loop of
    [restore_config]; [config_lines] is the list being appended to. *)
Fixpoint config_lines_loop (lines config_lines : list string) : list string :=
  match lines with
  | [] => config_lines
  | line :: rest =>
      let line := strip line in
      if negb (line =? "")%string && negb (startswith "!" line) then
        if negb (startswith "Building configuration" line) then
          if negb (startswith "Current configuration" line) then
            config_lines_loop rest (config_lines ++ [line])
          else config_lines_loop rest config_lines
        else config_lines_loop rest config_lines
      else config_lines_loop rest config_lines
  end.

(** The dictionary [restore_config] returns. *)
Record restore_result := {
  success : bool;
  message : string;
  output : string
}.

Section Restore.
Context (E : Env).

(** How [connection.send_config_set(config_lines)] ends is the
    environment's to say, like the answer to a command. *)
Variable env_config_set : list event -> conn -> list string -> send_result.

(** The exchange is written to the trace as one send that carries the
    lines joined by line feeds. *)
Definition send_config_set (connection : conn) (config_lines : list string)
  : M send_result :=
  fun w => let r := env_config_set (trace w) connection config_lines in
           (Ok r, log (EvSend connection (join newline config_lines) r) w).

(** The [except Exception as e] branch of [restore_config]. *)
Definition restore_failed (device_name error : string) : M restore_result :=
  forget device_name ;;
  ret {| success := false;
         message := "恢复配置时发生错误: " +:+ error;
         output := "" |}.

Definition restore_config (dm : DeviceManager) (device_name config_content : string)
  : M restore_result :=
  match lookup_device (devices dm) device_name with
  | None =>
      ret {| success := false;
             message := "设备 " +:+ device_name +:+ " 不存在";
             output := "" |}
  | Some device_info =>
      existing <- cached device_name ;;
      ready <- match existing with
               | Some connection => ret (Some connection)
               | None => connect E dm device_name None
               end ;;
      match ready with
      | None =>
          ret {| success := false; message := "无法连接到设备"; output := "" |}
      | Some connection =>
          let config_lines :=
            config_lines_loop (splitlines false config_content) [] in
          match config_lines with
          | [] =>
              ret {| success := false; message := "配置内容为空或无效";
                     output := "" |}
          | _ =>
              pushed <- send_config_set connection config_lines ;;
              match pushed with
              | SendError error => restore_failed device_name error
              | Output output =>
                  let save_command := _get_save_command (device_type device_info) in
                  if negb (save_command =? "")%string then
                    saved <- send_command E connection save_command ;;
                    match saved with
                    | SendError error => restore_failed device_name error
                    | Output save_output =>
                        ret {| success := true; message := "配置恢复成功";
                               output := output +:+ newline +:+ save_output |}
                    end
                  else
                    ret {| success := true; message := "配置恢复成功";
                           output := output |}
              end
          end
      end
  end.

End Restore.

(** A line that [restore_config] sends: trimmed, not empty, no comment,
    and none of the two banners of a configuration listing. *)
Definition is_config_line (line : string) : bool :=
  negb (line =? "")%string && negb (startswith "!" line)
  && negb (startswith "Building configuration" line)
  && negb (startswith "Current configuration" line).

(** The lines [restore_config] makes of a text. *)
Definition config_lines_of (config_content : string) : list string :=
  List.filter is_config_line (map strip (splitlines false config_content)).

(** The exchanges of a restoration on the session [c], its result, and
    the device's cache entry afterwards: the lines are pushed and the
    save command follows; a failure of either ends the run. *)
Inductive restore_run (config_lines : list string) (save_command : string) (c : conn)
  : list event -> restore_result -> option conn -> Prop :=
| restore_ok out save_out :
    restore_run config_lines save_command c
      [EvSend c (join newline config_lines) (Output out);
       EvSend c save_command (Output save_out)]
      {| success := true; message := "配置恢复成功";
         output := out +:+ newline +:+ save_out |}
      (Some c)
| restore_push_failed error :
    restore_run config_lines save_command c
      [EvSend c (join newline config_lines) (SendError error)]
      {| success := false; message := "恢复配置时发生错误: " +:+ error;
         output := "" |}
      None
| restore_save_failed out error :
    restore_run config_lines save_command c
      [EvSend c (join newline config_lines) (Output out);
       EvSend c save_command (SendError error)]
      {| success := false; message := "恢复配置时发生错误: " +:+ error;
         output := "" |}
      None.

(** ** What the runs look like *)

(** An authentication rejection, if there is one, ends the call: it is
    the last event, nothing was rejected before it, and the result is
    [None]. *)
Definition rejection_is_final (new : list event) (r : option conn) : Prop :=
  rejections new = [] \/
  exists pre info, new = pre ++ [EvOpen info AuthRejected]
                   /\ rejections pre = [] /\ r = None.

(** The sleep before an attempt: none before the first, then the delay
    times the number of attempts already made. *)
Definition sleep_before (delay : Z) (attempt : nat) : list event :=
  if (1 <? attempt)%nat then [EvSleep (delay * (Z.of_nat attempt - 1))] else [].

(** The runs of the retry loop of [connect], from attempt number
    [attempt] with [left] attempts left: the events and the result. An
    attempt that opens a session which answers the probe ends the loop
    with that session; a rejected attempt ends it with nothing; an
    attempt that times out, fails otherwise, or opens a session that does
    not answer the probe (which is then closed) is followed by the next
    attempt, until none is left. *)
Inductive attempts_run (delay : Z) (info : device_info)
  : nat -> nat -> list event -> option conn -> Prop :=
| attempts_spent attempt :
    attempts_run delay info attempt 0 [] None
| attempt_succeeds attempt left c :
    conn_peer c = info ->
    attempts_run delay info attempt (S left)
      (sleep_before delay attempt ++ [EvOpen info Opened; EvProbe c true])
      (Some c)
| attempt_rejected attempt left :
    attempts_run delay info attempt (S left)
      (sleep_before delay attempt ++ [EvOpen info AuthRejected])
      None
| attempt_times_out attempt left rest r :
    attempts_run delay info (S attempt) left rest r ->
    attempts_run delay info attempt (S left)
      (sleep_before delay attempt ++ EvOpen info TimedOut :: rest)
      r
| attempt_fails attempt left rest r :
    attempts_run delay info (S attempt) left rest r ->
    attempts_run delay info attempt (S left)
      (sleep_before delay attempt ++ EvOpen info OtherError :: rest)
      r
| attempt_dead_session attempt left c rest r :
    conn_peer c = info ->
    attempts_run delay info (S attempt) left rest r ->
    attempts_run delay info attempt (S left)
      (sleep_before delay attempt
         ++ EvOpen info Opened :: EvProbe c false :: EvDisconnect c :: rest)
      r.

(** The runs of [connect] to a registered device, given the session the
    cache holds for it: a cached session that answers the probe is
    returned as it is; one that does not is closed, and the attempts
    follow as for a device without cached session. *)
Inductive connect_run (delay : Z) (info : device_info) (budget : nat)
  : option conn -> list event -> option conn -> Prop :=
| connect_reuses c :
    connect_run delay info budget (Some c) [EvProbe c true] (Some c)
| connect_replaces c run r :
    attempts_run delay info 1 budget run r ->
    connect_run delay info budget (Some c)
      (EvProbe c false :: EvDisconnect c :: run) r
| connect_opens run r :
    attempts_run delay info 1 budget run r ->
    connect_run delay info budget None run r.

(** The reconnection inside [execute_command], made with the device's
    cache entry gone: the attempts of [connect] with the manager's own
    budget, or nothing at all for a device that is not registered. *)
Definition reconnection (dm : DeviceManager) (device_name : string)
    (re : list event) (r : option conn) : Prop :=
  match lookup_device (devices dm) device_name with
  | Some info => attempts_run (retry_delay dm) info 1 (connection_retries dm) re r
  | None => re = [] /\ r = None
  end.

(** How [execute_command] comes by its session, given the device's
    cache entry: a cached session that answers the probe is used as it
    is; one that does not is closed, its entry deleted, and the device
    reconnected; without a cached session the device is connected. *)
Inductive session_run (dm : DeviceManager) (device_name : string)
  : option conn -> list event -> option conn -> Prop :=
| session_cached c :
    session_run dm device_name (Some c) [EvProbe c true] (Some c)
| session_replaced c re r :
    reconnection dm device_name re r ->
    session_run dm device_name (Some c)
      (EvProbe c false :: EvDisconnect c :: re) r
| session_opened re r :
    reconnection dm device_name re r ->
    session_run dm device_name None re r.

(** The runs of the command loop on a session [c]: the events, the
    result, and the device's cache entry afterwards. [re] is the trace of
    the reconnection, which sends nothing, and [c'] the session it
    returns. *)
Inductive command_run (dm : DeviceManager) (device_name command : string)
    (retry : bool) (c : conn)
  : list event -> option string -> option conn -> Prop :=
| run_ok out :
    command_run dm device_name command retry c
      [EvSend c command (Output out)] (Some out) (Some c)
| run_command_error m :
    retry = true -> is_connection_error m = false ->
    command_run dm device_name command retry c
      [EvSend c command (SendError m)] None (Some c)
| run_no_retry m :
    retry = false ->
    command_run dm device_name command retry c
      [EvSend c command (SendError m); EvDisconnect c] None None
| run_reconnect_failed m re :
    retry = true -> is_connection_error m = true -> sends_of re = [] ->
    reconnection dm device_name re None ->
    command_run dm device_name command retry c
      (EvSend c command (SendError m) :: EvDisconnect c :: re) None None
| run_retry_ok m re c' out :
    retry = true -> is_connection_error m = true -> sends_of re = [] ->
    reconnection dm device_name re (Some c') ->
    command_run dm device_name command retry c
      (EvSend c command (SendError m) :: EvDisconnect c
         :: re ++ [EvSend c' command (Output out)])
      (Some out) (Some c')
| run_retry_failed m re c' m' :
    retry = true -> is_connection_error m = true -> sends_of re = [] ->
    reconnection dm device_name re (Some c') ->
    command_run dm device_name command retry c
      (EvSend c command (SendError m) :: EvDisconnect c
         :: re ++ [EvSend c' command (SendError m'); EvDisconnect c'])
      None None.

End DeviceManager.

(* ===================================================================== *)
(** * backup_manager.py *)
(* ===================================================================== *)

Module BackupManager.
Import PyStr Sys.

(** A time is a naive local datetime, counted in microseconds from
    [datetime.min], the first instant of year 1; [datetime_max] is the
    last instant a datetime can hold. *)
Definition microseconds_per_day : Z := 86400000000.

Definition datetime_max : Z := 315537897599999999.

(** The format of the file names and the format of the history. *)
Definition key_format : string := "%Y%m%d_%H%M%S".

Definition history_format : string := "%Y-%m-%d %H:%M:%S".

(** [retention_days] comes from the configuration. [strftime] and
    [strptime] are datetime's rendering and parsing, taken as given:
    [strftime fmt t] is [t.strftime(fmt)], and [strptime s fmt] is
    [datetime.strptime(s, fmt)], [None] standing for ValueError. *)
Record BackupManager := {
  retention_days : Z;
  strftime : string -> Z -> string;
  strptime : string -> string -> option Z
}.

(** One line of [get_backup_history]: the time as the history renders
    it, the file, and its size in bytes. A path is given by its base
    name, the directory being the device's. *)
Record backup_info := {
  timestamp : string;
  file_path : string;
  size : nat
}.

(** [t - timedelta(days=days)]; [None] stands for OverflowError, which
    is raised for more than 999999999 days either way and for a result
    that no datetime can hold. *)
Definition minus_days (t days : Z) : option Z :=
  if Z.abs days <=? 999999999 then
    let r := t - days * microseconds_per_day in
    if (0 <=? r) && (r <=? datetime_max) then Some r else None
  else None.

Fixpoint lookup_entry (t : list (string * entry)) (device_name : string)
  : option entry :=
  match t with
  | [] => None
  | (name, e) :: rest =>
      if (name =? device_name)%string then Some e else lookup_entry rest device_name
  end.

Fixpoint update_entry (t : list (string * entry)) (device_name : string)
    (e : entry) : list (string * entry) :=
  match t with
  | [] => [(device_name, e)]
  | (name, e') :: rest =>
      if (name =? device_name)%string then (name, e) :: rest
      else (name, e') :: update_entry rest device_name e
  end.

Fixpoint find_file (l : list file) (name : string) : option file :=
  match l with
  | [] => None
  | f :: rest =>
      if (file_name f =? name)%string then Some f else find_file rest name
  end.

(** Writing a file: over the one of that name if there is one, as a new
    entry otherwise. *)
Fixpoint put_file (l : list file) (f : file) : list file :=
  match l with
  | [] => [f]
  | g :: rest =>
      if (file_name g =? file_name f)%string then f :: rest
      else g :: put_file rest f
  end.

Definition drop_file (l : list file) (name : string) : list file :=
  List.filter (fun f => negb (file_name f =? name)%string) l.

Definition directory (t : list (string * entry)) (device_name : string)
  : list file :=
  match lookup_entry t device_name with
  | Some (Directory l) => l
  | _ => []
  end.

(** [history.sort(key=lambda x: x['timestamp'], reverse=True)]: on the
    rendered times, compared as texts; descending, and stable. *)
Fixpoint insert_desc (x : backup_info) (l : list backup_info) : list backup_info :=
  match l with
  | [] => [x]
  | y :: rest =>
      if str_lt (timestamp x) (timestamp y) then y :: insert_desc x rest else x :: l
  end.

Fixpoint sort_desc (l : list backup_info) : list backup_info :=
  match l with
  | [] => []
  | x :: rest => insert_desc x (sort_desc rest)
  end.

Section WithEnv.
Context (E : Env).

Definition io (req : io_request) : M bool :=
  fun w => let ok := env_io_ok E (trace w) req in
           (Ok ok, log (EvIo req ok) w).

Definition now : M Z := get (fun w => env_now E (trace w)).

Definition tree : M (list (string * entry)) := get files.

Definition set_directory (device_name : string) (l : list file) : M unit :=
  modify (fun w => with_files (update_entry (files w) device_name (Directory l)) w).

(** [get_device_backup_dir]: the directory is made when nothing of that
    name exists. *)
Definition get_device_backup_dir (device_name : string) : M unit :=
  t <- tree ;;
  match lookup_entry t device_name with
  | Some _ => ret tt
  | None =>
      ok <- io (IoMkdir device_name) ;;
      if ok then set_directory device_name [] else raise
  end.

(** Putting a text, written at the current time, under a name of the
    device's directory. *)
Definition put_text (device_name backup_file text : string) : M unit :=
  mtime <- now ;;
  t <- tree ;;
  set_directory device_name
    (put_file (directory t device_name)
       {| file_name := backup_file; file_content := text;
          file_mtime := Some mtime |}).

(** [with open(backup_file, 'w', encoding='utf-8') as f:
    f.write(config_content)]: opening makes the file, or empties the one
    of that name; a write that fails (or the flush on closing) leaves a
    beginning of the text in it, counted in whole characters. *)
Definition write_text (device_name backup_file text : string) : M unit :=
  opened <- io (IoOpen device_name backup_file) ;;
  if negb opened then raise
  else
    put_text device_name backup_file "" ;;
    written <- io (IoWrite device_name backup_file) ;;
    if written then put_text device_name backup_file text
    else
      count <- get (fun w => env_written E (trace w)) ;;
      put_text device_name backup_file (str_take count text) ;;
      raise.

(** [os.path.exists] and [os.path.getsize] after the write are the one
    request [IoStat]; either of them failing ends in [None]. *)
Definition backup_config (bm : BackupManager) (device_name config_content : string)
  : M (option string) :=
  catch
    (get_device_backup_dir device_name ;;
     timestamp <- now ;;
     let backup_file := strftime bm key_format timestamp +:+ ".cfg" in
     t <- tree ;;
     match lookup_entry t device_name with
     | Some (Directory _) =>
         write_text device_name backup_file config_content ;;
         found <- io (IoStat device_name backup_file) ;;
         if found then ret (Some backup_file) else ret None
     | _ => raise
     end)
    (ret None).

(** The [for file in files] loop of [get_backup_history]: a file that
    cannot be examined, or whose name holds no time while its
    modification time cannot be read, is passed over. *)
Fixpoint history_loop (bm : BackupManager) (device_name : string)
    (files : list file) (history : list backup_info) : M (list backup_info) :=
  match files with
  | [] => ret history
  | f :: rest =>
      if negb (endswith ".cfg" (file_name f)) then
        history_loop bm device_name rest history
      else
        ok <- io (IoStat device_name (file_name f)) ;;
        if negb ok then history_loop bm device_name rest history
        else
          let timestamp_str := replace ".cfg" "" (file_name f) in
          let timestamp :=
            match strptime bm timestamp_str key_format with
            | Some t => Some t
            | None => file_mtime f
            end in
          match timestamp with
          | None => history_loop bm device_name rest history
          | Some timestamp =>
              history_loop bm device_name rest
                (history ++ [{| timestamp := strftime bm history_format timestamp;
                                file_path := file_name f;
                                size := utf8_length (file_content f) |}])
          end
  end.

Definition get_backup_history (bm : BackupManager) (device_name : string)
  : M (list backup_info) :=
  t <- tree ;;
  match lookup_entry t device_name with
  | Some (Directory l) =>
      ok <- io (IoListdir device_name) ;;
      if negb ok then ret []
      else
        history <- history_loop bm device_name l [] ;;
        ret (sort_desc history)
  | _ => ret []
  end.

Definition get_latest_backup (bm : BackupManager) (device_name : string)
  : M (option string) :=
  history <- get_backup_history bm device_name ;;
  match history with
  | latest :: _ => ret (Some (file_path latest))
  | [] => ret None
  end.

(** [get_backup_content]: the file is read in text mode. *)
Definition get_backup_content (bm : BackupManager) (device_name backup_file : string)
  : M (option string) :=
  get_device_backup_dir device_name ;;
  t <- tree ;;
  match find_file (directory t device_name) backup_file with
  | None => ret None
  | Some f =>
      ok <- io (IoRead device_name backup_file) ;;
      ret (if ok then Some (universal_newlines (file_content f)) else None)
  end.

(** [os.remove(file_path)] *)
Definition remove (device_name file : string) : M unit :=
  ok <- io (IoRemove device_name file) ;;
  if ok then
    t <- tree ;;
    set_directory device_name (drop_file (directory t device_name) file)
  else raise.

(** The body of the [for file in files] loop of [cleanup_old_backups]:
    whatever the first branch raises is caught, and what the handler
    raises is not. *)
Definition cleanup_file (bm : BackupManager) (device_name : string)
    (cutoff_date : Z) (f : file) : M unit :=
  if endswith ".cfg" (file_name f) then
    let timestamp_str := replace ".cfg" "" (file_name f) in
    catch
      (match strptime bm timestamp_str key_format with
       | Some file_timestamp =>
           if file_timestamp <? cutoff_date
           then remove device_name (file_name f)
           else ret tt
       | None => raise
       end)
      (ok <- io (IoStat device_name (file_name f)) ;;
       if negb ok then raise
       else
         match file_mtime f with
         | None => raise
         | Some mtime =>
             if mtime <? cutoff_date
             then remove device_name (file_name f)
             else ret tt
         end)
  else ret tt.

Fixpoint cleanup_files (bm : BackupManager) (device_name : string)
    (cutoff_date : Z) (files : list file) : M unit :=
  match files with
  | [] => ret tt
  | f :: rest =>
      cleanup_file bm device_name cutoff_date f ;;
      cleanup_files bm device_name cutoff_date rest
  end.

(** The body of the [for dev in devices] loop. *)
Definition cleanup_device (bm : BackupManager) (cutoff_date : Z) (dev : string)
  : M unit :=
  t <- tree ;;
  match lookup_entry t dev with
  | Some (Directory l) =>
      ok <- io (IoListdir dev) ;;
      if negb ok then raise else cleanup_files bm dev cutoff_date l
  | _ => ret tt
  end.

Fixpoint cleanup_devices (bm : BackupManager) (cutoff_date : Z)
    (devices : list string) : M unit :=
  match devices with
  | [] => ret tt
  | dev :: rest =>
      cleanup_device bm cutoff_date dev ;;
      cleanup_devices bm cutoff_date rest
  end.

(** [os.listdir(self.backup_dir)] *)
Definition listdir_root : M (list string) :=
  ok <- io IoListroot ;;
  if ok then t <- tree ;; ret (map fst t) else raise.

Definition cleanup_old_backups (bm : BackupManager) (device_name : option string)
  : M unit :=
  devices <- match device_name with
             | Some d => if (d =? "")%string then listdir_root else ret [d]
             | None => listdir_root
             end ;;
  current <- now ;;
  match minus_days current (retention_days bm) with
  | Some cutoff_date => cleanup_devices bm cutoff_date devices
  | None => raise
  end.

(** [delete_backup] *)
Definition delete_backup (bm : BackupManager) (device_name backup_file : string)
  : M bool :=
  get_device_backup_dir device_name ;;
  t <- tree ;;
  match find_file (directory t device_name) backup_file with
  | None => ret false
  | Some _ => catch (remove device_name backup_file ;; ret true) (ret false)
  end.

End WithEnv.

(** ** Records and names *)

(** The time of a record: parsed from its name, or else the file's
    modification time; [None] when neither can be had. *)
Definition record_time (bm : BackupManager) (f : file) : option Z :=
  match strptime bm (replace ".cfg" "" (file_name f)) key_format with
  | Some t => Some t
  | None => file_mtime f
  end.

(** The line of [get_backup_history] for a stored file. *)
Definition record_of (bm : BackupManager) (f : file) : option backup_info :=
  match record_time bm f with
  | Some t =>
      Some {| timestamp := strftime bm history_format t;
              file_path := file_name f;
              size := utf8_length (file_content f) |}
  | None => None
  end.

(** The files [get_backup_history] and retention look at. *)
Definition is_cfg (f : file) : bool := endswith ".cfg" (file_name f).

(** A name that stands for an entry of the directory it is looked up
    in: not empty, not a dot name, no separator. *)
Definition plain_name (name : string) : bool :=
  negb (name =? "")%string && negb (name =? ".")%string
  && negb (name =? "..")%string
  && negb (contains "/" name) && negb (contains "\" name).

(** The device's directory can be made and its files written: no
    request to make it, or to open, write or examine a file of it,
    fails. *)
Definition storable (E : Env) (device_name : string) : Prop :=
  (forall tr, env_io_ok E tr (IoMkdir device_name) = true)
  /\ (forall tr f, env_io_ok E tr (IoOpen device_name f) = true)
  /\ (forall tr f, env_io_ok E tr (IoWrite device_name f) = true)
  /\ (forall tr f, env_io_ok E tr (IoStat device_name f) = true).

(** The beginnings of a text. *)
Definition is_beginning (s text : string) : Prop :=
  exists n, s = str_take n text.

(** ** Retention in the specification's words *)

(** A record is expired when its time predates the cutoff. *)
Definition expired (bm : BackupManager) (cutoff_date : Z) (f : file) : bool :=
  endswith ".cfg" (file_name f)
  && match record_time bm f with
     | Some t => t <? cutoff_date
     | None => false
     end.

(** What pruning makes of an entry of the backup directory. *)
Definition pruned (bm : BackupManager) (cutoff_date : Z) (e : option entry)
  : option entry :=
  match e with
  | Some (Directory cur) =>
      Some (Directory (List.filter (fun f => negb (expired bm cutoff_date f)) cur))
  | other => other
  end.

(** [hit l g]: some expired file of [l] bears the name of [g]. *)
Definition hit (bm : BackupManager) (cutoff_date : Z) (l : list file) (g : file)
  : bool :=
  existsb (fun f => expired bm cutoff_date f && (file_name f =? file_name g)%string) l.

(** A directory tree as a file system holds it: no two entries of the
    backup directory, and no two files of a device, share a name. *)
Definition wf_tree (t : list (string * entry)) : Prop :=
  NoDup (map fst t) /\
  forall dev l, In (dev, Directory l) t -> NoDup (map file_name l).

(** Every record of the tree has a time: its name holds one, or its
    modification time can be read. *)
Definition timed_tree (bm : BackupManager) (t : list (string * entry)) : Prop :=
  forall dev l f, In (dev, Directory l) t -> In f l -> is_cfg f = true ->
                  is_Some (record_time bm f).

(** The device a request is about. *)
Definition request_device (req : io_request) : option string :=
  match req with
  | IoListroot => None
  | IoMkdir d | IoListdir d | IoStat d _ | IoRead d _ | IoOpen d _
  | IoWrite d _ | IoRemove d _ => Some d
  end.

(** Greatest first: no element is smaller, as text, than one after it. *)
Definition newest_first (a b : backup_info) : Prop :=
  str_lt (timestamp a) (timestamp b) = false.

(** The failures that pruning does not catch: of listing the backup
    directory or a device's directory, and of reading a file's status. *)
Definition fatal_failure (e : event) : Prop :=
  match e with
  | EvIo IoListroot false | EvIo (IoListdir _) false | EvIo (IoStat _ _) false => True
  | _ => False
  end.

(** An event that is a request about [d]'s directory. *)
Definition about_device (d : string) (e : event) : Prop :=
  exists req ok, e = EvIo req ok /\ request_device req = Some d.

(** What pruning in [d]'s directory leaves in the trace: requests about
    [d] only; none of them a fatal failure when it returns, and none but
    the last when it raises. *)
Definition prune_trace (d : string) (r : res unit) (new : list event) : Prop :=
  Forall (about_device d) new
  /\ match r with
     | Ok _ => Forall (fun e => ~ fatal_failure e) new
     | Raised => exists pre e, new = pre ++ [e]
                               /\ Forall (fun e => ~ fatal_failure e) pre
     end.

End BackupManager.

(* ===================================================================== *)
(** * scheduler.py *)
(* ===================================================================== *)

Module Scheduler.
Import PyStr Sys.

(** The collaborators the scheduler is built with; [differ] is what its
    diff engine compares with. *)
Record BackupScheduler := {
  device_manager : DeviceManager.DeviceManager;
  backup_manager : BackupManager.BackupManager;
  differ : list string -> list string -> list string
}.

Section WithEnv.
Context (E : Env).

(** [self.email_notifier.send_alert(device_name, diff_result)] *)
Definition send_alert (device_name : string) (diff_result : DiffEngine.DiffResult)
  : M bool :=
  fun w => let r := env_alert E (trace w) device_name diff_result in
           let w' := log (EvAlert device_name diff_result r) w in
           match r with
           | AlertSent => (Ok true, w')
           | AlertNotSent => (Ok false, w')
           | AlertRaised => (Raised, w')
           end.

(** Truth of a text or [None] in a condition. *)
Definition truthy (o : option string) : bool :=
  match o with
  | Some s => negb (s =? "")%string
  | None => false
  end.

(** The text behind a value already tested for truth. *)
Definition text_of (o : option string) : string :=
  match o with
  | Some s => s
  | None => ""
  end.

Definition _backup_device (sch : BackupScheduler) (device_name : string) : M unit :=
  config_content <- DeviceManager.get_config E (device_manager sch) device_name ;;
  if negb (truthy config_content) then ret tt
  else
    let config_content := text_of config_content in
    latest_backup <- BackupManager.get_latest_backup E (backup_manager sch) device_name ;;
    backup_file <- BackupManager.backup_config E (backup_manager sch)
                     device_name config_content ;;
    match backup_file with
    | None => ret tt
    | Some _ =>
        match latest_backup with
        | Some latest =>
            old_config <- BackupManager.get_backup_content E (backup_manager sch)
                            device_name latest ;;
            if truthy old_config then
              let diff_result :=
                DiffEngine.compare_configs (differ sch) (text_of old_config)
                                           config_content in
              if DiffEngine.has_changes diff_result then
                send_alert device_name diff_result ;; ret tt
              else ret tt
            else ret tt
        | None => ret tt
        end
    end.

(** The [for device_name in devices] loop of [backup_all_devices], with
    its two counters. *)
Fixpoint backup_loop (sch : BackupScheduler) (devices : list string)
    (success_count fail_count : nat) : M (nat * nat) :=
  match devices with
  | [] => ret (success_count, fail_count)
  | device_name :: rest =>
      done <- catch (emit (EvBackupStart device_name) ;;
                     _backup_device sch device_name ;;
                     ret true)
                    (ret false) ;;
      if done : bool
      then backup_loop sch rest (S success_count) fail_count
      else backup_loop sch rest success_count (S fail_count)
  end.

(** Returns the two counts of the closing log line, or [None] when no
    device is configured. *)
Definition backup_all_devices (sch : BackupScheduler) : M (option (nat * nat)) :=
  let devices := map fst (DeviceManager.devices (device_manager sch)) in
  match devices with
  | [] => ret None
  | _ =>
      counts <- backup_loop sch devices 0 0 ;;
      catch (emit EvCleanupStart ;;
             BackupManager.cleanup_old_backups E (backup_manager sch) None)
            (ret tt) ;;
      ret (Some counts)
  end.

(** The hour and minute [_setup_schedule] hands to the cron trigger:
    [hour, minute = map(int, backup_time.split(':'))], and ten past ten
    on ValueError. The trigger's own check of the two numbers, which
    raises out of the constructor, is not part of this. *)
Definition scheduled_time (max_str_digits : nat) (backup_time : string) : Z * Z :=
  match map (int max_str_digits) (split ":" backup_time) with
  | [Some hour; Some minute] => (hour, minute)
  | _ => (10, 10)
  end.

(** ** Runs in the specification's words *)

(** Within a run of the loop that starts in [w] and ends in [w_loop], the
    pipeline of [d] runs in full, from a world in which [d]'s directory
    and cached session are as they were in [w], and what it leaves in
    [d]'s directory is what the loop ends with. *)
Definition isolated (sch : BackupScheduler) (d : string) (w w_loop : World) : Prop :=
  exists w_d r w_d' pre post,
    _backup_device sch d (log (EvBackupStart d) w_d) = (r, w_d')
    /\ trace w_d = trace w ++ pre
    /\ trace w_loop = trace w_d' ++ post
    /\ BackupManager.lookup_entry (files w_d) d = BackupManager.lookup_entry (files w) d
    /\ connections w_d !! d = connections w !! d
    /\ BackupManager.lookup_entry (files w_loop) d
       = BackupManager.lookup_entry (files w_d') d.

(** A device that answers: every connection attempt opens a session,
    every session to it is alive and answers the capture command with
    [cfg], and its directory can be made and its files written. *)
Definition healthy (sch : BackupScheduler) (d : string) (info : device_info)
    (cfg : string) : Prop :=
  DeviceManager.lookup_device (DeviceManager.devices (device_manager sch)) d = Some info
  /\ (1 <= DeviceManager.connection_retries (device_manager sch))%nat
  /\ cfg <> ""
  /\ (forall tr, env_open E tr info = Opened)
  /\ (forall tr c, conn_peer c = info -> env_probe E tr c = true)
  /\ (forall tr c, conn_peer c = info ->
        env_send E tr c (DeviceManager.backup_command (device_manager sch)) = Output cfg)
  /\ (forall tr, env_io_ok E tr (IoMkdir d) = true)
  /\ (forall tr f, env_io_ok E tr (IoOpen d f) = true)
  /\ (forall tr f, env_io_ok E tr (IoWrite d f) = true)
  /\ (forall tr f, env_io_ok E tr (IoStat d f) = true).

End WithEnv.

End Scheduler.

(* ===================================================================== *)
(** * config.py *)
(* ===================================================================== *)

(** The device lines of the configuration file: how [add_device] and
    [update_device] write one, and how [get_devices] reads them. The
    parser behind [self.config] is not modelled; [get_devices] is given
    what [self.config['devices'].items()] yields. *)
Module Config.
Import PyStr Sys.

(** A value that ConfigParser's interpolation stores and reads back as
    it is: one without a percent sign. The parser refuses to store a
    lone percent sign and reads a doubled one as one; such values are
    left out of what follows. *)
Definition plain_value (value : string) : bool := negb (contains "%" value).

(** [f"{ip},{username},{password},{device_type}"] *)
Definition device_value (ip username password device_type : string) : string :=
  ip +:+ "," +:+ username +:+ "," +:+ password +:+ "," +:+ device_type.

(** [devices[name] = info] on a dict kept in insertion order. *)
Fixpoint set_device (devices : list (string * device_info)) (name : string)
    (info : device_info) : list (string * device_info) :=
  match devices with
  | [] => [(name, info)]
  | (n, i) :: rest =>
      if (n =? name)%string then (n, info) :: rest
      else (n, i) :: set_device rest name info
  end.

(** The [for name, value in ...items()] loop of [get_devices]. *)
Fixpoint devices_loop (items : list (string * string))
    (devices : list (string * device_info)) : list (string * device_info) :=
  match items with
  | [] => devices
  | (name, value) :: rest =>
      let parts := split "," value in
      if (4 <=? length parts)%nat then
        devices_loop rest
          (set_device devices name
             {| ip := nth 0 parts ""; username := nth 1 parts "";
                password := nth 2 parts ""; device_type := nth 3 parts "" |})
      else devices_loop rest devices
  end.

(** [get_devices]; [None] when the file has no [devices] section. *)
Definition get_devices (section : option (list (string * string)))
  : list (string * device_info) :=
  match section with
  | Some items => devices_loop items []
  | None => []
  end.

(** The value [update_device] writes over [old_value]: an empty
    password stands for the one already stored. *)
Definition updated_value (old_value ip username password device_type : string)
  : string :=
  let password :=
    if (password =? "")%string then
      let old_parts := split "," old_value in
      if (4 <=? length old_parts)%nat then nth 2 old_parts "" else password
    else password in
  device_value ip username password device_type.

End Config.

(* ===================================================================== *)
(** * app.py *)
(* ===================================================================== *)

(** The two routes that call into the backup pipeline by hand, without
    their JSON wrapping: an empty text stands for a request field that is
    missing or empty. *)
Module App.
Import PyStr Sys.

(** What [POST /api/backup] answers: 400, the two 500 answers, or the
    stored file with the time of the newest record ([None] for the empty
    text the route sends when the history is empty). *)
Inductive backup_response :=
| BackupNameMissing
| BackupCaptureFailed
| BackupStoreFailed
| BackupDone (backup_file : string) (timestamp : option string).

Section WithEnv.
Context (E : Env).

Definition backup_device (dm : DeviceManager.DeviceManager)
    (bm : BackupManager.BackupManager) (device_name : string)
  : M backup_response :=
  if (device_name =? "")%string then ret BackupNameMissing
  else
    config_content <- DeviceManager.get_config E dm device_name ;;
    if negb (Scheduler.truthy config_content) then ret BackupCaptureFailed
    else
      backup_file <- BackupManager.backup_config E bm device_name
                       (Scheduler.text_of config_content) ;;
      match backup_file with
      | None => ret BackupStoreFailed
      | Some backup_file =>
          history <- BackupManager.get_backup_history E bm device_name ;;
          ret (BackupDone backup_file
                 (match history with
                  | newest :: _ => Some (BackupManager.timestamp newest)
                  | [] => None
                  end))
      end.

(** What [GET /api/diff] answers: 400 twice, 500 when a file cannot be
    read, or the comparison with the two file names. An exception of
    [get_backup_content] is the route's other 500. *)
Inductive diff_response :=
| DiffNameMissing
| DiffTooFewBackups
| DiffUnreadable
| DiffDone (backup1 backup2 : string) (diff_result : DiffEngine.DiffResult)
           (summary : string).

Definition get_diff (differ : list string -> list string -> list string)
    (bm : BackupManager.BackupManager) (device_name backup1 backup2 : string)
  : M diff_response :=
  if (device_name =? "")%string then ret DiffNameMissing
  else
    chosen <-
      (if (backup1 =? "")%string || (backup2 =? "")%string then
         history <- BackupManager.get_backup_history E bm device_name ;;
         match history with
         | first :: second :: _ =>
             ret (Some (BackupManager.file_path first,
                        BackupManager.file_path second))
         | _ => ret None
         end
       else ret (Some (backup1, backup2))) ;;
    match chosen with
    | None => ret DiffTooFewBackups
    | Some (backup1, backup2) =>
        config1 <- BackupManager.get_backup_content E bm device_name backup1 ;;
        config2 <- BackupManager.get_backup_content E bm device_name backup2 ;;
        if negb (Scheduler.truthy config1) || negb (Scheduler.truthy config2)
        then ret DiffUnreadable
        else
          let diff_result :=
            DiffEngine.compare_configs differ (Scheduler.text_of config1)
                                       (Scheduler.text_of config2) in
          ret (DiffDone backup1 backup2 diff_result
                        (DiffEngine.get_summary diff_result))
    end.

End WithEnv.

End App.

(* ===================================================================== *)
(** * What a step may touch *)
(* ===================================================================== *)

Module Frames.
Import Sys.

(** [preserves R m]: from any world, [m] ends in a world related to it
    by [R], whether it returns or raises. *)
Definition preserves (R : World -> World -> Prop) {A} (m : M A) : Prop :=
  forall w, R w (m w).2.

(** A step of the device manager on behalf of [device]: it talks to
    devices, leaves the backup tree alone and touches no other device's
    cache entry. *)
Definition net_step (device : string) (w w' : World) : Prop :=
  exists new,
    trace w' = trace w ++ new
    /\ Forall is_network new
    /\ files w' = files w
    /\ forall other, other <> device ->
         connections w' !! other = connections w !! other.

(** A step of the backup manager on [device]'s directory. *)
Definition store_step (device : string) (w w' : World) : Prop :=
  exists new,
    trace w' = trace w ++ new
    /\ Forall is_io new
    /\ connections w' = connections w
    /\ forall other, other <> device ->
         BackupManager.lookup_entry (files w') other
         = BackupManager.lookup_entry (files w) other.

(** A step that only consults the backup tree. *)
Definition look_step (w w' : World) : Prop :=
  exists new,
    trace w' = trace w ++ new
    /\ Forall is_io new
    /\ connections w' = connections w
    /\ files w' = files w.

(** A step of retention pruning: requests to the file system only. *)
Definition prune_step (w w' : World) : Prop :=
  exists new,
    trace w' = trace w ++ new
    /\ Forall is_io new
    /\ connections w' = connections w.

(** A step of [device]'s pipeline: no phase mark, and nothing of another
    device is touched. *)
Definition pipeline_step (device : string) (w w' : World) : Prop :=
  exists new,
    trace w' = trace w ++ new
    /\ Forall (fun e => ~ is_mark e) new
    /\ (forall other, other <> device ->
          connections w' !! other = connections w !! other)
    /\ forall other, other <> device ->
         BackupManager.lookup_entry (files w') other
         = BackupManager.lookup_entry (files w) other.

End Frames.

(* ===================================================================== *)
(** * Sample devices, environments and worlds *)
(* ===================================================================== *)

Module Samples.
Import PyStr Sys.

Definition r1 : device_info :=
  {| ip := "10.0.0.1"; username := "admin"; password := "secret";
     device_type := "cisco_ios" |}.

Definition r2 : device_info :=
  {| ip := "10.0.0.2"; username := "admin"; password := "secret";
     device_type := "cisco_ios" |}.

Definition dm : DeviceManager.DeviceManager :=
  DeviceManager.init [("R1", r1); ("R2", r2)] "show running-config".

(** A stand-in for the two formats: a time is written as its number of
    microseconds, and read back from a string of digits. *)
Fixpoint digits_value (s : string) (acc : Z) : option Z :=
  match s with
  | "" => Some acc
  | String c r =>
      let n := N_of_ascii c in
      if ((48 <=? n) && (n <=? 57))%N
      then digits_value r (10 * acc + Z.of_N (n - 48))
      else None
  end.

Definition parse_number (s : string) : option Z :=
  match s with
  | "" => None
  | _ => digits_value s 0
  end.

Definition bm : BackupManager.BackupManager :=
  {| BackupManager.retention_days := 30;
     BackupManager.strftime := fun _ t => pretty t;
     BackupManager.strptime := fun s _ => parse_number s |}.

Definition sch : Scheduler.BackupScheduler :=
  {| Scheduler.device_manager := dm;
     Scheduler.backup_manager := bm;
     Scheduler.differ := DiffEngine.unified_diff_headers |}.

(** A process that has just started, with an empty backup directory. *)
Definition fresh : World :=
  {| trace := []; connections := ∅; files := [] |}.

(** The clock starts in the year 2024 and advances by one second per
    event. *)
Definition start_time : Z := 63840000000000000.

Definition clock (tr : list event) : Z :=
  start_time + 1000000 * Z.of_nat (length tr).

(** Every device opens a session and answers every command with [answer];
    nothing fails. *)
Definition calm (answer : string) : Env :=
  {| env_open := fun _ _ => Opened;
     env_probe := fun _ _ => true;
     env_send := fun _ _ _ => Output answer;
     env_now := clock;
     env_io_ok := fun _ _ => true;
     env_written := fun _ => 0%nat;
     env_alert := fun _ _ _ => AlertSent |}.

(** R1 never answers a connection attempt; R2 answers as in [calm]. *)
Definition r1_down (answer : string) : Env :=
  {| env_open := fun _ info => if (ip info =? "10.0.0.1")%string then TimedOut else Opened;
     env_probe := fun _ _ => true;
     env_send := fun _ _ _ => Output answer;
     env_now := clock;
     env_io_ok := fun _ _ => true;
     env_written := fun _ => 0%nat;
     env_alert := fun _ _ _ => AlertSent |}.

(** The first connection attempt times out, the second is rejected. *)
Definition timeout_then_rejected : Env :=
  {| env_open := fun tr _ => match opens_of tr with [] => TimedOut | _ => AuthRejected end;
     env_probe := fun _ _ => true;
     env_send := fun _ _ _ => Output "";
     env_now := clock;
     env_io_ok := fun _ _ => true;
     env_written := fun _ => 0%nat;
     env_alert := fun _ _ _ => AlertSent |}.

(** The session is fine, and the command fails with an error that is not
    about the connection. *)
Definition command_error : Env :=
  {| env_open := fun _ _ => Opened;
     env_probe := fun _ _ => true;
     env_send := fun _ _ _ =>
       SendError "Search pattern never detected in send_command_expect: R1#";
     env_now := clock;
     env_io_ok := fun _ _ => true;
     env_written := fun _ => 0%nat;
     env_alert := fun _ _ _ => AlertSent |}.

(** The directory of R1 cannot be listed; everything else works. *)
Definition r1_unlistable : Env :=
  {| env_open := fun _ _ => Opened;
     env_probe := fun _ _ => true;
     env_send := fun _ _ _ => Output "hostname R1";
     env_now := clock;
     env_io_ok := fun _ req =>
       match req with
       | IoListdir d => negb (d =? "R1")%string
       | _ => true
       end;
     env_written := fun _ => 0%nat;
     env_alert := fun _ _ _ => AlertSent |}.

(** Every write fails after four characters; everything else works. *)
Definition disk_full : Env :=
  {| env_open := fun _ _ => Opened;
     env_probe := fun _ _ => true;
     env_send := fun _ _ _ => Output "hostname R1";
     env_now := clock;
     env_io_ok := fun _ req =>
       match req with
       | IoWrite _ _ => false
       | _ => true
       end;
     env_written := fun _ => 4%nat;
     env_alert := fun _ _ _ => AlertSent |}.

Definition old_record (content : string) : file :=
  {| file_name := "1000.cfg"; file_content := content; file_mtime := Some 1000 |}.

Definition recent_record (content : string) : file :=
  {| file_name := "63839999000000000.cfg"; file_content := content;
     file_mtime := Some 63839999000000000 |}.

(** Both devices hold one record long past retention and one recent
    record. *)
Definition stocked : World :=
  {| trace := [];
     connections := ∅;
     files := [ ("R1", Directory [old_record "hostname R1"; recent_record "hostname R1"]);
                ("R2", Directory [old_record "hostname R2"; recent_record "hostname R2"]) ] |}.

(** R1 already holds a record under the very key that the next store
    will use (a capture in the same second). *)
Definition colliding : World :=
  {| trace := [];
     connections := ∅;
     files := [ ("R1", Directory [ {| file_name := "63840000005000000.cfg";
                                      file_content := "hostname R1";
                                      file_mtime := Some 63840000005000000 |} ]) ] |}.

(** R1's session is in the cache, opened earlier. *)
Definition r1_session : conn := {| conn_peer := r1; conn_serial := 0 |}.

Definition connected : World :=
  {| trace := []; connections := {["R1" := r1_session]}; files := [] |}.

(** Two captures of one device that differ in the NTP clock-period
    line only. *)
Definition ntp_capture (period : string) : string :=
  join newline
    [ "hostname R1";
      "ntp clock-period " +:+ period;
      "interface Vlan1" ].

End Samples.

(* ===================================================================== *)
(** * Theorems *)
(* ===================================================================== *)

Section StringFacts.
Import PyStr DiffEngine.

Lemma lower_char_not_upper c : is_upper (lower_char c) = false.
Proof. by destruct c as [[] [] [] [] [] [] [] []]. Qed.

Lemma all_lower_lower s : all_lower (lower s) = true.
Proof.
  induction s as [|c r IH]; simpl; [done|].
  by rewrite lower_char_not_upper, IH.
Qed.

Lemma all_lower_lstrip s : all_lower s = true -> all_lower (lstrip s) = true.
Proof.
  induction s as [|c r IH]; simpl; [done|].
  intros H. destruct (isspace c); [|done].
  apply IH. by apply andb_prop in H as [_ ?].
Qed.

Lemma all_lower_rstrip s : all_lower s = true -> all_lower (rstrip s) = true.
Proof.
  induction s as [|c r IH]; simpl; [done|].
  intros [Hc Hr]%andb_prop. specialize (IH Hr).
  destruct (rstrip r) eqn:E.
  - destruct (isspace c); simpl; [done|]. by rewrite Hc.
  - simpl in *. by rewrite Hc, IH.
Qed.

Lemma all_lower_strip s : all_lower s = true -> all_lower (strip s) = true.
Proof. intros H. by apply all_lower_lstrip, all_lower_rstrip. Qed.

Lemma startswith_all_lower p s :
  all_lower s = true -> startswith p s = true -> all_lower p = true.
Proof.
  revert s. induction p as [|a p IH]; intros [|b s]; simpl; try done.
  intros [Hb Hs]%andb_prop [Hab Hp]%andb_prop.
  apply Ascii.eqb_eq in Hab as ->. rewrite Hb. simpl. eauto.
Qed.

Lemma contains_all_lower p s :
  all_lower s = true -> contains p s = true -> all_lower p = true.
Proof.
  induction s as [|c r IH]; simpl.
  - rewrite orb_false_r. intros _. by destruct p.
  - intros Hs [H|H]%orb_prop.
    + eapply startswith_all_lower; [|exact H]. done.
    + apply andb_prop in Hs as [_ Hr]. by apply IH.
Qed.

Lemma contains_upper_pattern p s :
  all_lower p = false -> all_lower s = true -> contains p s = false.
Proof.
  intros Hp Hs. destruct (contains p s) eqn:E; [|done].
  apply (contains_all_lower p s Hs) in E. congruence.
Qed.

Lemma startswith_split p s : startswith p s = true -> exists r, s = p +:+ r.
Proof.
  revert s. induction p as [|a p IH]; intros s; simpl.
  - by exists s.
  - destruct s as [|b s]; [done|]. intros [Hab Hp]%andb_prop.
    apply Ascii.eqb_eq in Hab as ->. destruct (IH _ Hp) as [r ->]. by exists r.
Qed.

Lemma contains_ntp_clock s :
  contains "ntp clock-period" s = true -> contains "clock" s = true.
Proof.
  induction s as [|c r IH]; [done|].
  change (contains ?p (String c r)) with (startswith p (String c r) || contains p r).
  intros [H|H]%orb_prop.
  - apply startswith_split in H as [t Ht]. simpl in Ht. injection Ht as -> ->. reflexivity.
  - rewrite (IH H). apply orb_true_r.
Qed.

Lemma effective_skip_patterns s :
  all_lower s = true ->
  existsb (fun pattern => contains pattern s) skip_patterns
  = contains "clock" s || contains "version " s.
Proof.
  intros Hs. unfold skip_patterns. simpl.
  rewrite (contains_upper_pattern "!Time:" s),
    (contains_upper_pattern "!Last configuration change" s),
    (contains_upper_pattern "!NVRAM config last updated" s) by done.
  rewrite orb_false_r. simpl.
  destruct (contains "clock" s) eqn:Hc; [done|]. simpl.
  destruct (contains "ntp clock-period" s) eqn:Hn; [|done].
  apply contains_ntp_clock in Hn. congruence.
Qed.

Lemma filter_loop_cons line rest filtered :
  filter_loop (line :: rest) filtered
  = if is_volatile line then filter_loop rest filtered
    else filter_loop rest (filtered ++ [line]).
Proof.
  cbn [filter_loop]. unfold is_volatile.
  set (s := strip (lower line)).
  assert (Hs : all_lower s = true) by apply all_lower_strip, all_lower_lower.
  destruct ((s =? "")%string || startswith "!" s).
  - cbn [existsb]. by rewrite orb_false_r.
  - rewrite (effective_skip_patterns s Hs).
    by destruct (contains "clock" s || contains "version " s).
Qed.

Lemma filter_loop_spec lines filtered :
  filter_loop lines filtered
  = filtered ++ List.filter (fun l => negb (is_volatile l)) lines.
Proof.
  revert filtered. induction lines as [|line rest IH]; intros filtered.
  - cbn. by rewrite app_nil_r.
  - rewrite filter_loop_cons. cbn [List.filter].
    destruct (is_volatile line); cbn [negb]; rewrite IH; [done|].
    by rewrite <- app_assoc.
Qed.

End StringFacts.

Section DiffEngineFacts.
Import PyStr DiffEngine.
Variable unified_diff : list string -> list string -> list string.

(** C9. Comparing a text with itself reports no change: the result has
    [has_changes = false], an empty diff text and zero added and removed
    counts, whatever the text. *)
Theorem compare_configs_same (A : string) :
  let r := compare_configs unified_diff A A in
  has_changes r = false /\ diff r = "" /\ added_lines r = 0%nat /\ removed_lines r = 0%nat.
Proof.
  unfold compare_configs. rewrite String.eqb_refl. simpl. auto.
Qed.

(** C2 (as amended). The volatility filter goes through the text line
    by line, keeping a line in its place or dropping it, and it drops
    only lines that carry a marker, case being ignored: clock state, NTP
    clock-period, a last-change, NVRAM or time stamp, or [version ]
    (with the space). Every other line is kept, blank lines and
    unrelated comment lines among them. *)
Theorem filter_drops_only_marked_lines (lines : list string) :
  _filter_dynamic_lines lines
  = flat_map (fun line => _filter_dynamic_lines [line]) lines
  /\ (forall line,
        _filter_dynamic_lines [line] = [line]
        \/ _filter_dynamic_lines [line] = []
           /\ carries_marker amended_markers line = true)
  /\ (forall line,
        carries_marker amended_markers line = false ->
        _filter_dynamic_lines [line] = [line]).
Proof.
  assert (Hone : forall line,
            _filter_dynamic_lines [line]
            = if is_volatile line then [] else [line]).
  { intros line. unfold _filter_dynamic_lines. rewrite filter_loop_spec.
    cbn. by destruct (is_volatile line). }
  assert (Hmark : forall line,
            is_volatile line = true -> carries_marker amended_markers line = true).
  { intros line. unfold is_volatile, carries_marker, amended_markers, claimed_markers.
    set (s := strip (lower line)). cbn [app existsb].
    destruct ((s =? "")%string || startswith "!" s).
    - intros [H|H]%orb_prop; rewrite H; by rewrite ?orb_true_r.
    - intros [H|H]%orb_prop; rewrite H; by rewrite ?orb_true_r. }
  split; [|split].
  - unfold _filter_dynamic_lines at 1. rewrite filter_loop_spec. cbn [app].
    induction lines as [|line rest IH]; [done|].
    cbn [List.filter flat_map]. rewrite Hone, <- IH.
    by destruct (is_volatile line).
  - intros line. rewrite Hone. destruct (is_volatile line) eqn:Hv; [|by left].
    right. split; [done|]. by apply Hmark.
  - intros line Hno. rewrite Hone. destruct (is_volatile line) eqn:Hv; [|done].
    apply Hmark in Hv. congruence.
Qed.

(** C2, counterexample. A [version] line carries none of the markers the
    claim lists, and the filter drops it all the same. *)
Lemma filter_drops_version_line :
  _filter_dynamic_lines ["hostname R1"; "version 15.2"; "interface Vlan1"]
    = ["hostname R1"; "interface Vlan1"]
  /\ carries_claimed_marker "version 15.2" = false.
Proof. split; reflexivity. Qed.

(** C3, at the failing input. Two texts that differ only in their
    [!Time:] stamp line are reported as changed: the line starts with an
    exclamation mark, so it never reaches the pattern list that names
    [!Time:]. The same happens to the last-change line as IOS prints it,
    with a space after the exclamation mark. *)
Theorem compare_configs_time_stamp_changed :
  has_changes (compare_configs unified_diff_headers
                 (nxos_capture "Mon Jan  1 10:00:00 2024")
                 (nxos_capture "Mon Jan  1 10:00:05 2024")) = true
  /\ has_changes (compare_configs unified_diff_headers
                    (ios_capture "10:00:00 UTC Mon Jan 1 2024")
                    (ios_capture "10:00:05 UTC Mon Jan 1 2024")) = true.
Proof. split; vm_compute; reflexivity. Qed.

End DiffEngineFacts.

Section DeviceManagerFacts.
Import PyStr Sys DeviceManager.
Context (E : Env).

Ltac run :=
  unfold drop_cached;
  unfold cached, forget, store_connection, disconnect_quietly, sleep,
    _check_connection, ConnectHandler, send_probe, send_command;
  unfold bind, ret, emit, get, modify;
  cbv beta iota zeta.

Ltac step :=
  cbv beta iota zeta;
  cbn [connections trace files log with_connections with_files].

Lemma timing_app a b : timing (a ++ b) = timing a ++ timing b.
Proof. unfold timing. by rewrite flat_map_app. Qed.

Lemma opens_of_app a b : opens_of (a ++ b) = opens_of a ++ opens_of b.
Proof. unfold opens_of. by rewrite flat_map_app. Qed.

Lemma backoff_cons delay a k :
  backoff delay a (S k) = attempt_timing delay a ++ backoff delay (S a) k.
Proof. reflexivity. Qed.

Lemma rejections_app a b : rejections (a ++ b) = rejections a ++ rejections b.
Proof. unfold rejections. by rewrite List.filter_app. Qed.

Lemma rejection_is_final_app mid new r :
  rejections mid = [] -> rejection_is_final new r -> rejection_is_final (mid ++ new) r.
Proof.
  intros Hmid [Hn|(pre & i & -> & Hpre & Hr)].
  - left. by rewrite rejections_app, Hmid, Hn.
  - right. exists (mid ++ pre), i. rewrite app_assoc. split; [done|].
    split; [|done]. by rewrite rejections_app, Hmid, Hpre.
Qed.

Lemma last_cons_nonempty {A} (x : A) l : l <> [] -> last (x :: l) = last l.
Proof. by destruct l. Qed.

Lemma connect_loop_spec dm name info m : forall a w,
  exists k new r w',
    connect_loop E dm name info (seq a m) w = (Ok r, w')
    /\ trace w' = trace w ++ new
    /\ files w' = files w
    /\ (k <= m)%nat
    /\ timing new = backoff (retry_delay dm) a k
    /\ length (opens_of new) = k
    /\ sends_of new = []
    /\ (k = m \/ is_Some r \/ last (opens_of new) = Some AuthRejected)
    /\ (forall c, r = Some c -> connections w' = <[name := c]> (connections w))
    /\ (r = None -> connections w' = connections w)
    /\ rejection_is_final new r.
Proof.
  induction m as [|m IH]; intros a w.
  - exists 0%nat, [], None, w. cbn. rewrite app_nil_r.
    split; [done|]. split; [done|]. split; [done|]. split; [done|].
    split; [done|]. split; [done|]. split; [done|]. split; [by left|].
    split; [done|]. split; [done|]. by left.
  - cbn [seq connect_loop].
    set (pre := if (1 <? a)%nat then [EvSleep (retry_delay dm * (Z.of_nat a - 1))] else []).
    set (w1 := {| trace := trace w ++ pre; connections := connections w; files := files w |}).
    set (o := env_open E (trace w1) info).
    set (c := {| conn_peer := info; conn_serial := length (trace w1) |}).
    set (w2 := log (EvOpen info o) w1).
    assert (Hstep : forall (k : open_result * conn -> M (option conn)),
      ((if (1 <? a)%nat then sleep (retry_delay dm * (Z.of_nat a - 1)) else ret tt);;
       r <- ConnectHandler E info;; k r) w = k (o, c) w2).
    { intros k. run. subst pre w1 o c w2. destruct (1 <? a)%nat; cbn.
      - reflexivity.
      - unfold log. cbn. rewrite app_nil_r. by destruct w. }
    rewrite Hstep. clear Hstep.
    assert (Hretry : forall mid w3,
      trace w3 = trace w ++ mid -> files w3 = files w ->
      connections w3 = connections w ->
      timing mid = attempt_timing (retry_delay dm) a ->
      opens_of mid = [o] -> sends_of mid = [] -> rejections mid = [] ->
      exists k new r w',
        connect_loop E dm name info (seq (S a) m) w3 = (Ok r, w')
        /\ trace w' = trace w ++ new
        /\ files w' = files w
        /\ (k <= S m)%nat
        /\ timing new = backoff (retry_delay dm) a k
        /\ length (opens_of new) = k
        /\ sends_of new = []
        /\ (k = S m \/ is_Some r \/ last (opens_of new) = Some AuthRejected)
        /\ (forall c, r = Some c -> connections w' = <[name := c]> (connections w))
        /\ (r = None -> connections w' = connections w)
        /\ rejection_is_final new r).
    { intros mid w3 Htr Hfl Hcn Htim Hop Hsd Hrj.
      destruct (IH (S a) w3) as (k & new & r & w' & He & Ht & Hf & Hk & Htm & Hlen & Hs & Hend & Hc1 & Hc2 & Hfin).
      exists (S k), (mid ++ new), r, w'. split; [done|]. split.
      { rewrite Ht, Htr. by rewrite <- app_assoc. }
      split; [by rewrite Hf|]. split; [lia|]. split.
      { rewrite timing_app, Htim, Htm. by rewrite backoff_cons. }
      split. { rewrite opens_of_app, Hop. cbn. by rewrite Hlen. }
      split. { unfold sends_of in *. by rewrite flat_map_app, Hsd, Hs. }
      split.
      { destruct Hend as [->|[?|Hl]]; [by left|by right; left|].
        right; right. rewrite opens_of_app, Hop. cbn [app].
        rewrite last_cons_nonempty; [done|]. intros Hnil. by rewrite Hnil in Hl. }
      split; [intros c' Hr; by rewrite (Hc1 c' Hr), Hcn|].
      split; [intros Hr; by rewrite (Hc2 Hr)|].
      by apply rejection_is_final_app. }
    set (mid := pre ++ [EvOpen info o]).
    assert (Htim : timing mid = attempt_timing (retry_delay dm) a).
    { subst mid pre. unfold attempt_timing. by destruct (1 <? a)%nat. }
    assert (Htr2 : trace w2 = trace w ++ mid).
    { subst mid w2 w1. cbn. by rewrite app_assoc. }
    assert (Hop : opens_of mid = [o]).
    { subst mid pre. by destruct (1 <? a)%nat. }
    assert (Hsd : sends_of mid = []).
    { subst mid pre. by destruct (1 <? a)%nat. }
    assert (Hrj : match o with
                  | AuthRejected =>
                      exists pre0, mid = pre0 ++ [EvOpen info AuthRejected]
                                   /\ rejections pre0 = []
                  | _ => rejections mid = []
                  end).
    { subst mid pre. destruct o, (1 <? a)%nat; try done; eexists; split; done. }
    assert (Hf2 : files w2 = files w) by done.
    assert (Hc2 : connections w2 = connections w) by done.
    clearbody mid w2 c o. clear pre w1.
    destruct o.
    + (* a session was opened: probe it *)
      run. destruct (env_probe E (trace w2) c) eqn:Hp.
      * exists 1%nat, (mid ++ [EvProbe c true]), (Some c).
        eexists. split; [reflexivity|].
        cbn [trace files connections log with_connections].
        split; [by rewrite Htr2, <- !app_assoc|].
        split; [done|]. split; [lia|]. split.
        { rewrite timing_app, Htim. cbn. unfold backoff. cbn. by rewrite !app_nil_r. }
        split; [by rewrite opens_of_app, Hop|]. split.
        { unfold sends_of in *. by rewrite flat_map_app, Hsd. }
        split; [right; left; eauto|].
        split; [intros c' [= <-]; by rewrite Hc2|]. split; [done|].
        left. by rewrite rejections_app, Hrj.
      * apply (Hretry (mid ++ [EvProbe c false; EvDisconnect c]));
          cbn [trace files connections log with_connections].
        -- rewrite Htr2. by rewrite <- !app_assoc.
        -- done.
        -- done.
        -- rewrite timing_app, Htim. cbn. by rewrite app_nil_r.
        -- rewrite opens_of_app, Hop. done.
        -- unfold sends_of in *. by rewrite flat_map_app, Hsd.
        -- by rewrite rejections_app, Hrj.
    + by apply (Hretry mid).
    + exists 1%nat, mid, None, w2.
      run. split; [done|]. split; [done|]. split; [done|]. split; [lia|].
      split. { rewrite Htim. unfold backoff. cbn. by rewrite app_nil_r. }
      split; [by rewrite Hop|]. split; [done|].
      split; [right; right; by rewrite Hop|]. split; [done|]. split; [done|].
      destruct Hrj as (pre0 & -> & Hp0). right. by exists pre0, info.
    + by apply (Hretry mid).
Qed.

(** One turn of the retry loop. *)
Lemma connect_loop_cons dm name info a rest w :
  connect_loop E dm name info (a :: rest) w
  = let w1 := {| trace := trace w ++ sleep_before (retry_delay dm) a;
                 connections := connections w; files := files w |} in
    let o := env_open E (trace w1) info in
    let c := {| conn_peer := info; conn_serial := length (trace w1) |} in
    let w2 := log (EvOpen info o) w1 in
    match o with
    | Opened =>
        if env_probe E (trace w2) c
        then (Ok (Some c),
              with_connections (<[name := c]> (connections w))
                (log (EvProbe c true) w2))
        else connect_loop E dm name info rest
               (log (EvDisconnect c) (log (EvProbe c false) w2))
    | AuthRejected => (Ok None, w2)
    | _ => connect_loop E dm name info rest w2
    end.
Proof.
  cbn [connect_loop]. run. unfold sleep_before.
  destruct (1 <? a)%nat; cbn [trace connections files log with_connections].
  - destruct (env_open E _ info); try reflexivity.
    by destruct (env_probe E _ _).
  - rewrite !app_nil_r. destruct w as [tr cn fl]. cbn.
    destruct (env_open E tr info); try reflexivity.
    by destruct (env_probe E _ _).
Qed.

Lemma connect_loop_run dm name info m : forall a w,
  exists new r w',
    connect_loop E dm name info (seq a m) w = (Ok r, w')
    /\ trace w' = trace w ++ new
    /\ attempts_run (retry_delay dm) info a m new r.
Proof.
  induction m as [|m IH]; intros a w.
  - exists [], None, w. cbn. rewrite app_nil_r. repeat split. constructor.
  - cbn [seq]. rewrite connect_loop_cons. cbv zeta.
    set (w1 := {| trace := trace w ++ sleep_before (retry_delay dm) a;
                  connections := connections w; files := files w |}).
    set (c := {| conn_peer := info; conn_serial := length (trace w1) |}).
    destruct (env_open E (trace w1) info) eqn:Ho.
    + destruct (env_probe E _ c) eqn:Hp.
      * eexists _, _, _. split; [reflexivity|].
        cbn [trace log with_connections]. subst w1. cbn [trace].
        rewrite <- !app_assoc. split; [reflexivity|]. by constructor.
      * match goal with |- context [connect_loop E dm name info _ ?w3] =>
          destruct (IH (S a) w3) as (new & r & w' & He & Ht & Hrun) end.
        eexists _, r, w'. split; [exact He|]. rewrite Ht.
        cbn [trace log]. subst w1. cbn [trace].
        rewrite <- !app_assoc. split; [reflexivity|]. cbn [app].
        by constructor.
    + match goal with |- context [connect_loop E dm name info _ ?w3] =>
        destruct (IH (S a) w3) as (new & r & w' & He & Ht & Hrun) end.
      eexists _, r, w'. split; [exact He|]. rewrite Ht.
      cbn [trace log]. subst w1. cbn [trace].
      rewrite <- !app_assoc. split; [reflexivity|]. cbn [app].
      by constructor.
    + eexists _, _, _. split; [reflexivity|].
      cbn [trace log]. subst w1. cbn [trace].
      rewrite <- !app_assoc. split; [reflexivity|]. constructor.
    + match goal with |- context [connect_loop E dm name info _ ?w3] =>
        destruct (IH (S a) w3) as (new & r & w' & He & Ht & Hrun) end.
      eexists _, r, w'. split; [exact He|]. rewrite Ht.
      cbn [trace log]. subst w1. cbn [trace].
      rewrite <- !app_assoc. split; [reflexivity|]. cbn [app].
      by constructor.
Qed.

(** The runs of [connect] to a registered device. *)
Lemma connect_runs dm name rc w info :
  lookup_device (devices dm) name = Some info ->
  exists new r w',
    connect E dm name rc w = (Ok r, w')
    /\ trace w' = trace w ++ new
    /\ connect_run (retry_delay dm) info (budget dm rc) (connections w !! name) new r.
Proof.
  intros Hdev. unfold connect. rewrite Hdev. fold (budget dm rc). run.
  destruct (connections w !! name) as [c0|] eqn:Hc0.
  - destruct (env_probe E (trace w) c0) eqn:Hp.
    + eexists _, _, _. split; [reflexivity|]. split; [reflexivity|]. constructor.
    + match goal with |- context [connect_loop E dm name info _ ?w3] =>
        destruct (connect_loop_run dm name info (budget dm rc) 1 w3)
          as (new & r & w' & He & Ht & Hrun) end.
      eexists _, r, w'. split; [exact He|]. rewrite Ht.
      cbn [trace log with_connections]. rewrite <- !app_assoc.
      split; [reflexivity|]. by constructor.
  - match goal with |- context [connect_loop E dm name info _ ?w3] =>
      destruct (connect_loop_run dm name info (budget dm rc) 1 w3)
        as (new & r & w' & He & Ht & Hrun) end.
    eexists _, r, w'. split; [exact He|]. split; [exact Ht|]. by constructor.
Qed.

Lemma connect_spec dm name rc w :
  exists k new r w',
    connect E dm name rc w = (Ok r, w')
    /\ trace w' = trace w ++ new
    /\ files w' = files w
    /\ (k <= budget dm rc)%nat
    /\ timing new = backoff (retry_delay dm) 1 k
    /\ length (opens_of new) = k
    /\ sends_of new = []
    /\ (is_Some (lookup_device (devices dm) name) ->
        k = budget dm rc \/ is_Some r \/ last (opens_of new) = Some AuthRejected)
    /\ (forall c, r = Some c -> connections w' !! name = Some c)
    /\ (r = None -> is_Some (lookup_device (devices dm) name) \/ connections w !! name = None ->
        connections w' !! name = None)
    /\ (forall other, other <> name -> connections w' !! other = connections w !! other)
    /\ rejection_is_final new r.
Proof.
  unfold connect. destruct (lookup_device (devices dm) name) as [info|] eqn:Hdev.
  2:{ exists 0%nat, [], None, w. run. rewrite app_nil_r.
      split; [done|]. split; [done|]. split; [done|]. split; [lia|].
      split; [done|]. split; [done|]. split; [done|].
      split; [by intros [? ?]|]. split; [done|].
      split; [intros _ [[? ?]|?]; done|]. split; [done|]. by left. }
  fold (budget dm rc).
  assert (Hloop : forall mid w1,
    trace w1 = trace w ++ mid -> files w1 = files w ->
    connections w1 !! name = None ->
    (forall other, other <> name -> connections w1 !! other = connections w !! other) ->
    timing mid = [] -> opens_of mid = [] -> sends_of mid = [] ->
    rejections mid = [] ->
    exists k new r w',
      connect_loop E dm name info (seq 1 (budget dm rc)) w1 = (Ok r, w')
      /\ trace w' = trace w ++ new
      /\ files w' = files w
      /\ (k <= budget dm rc)%nat
      /\ timing new = backoff (retry_delay dm) 1 k
      /\ length (opens_of new) = k
      /\ sends_of new = []
      /\ (is_Some (Some info) ->
          k = budget dm rc \/ is_Some r \/ last (opens_of new) = Some AuthRejected)
      /\ (forall c, r = Some c -> connections w' !! name = Some c)
      /\ (r = None -> is_Some (Some info) \/ connections w !! name = None ->
          connections w' !! name = None)
      /\ (forall other, other <> name -> connections w' !! other = connections w !! other)
      /\ rejection_is_final new r).
  { intros mid w1 Htr Hfl Hnone Hfr Htm Hop Hsd Hrj.
    destruct (connect_loop_spec dm name info (budget dm rc) 1 w1)
      as (k & new & r & w' & He & Ht & Hf & Hk & Htim & Hlen & Hs & Hend & Hc1 & Hc2 & Hfin).
    exists k, (mid ++ new), r, w'. split; [done|].
    split; [by rewrite Ht, Htr, <- app_assoc|]. split; [by rewrite Hf|].
    split; [done|]. split; [by rewrite timing_app, Htm|].
    split; [by rewrite opens_of_app, Hop|].
    split; [unfold sends_of in *; by rewrite flat_map_app, Hsd, Hs|].
    split; [intros _; by rewrite opens_of_app, Hop|].
    split; [intros c Hr; rewrite (Hc1 c Hr); apply lookup_insert_eq|].
    split; [intros Hr _; by rewrite (Hc2 Hr)|].
    split; [|by apply rejection_is_final_app].
    intros other Hne. destruct r as [c|].
    - rewrite (Hc1 c eq_refl). rewrite lookup_insert_ne by done. by apply Hfr.
    - rewrite (Hc2 eq_refl). by apply Hfr. }
  run. destruct (connections w !! name) as [c0|] eqn:Hc0.
  - destruct (env_probe E (trace w) c0) eqn:Hp.
    + exists 0%nat, [EvProbe c0 true], (Some c0). eexists. split; [reflexivity|].
      cbn [trace files connections log with_connections].
      split; [done|]. split; [done|]. split; [lia|].
      split; [done|]. split; [done|]. split; [done|].
      split; [intros _; right; left; eauto|].
      split; [by intros c [= <-]|]. split; [done|]. split; [done|]. by left.
    + apply (Hloop [EvProbe c0 false; EvDisconnect c0]);
        cbn [trace files connections log with_connections]; try done.
      * by rewrite <- app_assoc.
      * apply lookup_delete_eq.
      * intros other Hne. by rewrite lookup_delete_ne.
  - apply (Hloop []); try done. by rewrite app_nil_r.
Qed.

Lemma sleeps_of_timing tr : sleeps_of tr = omap id (timing tr).
Proof.
  induction tr as [|e tr IH]; [done|].
  change (sleeps_of (e :: tr))
    with (match e with EvSleep d => [d] | _ => [] end ++ sleeps_of tr).
  change (timing (e :: tr))
    with (match e with EvSleep d => [Some d] | EvOpen _ _ => [None] | _ => [] end
          ++ timing tr).
  rewrite omap_app, <- IH. by destruct e.
Qed.

Lemma omap_app_id (a b : list (option Z)) : omap id (a ++ b) = omap id a ++ omap id b.
Proof. apply omap_app. Qed.

Lemma backoff_sleeps delay k : forall a,
  omap id (backoff delay (S (S a)) k)
  = map (fun j => delay * Z.of_nat j) (seq (S a) k).
Proof.
  induction k as [|k IH]; intros a; [done|].
  rewrite backoff_cons, omap_app_id, IH. cbn [seq map].
  unfold attempt_timing. cbn [Nat.ltb Nat.leb omap id app].
  cbn. f_equal. lia.
Qed.

Lemma backoff_sleeps_first delay k :
  omap id (backoff delay 1 k)
  = map (fun j => delay * Z.of_nat j) (seq 1 (k - 1)).
Proof.
  destruct k as [|k]; [done|].
  rewrite backoff_cons, omap_app_id, backoff_sleeps.
  by replace (S k - 1)%nat with k by lia.
Qed.

Lemma linear_delays_increasing delay k : 0 < delay -> forall a,
  StronglySorted Z.lt (map (fun j => delay * Z.of_nat j) (seq a k)).
Proof.
  intros Hd. induction k as [|k IH]; intros a; cbn; constructor; [apply IH|].
  apply Forall_forall. intros x Hx.
  apply list_elem_of_In, in_map_iff in Hx as [j [<- Hj]].
  apply in_seq in Hj. nia.
Qed.

Lemma rejections_none_opens tr :
  rejections tr = [] -> Forall (fun o => o <> AuthRejected) (opens_of tr).
Proof.
  induction tr as [|e tr IH]; [constructor|].
  destruct e; cbn; try done. destruct r; cbn; try done;
    intros H; constructor; try done; by apply IH.
Qed.

Lemma last_Forall {A} (P : A -> Prop) l x : Forall P l -> last l = Some x -> P x.
Proof.
  intros Hall Hl. apply last_Some in Hl as [l' ->].
  apply Forall_app in Hall as [_ Hx]. by inversion Hx.
Qed.

(** C4. A connect call makes at most [retry_count] attempts (three, as
    the manager is built, when none is given); attempt [k > 1] is
    preceded by a sleep of [retry_delay * (k - 1)] seconds, so the sleeps
    are [retry_delay; 2 * retry_delay; ...] and, the delay being
    positive, strictly increase. For a registered device the events of
    the call are a run of [connect_run]: every attempt that times out,
    fails otherwise or opens a session that does not answer the probe is
    followed by the next attempt as long as one is left, and the call
    ends before that only on an attempt that succeeds, whose session it
    returns, or on an authentication rejection. So a call that returns
    nothing and met no rejection has made all the attempts of its
    budget. *)
Theorem connect_linear_backoff dm device_name retry_count w :
  0 < retry_delay dm ->
  exists k new r w',
    connect E dm device_name retry_count w = (Ok r, w')
    /\ trace w' = trace w ++ new
    /\ length (opens_of new) = k
    /\ (k <= budget dm retry_count)%nat
    /\ budget (init (devices dm) (backup_command dm)) None = 3%nat
    /\ timing new = backoff (retry_delay dm) 1 k
    /\ sleeps_of new = map (fun j => retry_delay dm * Z.of_nat j) (seq 1 (k - 1))
    /\ StronglySorted Z.lt (sleeps_of new)
    /\ (is_Some (lookup_device (devices dm) device_name) ->
        k = budget dm retry_count \/ is_Some r
        \/ last (opens_of new) = Some AuthRejected)
    /\ (forall info,
          lookup_device (devices dm) device_name = Some info ->
          connect_run (retry_delay dm) info (budget dm retry_count)
            (connections w !! device_name) new r)
    /\ (is_Some (lookup_device (devices dm) device_name) ->
        r = None -> rejections new = [] -> k = budget dm retry_count).
Proof.
  intros Hdelay.
  destruct (connect_spec dm device_name retry_count w)
    as (k & new & r & w' & He & Ht & _ & Hk & Htim & Hlen & _ & Hend & _).
  exists k, new, r, w'.
  assert (Hsl : sleeps_of new
                = map (fun j => retry_delay dm * Z.of_nat j) (seq 1 (k - 1))).
  { by rewrite sleeps_of_timing, Htim, backoff_sleeps_first. }
  split; [done|]. split; [done|]. split; [done|]. split; [done|].
  split; [done|]. split; [done|]. split; [done|].
  split; [rewrite Hsl; by apply linear_delays_increasing|].
  split; [exact Hend|]. split.
  - intros info Hdev.
    destruct (connect_runs dm device_name retry_count w info Hdev)
      as (new' & r' & w'' & He' & Ht' & Hrun).
    rewrite He in He'. injection He' as <- <-.
    rewrite Ht in Ht'. apply app_inv_head in Ht'. by subst new'.
  - intros Hdev -> Hrej.
    destruct (Hend Hdev) as [?|[[? ?]|Hlast]]; [done|done|].
    apply rejections_none_opens in Hrej.
    by apply (last_Forall _ _ _ Hrej) in Hlast.
Qed.

(** C5 (as amended). An authentication rejection ends the connect call
    at once: the rejected attempt is the last event of the call (no
    further attempt, no sleep after it), it is the only rejected attempt,
    and the call returns [None]. When the device rejects the first
    attempt, the call consists of exactly that one attempt and no backoff
    sleep. The attempts before a rejected one are attempts of their own:
    the sleeps and attempts of the call are those of the linear backoff,
    every attempt from the second on preceded by its sleep. *)
Theorem connect_auth_rejection_final dm device_name retry_count w :
  exists new r w',
    connect E dm device_name retry_count w = (Ok r, w')
    /\ trace w' = trace w ++ new
    /\ (rejections new = [] \/
        exists pre info, new = pre ++ [EvOpen info AuthRejected]
                         /\ rejections pre = [] /\ r = None)
    /\ (head (opens_of new) = Some AuthRejected ->
        opens_of new = [AuthRejected] /\ sleeps_of new = [] /\ r = None)
    /\ timing new = backoff (retry_delay dm) 1 (length (opens_of new)).
Proof.
  destruct (connect_spec dm device_name retry_count w)
    as (k & new & r & w' & He & Ht & _ & Hk & Htim & Hlen & _ & _ & _ & _ & _ & Hfin).
  exists new, r, w'. split; [done|]. split; [done|]. split; [exact Hfin|].
  split; [|by rewrite Hlen].
  intros Hhd. destruct Hfin as [Hno|(pre & i & -> & Hpre & ->)].
  - apply rejections_none_opens in Hno.
    destruct (opens_of new) as [|o l]; [done|].
    injection Hhd as ->. by inversion Hno.
  - rewrite opens_of_app in Hhd, Hlen |- *. cbn in Hhd, Hlen |- *.
    apply rejections_none_opens in Hpre.
    destruct (opens_of pre) as [|o l] eqn:Hop.
    + split; [done|]. split; [|done].
      rewrite sleeps_of_timing, Htim. by subst k.
    + injection Hhd as ->. by inversion Hpre.
Qed.

(** A [connect] made without cache entry is a reconnection. *)
Lemma connect_reconnection dm name w r w' re :
  connections w !! name = None ->
  connect E dm name None w = (Ok r, w') ->
  trace w' = trace w ++ re ->
  reconnection dm name re r.
Proof.
  intros Hc He Ht. unfold reconnection.
  destruct (lookup_device (devices dm) name) as [info|] eqn:Hdev.
  - destruct (connect_runs dm name None w info Hdev)
      as (new & r' & w'' & He' & Ht' & Hrun).
    rewrite He in He'. injection He' as <- <-.
    rewrite Ht in Ht'. apply app_inv_head in Ht'. subst new.
    rewrite Hc in Hrun. by inversion Hrun; subst.
  - unfold connect in He. rewrite Hdev in He. injection He as <- <-.
    split; [|done]. rewrite <- (app_nil_r (trace w)) in Ht at 1.
    by apply app_inv_head in Ht.
Qed.

Lemma sends_of_app a b : sends_of (a ++ b) = sends_of a ++ sends_of b.
Proof. unfold sends_of. by rewrite flat_map_app. Qed.

Lemma command_loop_spec dm (name command : string) (retry : bool) (c : conn) (w : World) :
  connections w !! name = Some c ->
  let max_attempts := if retry then 2%nat else 1%nat in
  exists body r w',
    command_loop E dm name command retry max_attempts (seq 1 max_attempts) c w
      = (Ok r, w')
    /\ trace w' = trace w ++ body
    /\ files w' = files w
    /\ command_run dm name command retry c body r (connections w' !! name)
    /\ (forall other, other <> name -> connections w' !! other = connections w !! other).
Proof.
  intros Hc. destruct retry; cbn [seq command_loop andb Nat.ltb Nat.leb].
  - run. destruct (env_send E (trace w) c command) as [out|m] eqn:Hs1; step.
    + eexists _, _, _. split; [reflexivity|]. step. rewrite Hc.
      split; [done|]. split; [done|]. split; [constructor|done].
    + destruct (is_connection_error m) eqn:Hm; step.
      2:{ eexists _, _, _. split; [reflexivity|]. step. rewrite Hc.
          split; [done|]. split; [done|]. split; [by constructor|done]. }
      rewrite Hc. step.
      set (w1 := with_connections _ _).
      destruct (connect_spec dm name None w1)
        as (k & re & r & w2 & He & Ht & Hf & _ & _ & _ & Hsd & _ & Hc1 & Hc2 & Hfr & _).
      rewrite He. step.
      assert (Hw1 : connections w1 !! name = None) by apply lookup_delete_eq.
      assert (Hfr1 : forall other, other <> name ->
                connections w2 !! other = connections w !! other).
      { intros other Hne. rewrite (Hfr other Hne). subst w1. step.
        by rewrite lookup_delete_ne. }
      assert (Htr : trace w2
                    = trace w ++ EvSend c command (SendError m) :: EvDisconnect c :: re).
      { rewrite Ht. subst w1. step. by rewrite <- !app_assoc. }
      pose proof (connect_reconnection dm name w1 r w2 re Hw1 He Ht) as Hre.
      destruct r as [c'|]; step.
      * destruct (env_send E (trace w2) c' command) as [out|m'] eqn:Hs2; step.
        -- eexists _, _, _. split; [reflexivity|]. step. rewrite Htr.
           split; [by rewrite <- !app_assoc|].
           split; [by rewrite Hf|].
           rewrite (Hc1 c' eq_refl). split; [by constructor|done].
        -- rewrite (Hc1 c' eq_refl). step.
           eexists _, _, _. split; [reflexivity|]. step. rewrite Htr.
           split; [by rewrite <- !app_assoc|].
           split; [by rewrite Hf|].
           rewrite lookup_delete_eq. split; [by constructor|].
           intros other Hne. rewrite lookup_delete_ne by done. by apply Hfr1.
      * eexists _, _, _. split; [reflexivity|]. rewrite Htr.
        split; [done|]. split; [by rewrite Hf|].
        rewrite (Hc2 eq_refl) by (by right). split; [by constructor|done].
  - run. destruct (env_send E (trace w) c command) as [out|m] eqn:Hs1; step.
    + eexists _, _, _. split; [reflexivity|]. step. rewrite Hc.
      split; [done|]. split; [done|]. split; [constructor|done].
    + rewrite Hc. step. eexists _, _, _. split; [reflexivity|]. step.
      split; [by rewrite <- !app_assoc|]. split; [done|].
      rewrite lookup_delete_eq. split; [by constructor|].
      intros other Hne. by rewrite lookup_delete_ne.
Qed.

Lemma execute_command_spec dm (name command : string) (retry : bool) (w : World) :
  exists pre body r w',
    execute_command E dm name command retry w = (Ok r, w')
    /\ trace w' = trace w ++ pre ++ body
    /\ files w' = files w
    /\ sends_of pre = []
    /\ (body = [] /\ r = None /\ connections w' !! name = None
        \/ exists c, command_run dm name command retry c body r (connections w' !! name))
    /\ (forall other, other <> name -> connections w' !! other = connections w !! other).
Proof.
  unfold execute_command.
  assert (Hloop : forall pre c w1,
    trace w1 = trace w ++ pre -> files w1 = files w -> sends_of pre = [] ->
    connections w1 !! name = Some c ->
    (forall other, other <> name -> connections w1 !! other = connections w !! other) ->
    exists pre body r w',
      command_loop E dm name command retry (if retry then 2%nat else 1%nat)
        (seq 1 (if retry then 2%nat else 1%nat)) c w1 = (Ok r, w')
      /\ trace w' = trace w ++ pre ++ body
      /\ files w' = files w
      /\ sends_of pre = []
      /\ (body = [] /\ r = None /\ connections w' !! name = None
          \/ exists c, command_run dm name command retry c body r (connections w' !! name))
      /\ (forall other, other <> name -> connections w' !! other = connections w !! other)).
  { intros pre c w1 Htr Hfl Hsd Hc Hfr.
    destruct (command_loop_spec dm name command retry c w1 Hc)
      as (body & r & w' & He & Ht & Hf & Hrun & Hfr').
    exists pre, body, r, w'. split; [done|].
    split; [by rewrite Ht, Htr, <- app_assoc|]. split; [by rewrite Hf|].
    split; [done|]. split; [right; eauto|].
    intros other Hne. rewrite (Hfr' other Hne). by apply Hfr. }
  assert (Hconn : forall pre w1,
    trace w1 = trace w ++ pre -> files w1 = files w -> sends_of pre = [] ->
    connections w1 !! name = None ->
    (forall other, other <> name -> connections w1 !! other = connections w !! other) ->
    exists pre body r w',
      (ready <- connect E dm name None ;;
       match ready with
       | None => ret None
       | Some connection =>
           command_loop E dm name command retry (if retry then 2%nat else 1%nat)
             (seq 1 (if retry then 2%nat else 1%nat)) connection
       end) w1 = (Ok r, w')
      /\ trace w' = trace w ++ pre ++ body
      /\ files w' = files w
      /\ sends_of pre = []
      /\ (body = [] /\ r = None /\ connections w' !! name = None
          \/ exists c, command_run dm name command retry c body r (connections w' !! name))
      /\ (forall other, other <> name -> connections w' !! other = connections w !! other)).
  { intros pre w1 Htr Hfl Hsd Hc Hfr.
    destruct (connect_spec dm name None w1)
      as (k & re & r & w2 & He & Ht & Hf & _ & _ & _ & Hsd2 & _ & Hc1 & Hc2 & Hfr2 & _).
    unfold bind at 1. rewrite He. destruct r as [c|].
    - apply (Hloop (pre ++ re)).
      + by rewrite Ht, Htr, <- app_assoc.
      + by rewrite Hf.
      + by rewrite sends_of_app, Hsd, Hsd2.
      + by apply Hc1.
      + intros other Hne. rewrite (Hfr2 other Hne). by apply Hfr.
    - exists (pre ++ re), [], None, w2. split; [done|].
      split; [by rewrite Ht, Htr, app_nil_r, <- app_assoc|].
      split; [by rewrite Hf|].
      split; [by rewrite sends_of_app, Hsd, Hsd2|].
      split; [left; split; [done|]; split; [done|]; apply Hc2; [done|by right]|].
      intros other Hne. rewrite (Hfr2 other Hne). by apply Hfr. }
  run. destruct (connections w !! name) as [c0|] eqn:Hc0; step.
  - destruct (env_probe E (trace w) c0) eqn:Hp; step.
    + by apply (Hloop [EvProbe c0 true]).
    + apply (Hconn [EvProbe c0 false; EvDisconnect c0]); step; try done.
      * by rewrite <- app_assoc.
      * apply lookup_delete_eq.
      * intros other Hne. by rewrite lookup_delete_ne.
  - apply (Hconn []); try done. by rewrite app_nil_r.
Qed.

Lemma attempts_run_sends delay info attempt left re r :
  attempts_run delay info attempt left re r -> sends_of re = [].
Proof.
  assert (Hs : forall a, sends_of (sleep_before delay a) = []).
  { intros a. unfold sleep_before. by destruct (1 <? a)%nat. }
  induction 1; rewrite ?sends_of_app, ?Hs; cbn; done.
Qed.

Lemma session_run_sends dm name cache pre ready :
  session_run dm name cache pre ready -> sends_of pre = [].
Proof.
  assert (Hre : forall re r, reconnection dm name re r -> sends_of re = []).
  { intros re r. unfold reconnection.
    destruct (lookup_device (devices dm) name).
    - apply attempts_run_sends.
    - by intros [-> _]. }
  destruct 1 as [c|c re r H|re r H]; [done| |]; cbn; by apply (Hre _ _ H).
Qed.

(** The run of [execute_command]: how it comes by its session, then the
    command loop on that session. *)
Lemma execute_command_run dm (name command : string) (retry : bool) (w : World) :
  exists pre body ready r w',
    execute_command E dm name command retry w = (Ok r, w')
    /\ trace w' = trace w ++ pre ++ body
    /\ session_run dm name (connections w !! name) pre ready
    /\ match ready with
       | None => body = [] /\ r = None /\ connections w' !! name = None
       | Some c => command_run dm name command retry c body r (connections w' !! name)
       end.
Proof.
  unfold execute_command.
  assert (Hconn : forall w1 (start : list event),
    trace w1 = trace w ++ start ->
    connections w1 !! name = None ->
    exists re body ready r w',
      (ready <- connect E dm name None ;;
       match ready with
       | None => ret None
       | Some connection =>
           command_loop E dm name command retry (if retry then 2%nat else 1%nat)
             (seq 1 (if retry then 2%nat else 1%nat)) connection
       end) w1 = (Ok r, w')
      /\ trace w' = trace w ++ (start ++ re) ++ body
      /\ reconnection dm name re ready
      /\ match ready with
         | None => body = [] /\ r = None /\ connections w' !! name = None
         | Some c =>
             command_run dm name command retry c body r (connections w' !! name)
         end).
  { intros w1 start Htr Hc.
    destruct (connect_spec dm name None w1)
      as (k & re & r & w2 & He & Ht & Hf & _ & _ & _ & Hsd2 & _ & Hc1 & Hc2 & Hfr2 & _).
    pose proof (connect_reconnection dm name w1 r w2 re Hc He Ht) as Hre.
    unfold bind at 1. rewrite He. destruct r as [c|].
    - destruct (command_loop_spec dm name command retry c w2 (Hc1 c eq_refl))
        as (body & r & w' & He' & Ht' & _ & Hrun & _).
      exists re, body, (Some c), r, w'. split; [exact He'|].
      split; [by rewrite Ht', Ht, Htr, <- !app_assoc|]. by split.
    - exists re, [], None, None, w2. split; [done|].
      split; [by rewrite Ht, Htr, app_nil_r, <- app_assoc|].
      split; [done|]. split; [done|]. split; [done|]. apply Hc2; [done|by right]. }
  run. destruct (connections w !! name) as [c0|] eqn:Hc0; step.
  - destruct (env_probe E (trace w) c0) eqn:Hp; step.
    + destruct (command_loop_spec dm name command retry c0 (log (EvProbe c0 true) w))
        as (body & r & w' & He & Ht & _ & Hrun & _); [done|].
      exists [EvProbe c0 true], body, (Some c0), r, w'. split; [exact He|].
      split; [rewrite Ht; step; by rewrite <- app_assoc|]. split; [constructor|done].
    + destruct (Hconn (with_connections (delete name (connections w))
                         (log (EvDisconnect c0) (log (EvProbe c0 false) w)))
                      [EvProbe c0 false; EvDisconnect c0])
        as (re & body & ready & r & w' & He & Ht & Hre & Hcase).
      { step. by rewrite <- app_assoc. }
      { apply lookup_delete_eq. }
      exists (EvProbe c0 false :: EvDisconnect c0 :: re), body, ready, r, w'.
      split; [exact He|]. split; [exact Ht|]. split; [by constructor|done].
  - destruct (Hconn w []) as (re & body & ready & r & w' & He & Ht & Hre & Hcase);
      [by rewrite app_nil_r|done|].
    exists re, body, ready, r, w'. split; [exact He|]. split; [exact Ht|].
    split; [by constructor|done].
Qed.

Lemma command_run_sends dm name command retry c body r cache :
  command_run dm name command retry c body r cache ->
  (length (sends_of body) <= if retry then 2 else 1)%nat
  /\ (r = None ->
      cache = None
      \/ retry = true
         /\ exists m, sends_of body = [(command, SendError m)]
                      /\ is_connection_error m = false /\ cache = Some c).
Proof.
  assert (Hcons : forall e l,
            sends_of (e :: l)
            = match e with EvSend _ k x => [(k, x)] | _ => [] end ++ sends_of l)
    by done.
  intros H.
  destruct H as [out|m Hr Hm|m Hr|m re Hr Hm Hs Hre|m re c' out Hr Hm Hs Hre
                |m re c' m' Hr Hm Hs Hre];
    subst;
    rewrite ?Hcons, ?sends_of_app, ?Hcons, ?Hs; cbn.
  - split; [destruct retry; lia|done].
  - split; [lia|]. intros _. right. split; [done|]. by exists m.
  - split; [lia|by left].
  - split; [lia|by left].
  - split; [lia|done].
  - split; [lia|by left].
Qed.

(** C1 (as amended). [execute_command] sends the command at most twice
    (once when retry is off). It first comes by a session as
    [session_run] tells: the cached one if it answers the probe, else
    one that [connect] opens; without a session it returns [None]. The
    command loop on that session is one of the shapes of [command_run]:
    after a connection-class failure of the first send with retry
    allowed, the session is closed and its cache entry deleted, the
    device is reconnected (the attempts of [connect], with their
    backoff, ending on the attempt that opens the new session) and the
    command is sent exactly once more, on the session the reconnection
    returned; a second failure, a failed reconnection, or any failure
    with retry off returns [None] with no cache entry left for the
    device. A failure of the first send that is not connection-class,
    with retry allowed, returns [None] at once and leaves the session in
    the cache. *)
Theorem execute_command_attempts dm (device_name command : string)
    (retry_on_failure : bool) (w : World) :
  exists new r w',
    execute_command E dm device_name command retry_on_failure w = (Ok r, w')
    /\ trace w' = trace w ++ new
    /\ (length (sends_of new) <= if retry_on_failure then 2 else 1)%nat
    /\ (exists pre body ready,
          new = pre ++ body /\ sends_of pre = []
          /\ session_run dm device_name (connections w !! device_name) pre ready
          /\ match ready with
             | None => body = [] /\ r = None /\ connections w' !! device_name = None
             | Some c =>
                 command_run dm device_name command retry_on_failure
                   c body r (connections w' !! device_name)
             end)
    /\ (r = None ->
        connections w' !! device_name = None
        \/ retry_on_failure = true
           /\ exists c m, sends_of new = [(command, SendError m)]
                          /\ is_connection_error m = false
                          /\ connections w' !! device_name = Some c).
Proof.
  destruct (execute_command_run dm device_name command retry_on_failure w)
    as (pre & body & ready & r & w' & He & Ht & Hses & Hshape).
  pose proof (session_run_sends _ _ _ _ _ Hses) as Hpre.
  exists (pre ++ body), r, w'. split; [done|]. split; [done|].
  rewrite sends_of_app, Hpre. cbn [app].
  destruct ready as [c|].
  - destruct (command_run_sends _ _ _ _ _ _ _ _ Hshape) as [Hlen Hnone].
    split; [done|].
    split; [exists pre, body, (Some c); by repeat split|].
    intros Hr. destruct (Hnone Hr) as [?|[? (m & ? & ? & ?)]]; [by left|].
    right. split; [done|]. by exists c, m.
  - destruct Hshape as (-> & -> & Hnone).
    split; [cbn; destruct retry_on_failure; lia|].
    split; [exists pre, [], None; by repeat split|].
    by left.
Qed.

End DeviceManagerFacts.

Section Preserves.
Import Sys Frames.
Variable R : World -> World -> Prop.
Hypothesis R_refl : forall w, R w w.
Hypothesis R_trans : forall a b c, R a b -> R b c -> R a c.

Lemma preserves_ret {A} (a : A) : preserves R (ret a).
Proof. intros w. apply R_refl. Qed.

Lemma preserves_raise {A} : preserves R (@raise A).
Proof. intros w. apply R_refl. Qed.

Lemma preserves_get {A} (f : World -> A) : preserves R (get f).
Proof. intros w. apply R_refl. Qed.

Lemma preserves_bind {A B} (m : M A) (k : A -> M B) :
  preserves R m -> (forall a, preserves R (k a)) -> preserves R (bind m k).
Proof.
  intros Hm Hk w. unfold bind. specialize (Hm w).
  destruct (m w) as [[a|] w1]; cbn in *; [|done].
  eapply R_trans; [exact Hm|apply Hk].
Qed.

Lemma preserves_catch {A} (m h : M A) :
  preserves R m -> preserves R h -> preserves R (catch m h).
Proof.
  intros Hm Hh w. unfold catch. specialize (Hm w).
  destruct (m w) as [[a|] w1]; cbn in *; [done|].
  eapply R_trans; [exact Hm|apply Hh].
Qed.

End Preserves.

Section SchedulerFacts.
Import PyStr Sys Frames DeviceManager BackupManager.
Context (E : Env).

Ltac step :=
  cbv beta iota zeta;
  cbn [connections trace files log with_connections with_files].

Lemma net_step_refl d w : net_step d w w.
Proof. exists []. by rewrite app_nil_r. Qed.

Lemma net_step_trans d a b c : net_step d a b -> net_step d b c -> net_step d a c.
Proof.
  intros (n1 & T1 & K1 & F1 & C1) (n2 & T2 & K2 & F2 & C2).
  exists (n1 ++ n2). split; [by rewrite T2, T1, app_assoc|].
  split; [by apply Forall_app|]. split; [congruence|].
  intros other Hne. by rewrite C2, C1.
Qed.

Lemma net_step_log d e w : is_network e -> net_step d w (log e w).
Proof. intros He. exists [e]. repeat split; auto. Qed.

Ltac net_prim :=
  intros ?w; unfold emit, modify, get, send_probe, ConnectHandler, send_command; cbn [snd];
  first [ by apply net_step_log | by apply net_step_refl ].

Lemma net_emit d e : is_network e -> preserves (net_step d) (emit e).
Proof. intros He w. by apply net_step_log. Qed.

Lemma net_probe d c : preserves (net_step d) (send_probe E c).
Proof. net_prim. Qed.

Lemma net_open d i : preserves (net_step d) (ConnectHandler E i).
Proof. net_prim. Qed.

Lemma net_send d c k : preserves (net_step d) (send_command E c k).
Proof. net_prim. Qed.

Lemma net_store d c : preserves (net_step d) (store_connection d c).
Proof.
  intros w. exists []. cbn. rewrite app_nil_r. repeat split; auto.
  intros other Hne. by rewrite lookup_insert_ne.
Qed.

Lemma net_forget d : preserves (net_step d) (forget d).
Proof.
  intros w. exists []. cbn. rewrite app_nil_r. repeat split; auto.
  intros other Hne. by rewrite lookup_delete_ne.
Qed.

Ltac frame R_refl R_trans prims :=
  repeat first
    [ prims
    | apply (preserves_bind _ R_trans); [|intros ?]
    | apply (preserves_catch _ R_trans)
    | apply (preserves_ret _ R_refl)
    | apply (preserves_raise _ R_refl)
    | apply (preserves_get _ R_refl)
    | match goal with
      | |- preserves _ (if ?b then _ else _) => destruct b
      | |- preserves _ (match ?x with _ => _ end) => destruct x
      end ].

Create HintDb net_frames.
Create HintDb store_frames.
Create HintDb prune_frames.
Create HintDb pipeline_frames.

Hint Resolve net_probe net_open net_send net_store net_forget : net_frames.
Hint Extern 1 (preserves (net_step _) (emit _)) => apply net_emit; exact I : net_frames.

Ltac net d :=
  frame (net_step_refl d) (net_step_trans d) ltac:(solve [auto 2 with net_frames nocore]).

Lemma net_check d c : preserves (net_step d) (_check_connection E c).
Proof. unfold _check_connection. net d. Qed.
Hint Resolve net_check : net_frames.

Lemma net_connect_loop dm d i attempts : preserves (net_step d) (connect_loop E dm d i attempts).
Proof.
  induction attempts as [|a rest IH]; cbn [connect_loop];
    unfold sleep, disconnect_quietly, _check_connection; net d.
Qed.
Hint Resolve net_connect_loop : net_frames.

Lemma net_connect dm d rc : preserves (net_step d) (connect E dm d rc).
Proof.
  unfold connect, cached, disconnect_quietly, _check_connection.
  net d.
Qed.
Hint Resolve net_connect : net_frames.

Lemma net_drop_cached d : preserves (net_step d) (drop_cached d).
Proof. unfold drop_cached, cached, disconnect_quietly. net d. Qed.
Hint Resolve net_drop_cached : net_frames.

Lemma net_command_loop dm d k retry max attempts : forall c,
  preserves (net_step d) (command_loop E dm d k retry max attempts c).
Proof.
  induction attempts as [|a rest IH]; intros c; cbn [command_loop];
    net d.
Qed.
Hint Resolve net_command_loop : net_frames.

Lemma net_execute_command dm d k retry :
  preserves (net_step d) (execute_command E dm d k retry).
Proof.
  unfold execute_command, cached, disconnect_quietly.
  net d.
Qed.
Hint Resolve net_execute_command : net_frames.

Lemma net_get_config dm d : preserves (net_step d) (get_config E dm d).
Proof. apply net_execute_command. Qed.
Hint Resolve net_get_config : net_frames.

Lemma lookup_update_eq t dev e :
  lookup_entry (update_entry t dev e) dev = Some e.
Proof.
  induction t as [|[n e'] t IH]; cbn.
  - by rewrite String.eqb_refl.
  - destruct (n =? dev)%string eqn:Hn; cbn; by rewrite Hn.
Qed.

Lemma lookup_update_ne t dev e other :
  other <> dev -> lookup_entry (update_entry t dev e) other = lookup_entry t other.
Proof.
  intros Hne. induction t as [|[n e'] t IH]; cbn.
  - destruct (dev =? other)%string eqn:Hn; [|done].
    apply String.eqb_eq in Hn. congruence.
  - destruct (n =? dev)%string eqn:Hn; cbn.
    + apply String.eqb_eq in Hn as ->.
      destruct (dev =? other)%string eqn:Hd; [|done].
      apply String.eqb_eq in Hd. congruence.
    + by rewrite IH.
Qed.

Lemma update_entry_keys t dev e :
  is_Some (lookup_entry t dev) -> map fst (update_entry t dev e) = map fst t.
Proof.
  induction t as [|[n e'] t IH]; cbn; [by intros [? ?]|].
  destruct (n =? dev)%string eqn:Hn; cbn; [done|].
  intros H. by rewrite IH.
Qed.


Import BackupManager.

Lemma preserves_weaken (R R' : World -> World -> Prop) {A} (m : M A) :
  (forall w w', R w w' -> R' w w') -> preserves R m -> preserves R' m.
Proof. intros HR Hm w. apply HR, Hm. Qed.

Lemma store_step_refl d w : store_step d w w.
Proof. exists []. by rewrite app_nil_r. Qed.

Lemma store_step_trans d a b c : store_step d a b -> store_step d b c -> store_step d a c.
Proof.
  intros (n1 & T1 & K1 & C1 & F1) (n2 & T2 & K2 & C2 & F2).
  exists (n1 ++ n2). split; [by rewrite T2, T1, app_assoc|].
  split; [by apply Forall_app|]. split; [congruence|].
  intros other Hne. by rewrite F2, F1.
Qed.

Lemma store_io d req : preserves (store_step d) (io E req).
Proof.
  intros w. exists [EvIo req (env_io_ok E (trace w) req)].
  split; [done|]. split; [by repeat constructor|]. by split.
Qed.

Lemma store_set_directory d l : preserves (store_step d) (set_directory d l).
Proof.
  intros w. exists []. cbn. rewrite app_nil_r. repeat split; auto.
  intros other Hne. by apply lookup_update_ne.
Qed.

Hint Resolve store_io store_set_directory : store_frames.

Ltac store d :=
  frame (store_step_refl d) (store_step_trans d) ltac:(solve [auto 2 with store_frames nocore]).

Lemma store_get_device_backup_dir d : preserves (store_step d) (get_device_backup_dir E d).
Proof. unfold get_device_backup_dir, tree. store d. Qed.
Hint Resolve store_get_device_backup_dir : store_frames.

Lemma store_backup_config bm d content : preserves (store_step d) (backup_config E bm d content).
Proof. unfold backup_config, now, tree. store d. Qed.
Hint Resolve store_backup_config : store_frames.

Lemma store_history_loop bm d l : forall h, preserves (store_step d) (history_loop E bm d l h).
Proof. induction l as [|f l IH]; intros h; cbn [history_loop]; store d. Qed.
Hint Resolve store_history_loop : store_frames.

Lemma store_get_backup_history bm d : preserves (store_step d) (get_backup_history E bm d).
Proof. unfold get_backup_history, tree. store d. Qed.
Hint Resolve store_get_backup_history : store_frames.

Lemma store_get_latest_backup bm d : preserves (store_step d) (get_latest_backup E bm d).
Proof. unfold get_latest_backup. store d. Qed.
Hint Resolve store_get_latest_backup : store_frames.

Lemma store_get_backup_content bm d f : preserves (store_step d) (get_backup_content E bm d f).
Proof. unfold get_backup_content, tree. store d. Qed.
Hint Resolve store_get_backup_content : store_frames.

(** pruning *)
Lemma prune_step_refl w : prune_step w w.
Proof. exists []. by rewrite app_nil_r. Qed.

Lemma prune_step_trans a b c : prune_step a b -> prune_step b c -> prune_step a c.
Proof.
  intros (n1 & T1 & K1 & C1) (n2 & T2 & K2 & C2).
  exists (n1 ++ n2). split; [by rewrite T2, T1, app_assoc|].
  split; [by apply Forall_app|congruence].
Qed.

Lemma prune_io req : preserves prune_step (io E req).
Proof.
  intros w. exists [EvIo req (env_io_ok E (trace w) req)].
  split; [done|]. split; [by repeat constructor|]. by split.
Qed.

Lemma prune_set_directory d l : preserves prune_step (set_directory d l).
Proof. intros w. exists []. cbn. rewrite app_nil_r. repeat split; auto. Qed.

Hint Resolve prune_io prune_set_directory : prune_frames.

Ltac prune :=
  frame prune_step_refl prune_step_trans ltac:(solve [auto 2 with prune_frames nocore]).

Lemma prune_remove d f : preserves prune_step (remove E d f).
Proof. unfold remove, tree. prune. Qed.
Hint Resolve prune_remove : prune_frames.

Lemma prune_cleanup_file bm d cutoff f : preserves prune_step (cleanup_file E bm d cutoff f).
Proof. unfold cleanup_file. prune. Qed.
Hint Resolve prune_cleanup_file : prune_frames.

Lemma prune_cleanup_files bm d cutoff l : preserves prune_step (cleanup_files E bm d cutoff l).
Proof.
  induction l as [|f l IH]; cbn [cleanup_files]; prune.
Qed.
Hint Resolve prune_cleanup_files : prune_frames.

Lemma prune_cleanup_device bm cutoff d : preserves prune_step (cleanup_device E bm cutoff d).
Proof. unfold cleanup_device, tree. prune. Qed.
Hint Resolve prune_cleanup_device : prune_frames.

Lemma prune_cleanup_devices bm cutoff l : preserves prune_step (cleanup_devices E bm cutoff l).
Proof.
  induction l as [|d l IH]; cbn [cleanup_devices]; prune.
Qed.
Hint Resolve prune_cleanup_devices : prune_frames.

Lemma prune_cleanup_old_backups bm dn : preserves prune_step (cleanup_old_backups E bm dn).
Proof. unfold cleanup_old_backups, tree, now. prune. Qed.
Hint Resolve prune_cleanup_old_backups : prune_frames.

(** the pipeline *)
Import Scheduler.

Lemma pipeline_step_refl d w : pipeline_step d w w.
Proof. exists []. by rewrite app_nil_r. Qed.

Lemma pipeline_step_trans d a b c :
  pipeline_step d a b -> pipeline_step d b c -> pipeline_step d a c.
Proof.
  intros (n1 & T1 & K1 & C1 & F1) (n2 & T2 & K2 & C2 & F2).
  exists (n1 ++ n2). split; [by rewrite T2, T1, app_assoc|].
  split; [by apply Forall_app|]. split.
  - intros other Hne. by rewrite C2, C1.
  - intros other Hne. by rewrite F2, F1.
Qed.

Lemma net_is_pipeline d w w' : net_step d w w' -> pipeline_step d w w'.
Proof.
  intros (new & T & K & F & C). exists new. split; [done|]. split.
  - eapply Forall_impl; [exact K|]. intros e Hn Hm. by destruct e.
  - split; [done|]. intros other _. by rewrite F.
Qed.

Lemma store_is_pipeline d w w' : store_step d w w' -> pipeline_step d w w'.
Proof.
  intros (new & T & K & C & F). exists new. split; [done|]. split.
  - eapply Forall_impl; [exact K|]. intros e Hn Hm. by destruct e.
  - split; [|done]. intros other _. by rewrite C.
Qed.

Lemma pipeline_send_alert d x : preserves (pipeline_step d) (send_alert E d x).
Proof.
  intros w. unfold send_alert.
  assert (H : pipeline_step d w (log (EvAlert d x (env_alert E (trace w) d x)) w)).
  { eexists [_]. split; [done|]. split; [|by split].
    constructor; [|constructor]. by intros []. }
  by destruct (env_alert E (trace w) d x).
Qed.

Lemma pipeline_backup_device sch d : preserves (pipeline_step d) (_backup_device E sch d).
Proof.
  unfold _backup_device.
  frame (pipeline_step_refl d) (pipeline_step_trans d)
    ltac:(first
      [ apply pipeline_send_alert
      | apply (preserves_weaken _ _ _ (net_is_pipeline d)), net_get_config
      | apply (preserves_weaken _ _ _ (store_is_pipeline d));
        solve [auto 2 with store_frames nocore] ]).
Qed.

(** consulting the tree *)
Lemma look_step_refl w : look_step w w.
Proof. exists []. by rewrite app_nil_r. Qed.

Lemma look_step_trans a b c : look_step a b -> look_step b c -> look_step a c.
Proof.
  intros (n1 & T1 & K1 & C1 & F1) (n2 & T2 & K2 & C2 & F2).
  exists (n1 ++ n2). split; [by rewrite T2, T1, app_assoc|].
  split; [by apply Forall_app|]. split; congruence.
Qed.

Lemma look_io req : preserves look_step (io E req).
Proof.
  intros w. exists [EvIo req (env_io_ok E (trace w) req)].
  split; [done|]. split; [by repeat constructor|]. by split.
Qed.

Create HintDb look_frames.
Hint Resolve look_io : look_frames.

Ltac look :=
  frame look_step_refl look_step_trans ltac:(solve [auto 2 with look_frames nocore]).

Lemma look_history_loop bm d l : forall h, preserves look_step (history_loop E bm d l h).
Proof. induction l as [|f l IH]; intros h; cbn [history_loop]; look. Qed.
Hint Resolve look_history_loop : look_frames.

Lemma look_get_backup_history bm d : preserves look_step (get_backup_history E bm d).
Proof. unfold get_backup_history, tree. look. Qed.
Hint Resolve look_get_backup_history : look_frames.

Lemma look_get_latest_backup bm d : preserves look_step (get_latest_backup E bm d).
Proof. unfold get_latest_backup. look. Qed.

(** ** What the backup manager returns *)

Lemma history_loop_spec bm d l : forall h w,
  exists h' w',
    history_loop E bm d l h w = (Ok h', w')
    /\ forall x, In x h' -> In x h \/ In (file_path x) (map file_name l).
Proof.
  induction l as [|f l IH]; intros h w; cbn [history_loop].
  - exists h, w. split; [done|]. by left.
  - destruct (negb (endswith ".cfg" (file_name f))).
    + destruct (IH h w) as (h' & w' & He & Hin). exists h', w'. split; [done|].
      intros x Hx. destruct (Hin x Hx); [by left|right; by right].
    + unfold bind at 1, io at 1.
      destruct (negb (env_io_ok E (trace w) (IoStat d (file_name f)))).
      * destruct (IH h (log (EvIo (IoStat d (file_name f))
                                  (env_io_ok E (trace w) (IoStat d (file_name f)))) w))
          as (h' & w' & He & Hin).
        exists h', w'. split; [done|].
        intros x Hx. destruct (Hin x Hx); [by left|right; by right].
      * cbv zeta.
        destruct (match strptime bm _ key_format with
                  | Some t => Some t
                  | None => file_mtime f
                  end) as [ts|].
        -- match goal with |- context [history_loop E bm d l ?acc ?w1] =>
             destruct (IH acc w1) as (h' & w' & He & Hin) end.
           exists h', w'. split; [done|].
           intros x Hx. destruct (Hin x Hx) as [Hacc|Hl]; [|right; by right].
           apply in_app_or in Hacc as [?|[<-|[]]]; [by left|]. right. by left.
        -- match goal with |- context [history_loop E bm d l ?acc ?w1] =>
             destruct (IH acc w1) as (h' & w' & He & Hin) end.
           exists h', w'. split; [done|].
           intros x Hx. destruct (Hin x Hx); [by left|right; by right].
Qed.

Lemma insert_desc_In x y l : In y (insert_desc x l) -> y = x \/ In y l.
Proof.
  induction l as [|z l IH]; cbn; [by intros [<-|[]]; left|].
  destruct (str_lt (timestamp x) (timestamp z)); cbn.
  - intros [<-|H]; [right; by left|]. destruct (IH H); [by left|right; by right].
  - intros [<-|H]; [by left|by right].
Qed.

Lemma sort_desc_In y l : In y (sort_desc l) -> In y l.
Proof.
  induction l as [|x l IH]; cbn; [done|].
  intros H. apply insert_desc_In in H as [->|H]; [by left|right; by apply IH].
Qed.

Lemma find_file_In l p : In p (map file_name l) -> is_Some (find_file l p).
Proof.
  induction l as [|f l IH]; cbn; [done|].
  destruct (file_name f =? p)%string eqn:Hn; [eauto|].
  intros [H|H]; [|by apply IH]. apply String.eqb_neq in Hn. done.
Qed.

Lemma get_latest_backup_spec bm d w :
  exists latest w',
    get_latest_backup E bm d w = (Ok latest, w')
    /\ (forall p, latest = Some p -> is_Some (find_file (directory (files w) d) p))
    /\ (directory (files w) d = [] -> latest = None).
Proof.
  unfold get_latest_backup, get_backup_history, directory, tree.
  unfold bind at 1 2. unfold get at 1. cbv beta iota zeta.
  destruct (lookup_entry (files w) d) as [[|l]|];
    try (exists None, w; split; [done|]; split; done).
  unfold bind at 1, io at 1.
  destruct (negb (env_io_ok E (trace w) (IoListdir d))).
  { eexists None, _. split; [reflexivity|]. split; done. }
  set (w1 := log _ w).
  destruct (history_loop_spec bm d l [] w1) as (h & w' & He & Hin).
  unfold bind. rewrite He. unfold ret.
  destruct (sort_desc h) as [|x rest] eqn:Hs.
  - exists None, w'. split; [done|]. split; done.
  - exists (Some (file_path x)), w'. split; [done|]. split.
    + intros p [= <-]. apply find_file_In.
      assert (Hx : In x (sort_desc h)) by (rewrite Hs; by left).
      apply sort_desc_In, Hin in Hx as [[]|Hx]. done.
    + intros ->. exfalso.
      assert (Hx : In x (sort_desc h)) by (rewrite Hs; by left).
      apply sort_desc_In, Hin in Hx as [[]|[]].
Qed.

Lemma put_file_fresh l f :
  find_file l (file_name f) = None -> put_file l f = l ++ [f].
Proof.
  induction l as [|g l IH]; cbn; [done|].
  destruct (file_name g =? file_name f)%string; [done|]. intros H. by rewrite IH.
Qed.

Lemma find_file_put_ne l f p :
  p <> file_name f -> find_file (put_file l f) p = find_file l p.
Proof.
  intros Hne. induction l as [|g l IH]; cbn.
  - destruct (file_name f =? p)%string eqn:Hn; [|done].
    apply String.eqb_eq in Hn. congruence.
  - destruct (file_name g =? file_name f)%string eqn:Hgf; cbn.
    + apply String.eqb_eq in Hgf. rewrite Hgf.
      destruct (file_name f =? p)%string eqn:Hn; [|done].
      apply String.eqb_eq in Hn. congruence.
    + by rewrite IH.
Qed.

Lemma get_device_backup_dir_eq d w :
  get_device_backup_dir E d w
  = match lookup_entry (files w) d with
    | Some _ => (Ok tt, w)
    | None =>
        if env_io_ok E (trace w) (IoMkdir d)
        then (Ok tt, with_files (update_entry (files w) d (Directory []))
                       (log (EvIo (IoMkdir d) true) w))
        else (Raised, log (EvIo (IoMkdir d) false) w)
    end.
Proof.
  unfold get_device_backup_dir, tree, io, set_directory.
  unfold bind, get, ret, raise, modify. cbv beta iota zeta.
  destruct (lookup_entry (files w) d); [done|].
  by destruct (env_io_ok E (trace w) (IoMkdir d)).
Qed.

Lemma put_file_twice l f g :
  file_name f = file_name g -> put_file (put_file l f) g = put_file l g.
Proof.
  intros Hn. induction l as [|h l IH]; cbn.
  - by rewrite Hn, String.eqb_refl.
  - destruct (file_name h =? file_name f)%string eqn:Hh; cbn.
    + rewrite Hn, String.eqb_refl. by rewrite <- Hn, Hh.
    + rewrite <- Hn, Hh. by rewrite IH.
Qed.

Lemma str_take_all s : str_take (String.length s) s = s.
Proof. induction s as [|c s IH]; cbn; [done|]. by rewrite IH. Qed.

(** What [backup_config] does, case by case: it returns the name and
    the text is in the directory; or it returns nothing, and either the
    directory's files are what they were, or a beginning of the text was
    left under the name. *)
Lemma backup_config_run bm d content w :
  exists r w',
    backup_config E bm d content w = (Ok r, w')
    /\ match r with
       | Some key =>
           exists t mtime,
             key = strftime bm key_format t +:+ ".cfg"
             /\ lookup_entry (files w') d
                = Some (Directory (put_file (directory (files w) d)
                                     {| file_name := key; file_content := content;
                                        file_mtime := Some mtime |}))
       | None =>
           directory (files w') d = directory (files w) d
           \/ exists t text mtime,
                is_beginning text content
                /\ lookup_entry (files w') d
                   = Some (Directory (put_file (directory (files w) d)
                                        {| file_name := strftime bm key_format t +:+ ".cfg";
                                           file_content := text;
                                           file_mtime := Some mtime |}))
       end
    /\ (storable E d ->
        lookup_entry (files w) d <> Some NotADirectory -> is_Some r).
Proof.
  assert (Hwrite : forall w1 l key,
    lookup_entry (files w1) d = Some (Directory l) ->
    exists r w',
      (write_text E d key content ;;
       found <- io E (IoStat d key) ;;
       if found then ret (Some key) else ret None) w1 = (r, w')
      /\ match r with
         | Ok (Some key') =>
             key' = key
             /\ exists mtime,
                  lookup_entry (files w') d
                  = Some (Directory (put_file l {| file_name := key;
                                                   file_content := content;
                                                   file_mtime := Some mtime |}))
         | _ =>
             lookup_entry (files w') d = Some (Directory l)
             \/ exists text mtime,
                  is_beginning text content
                  /\ lookup_entry (files w') d
                     = Some (Directory (put_file l {| file_name := key;
                                                      file_content := text;
                                                      file_mtime := Some mtime |}))
         end
      /\ (storable E d -> exists k, r = Ok (Some k))).
  { intros w1 l key Hl.
    unfold write_text, put_text, set_directory, directory, now, tree, io.
    unfold bind, ret, raise, get, modify. cbv beta iota zeta.
    destruct (env_io_ok E (trace w1) (IoOpen d key)) eqn:Hopen; cbn [negb]; step.
    2:{ eexists _, _. split; [reflexivity|]. step. split; [by left|].
        intros (_ & Hok & _). by rewrite Hok in Hopen. }
    rewrite Hl. rewrite ?lookup_update_eq.
    destruct (env_io_ok E _ (IoWrite d key)) eqn:Hwr; step.
    - rewrite !lookup_update_eq.
      destruct (env_io_ok E _ (IoStat d key)) eqn:Hst; step.
      + eexists _, _. split; [reflexivity|]. step. rewrite lookup_update_eq.
        split; [|eauto]. split; [done|]. eexists. by rewrite put_file_twice.
      + eexists _, _. split; [reflexivity|]. step. rewrite lookup_update_eq.
        split.
        * right. eexists content, _. split; [exists (String.length content);
            by rewrite str_take_all|]. by rewrite put_file_twice.
        * intros (_ & _ & _ & Hok). by rewrite Hok in Hst.
    - rewrite !lookup_update_eq.
      eexists _, _. split; [reflexivity|]. step. rewrite lookup_update_eq.
      split.
      + right. eexists _, _. split; [by eexists|]. by rewrite put_file_twice.
      + intros (_ & _ & Hok & _). by rewrite Hok in Hwr. }
  assert (Hbody : forall w1 l,
    lookup_entry (files w1) d = Some (Directory l) ->
    exists r w',
      (timestamp <- now E ;;
       t <- tree ;;
       match lookup_entry t d with
       | Some (Directory _) =>
           write_text E d (strftime bm key_format timestamp +:+ ".cfg") content ;;
           found <- io E (IoStat d (strftime bm key_format timestamp +:+ ".cfg")) ;;
           if found then ret (Some (strftime bm key_format timestamp +:+ ".cfg"))
           else ret None
       | _ => raise
       end) w1 = (r, w')
      /\ match r with
         | Ok (Some key) =>
             exists t mtime,
               key = strftime bm key_format t +:+ ".cfg"
               /\ lookup_entry (files w') d
                  = Some (Directory (put_file l {| file_name := key;
                                                   file_content := content;
                                                   file_mtime := Some mtime |}))
         | _ =>
             lookup_entry (files w') d = Some (Directory l)
             \/ exists t text mtime,
                  is_beginning text content
                  /\ lookup_entry (files w') d
                     = Some (Directory
                               (put_file l
                                  {| file_name := strftime bm key_format t +:+ ".cfg";
                                     file_content := text;
                                     file_mtime := Some mtime |}))
         end
      /\ (storable E d -> exists k, r = Ok (Some k))).
  { intros w1 l Hl.
    unfold bind at 1, now at 1, get at 1. cbv beta iota zeta.
    unfold bind at 1, tree at 1, get at 1. cbv beta iota zeta. rewrite Hl.
    destruct (Hwrite w1 l (strftime bm key_format (env_now E (trace w1)) +:+ ".cfg") Hl)
      as (r & w' & He & Hr & Hok).
    exists r, w'. split; [exact He|]. split; [|exact Hok].
    destruct r as [[key|]|].
    - destruct Hr as [-> [mtime Hr]]. eauto.
    - destruct Hr as [Hr|(text & mtime & Hb & Hr)]; [by left|]. right. eauto 6.
    - destruct Hr as [Hr|(text & mtime & Hb & Hr)]; [by left|]. right. eauto 6. }
  assert (Hfin : forall w1 l,
    lookup_entry (files w1) d = Some (Directory l) ->
    directory (files w) d = l ->
    (exists r w',
       catch
         (timestamp <- now E ;;
          t <- tree ;;
          match lookup_entry t d with
          | Some (Directory _) =>
              write_text E d (strftime bm key_format timestamp +:+ ".cfg") content ;;
              found <- io E (IoStat d (strftime bm key_format timestamp +:+ ".cfg")) ;;
              if found then ret (Some (strftime bm key_format timestamp +:+ ".cfg"))
              else ret None
          | _ => raise
          end) (ret None) w1 = (Ok r, w')
       /\ match r with
          | Some key =>
              exists t mtime,
                key = strftime bm key_format t +:+ ".cfg"
                /\ lookup_entry (files w') d
                   = Some (Directory (put_file (directory (files w) d)
                                        {| file_name := key; file_content := content;
                                           file_mtime := Some mtime |}))
          | None =>
              directory (files w') d = directory (files w) d
              \/ exists t text mtime,
                   is_beginning text content
                   /\ lookup_entry (files w') d
                      = Some (Directory
                                (put_file (directory (files w) d)
                                   {| file_name := strftime bm key_format t +:+ ".cfg";
                                      file_content := text;
                                      file_mtime := Some mtime |}))
          end
       /\ (storable E d -> is_Some r))).
  { intros w1 l Hl Hd. destruct (Hbody w1 l Hl) as (r & w' & He & Hr & Hok).
    unfold catch. rewrite He. rewrite Hd.
    destruct r as [[key|]|]; unfold ret.
    - eexists (Some key), w'. split; [reflexivity|]. split; [exact Hr|]. eauto.
    - eexists None, w'. split; [reflexivity|]. split.
      + destruct Hr as [Hr|Hr]; [left; unfold directory; by rewrite Hr|by right].
      + intros Hall. destruct (Hok Hall) as [k [=]].
    - eexists None, w'. split; [reflexivity|]. split.
      + destruct Hr as [Hr|Hr]; [left; unfold directory; by rewrite Hr|by right].
      + intros Hall. destruct (Hok Hall) as [k [=]]. }
  unfold backup_config.
  destruct (lookup_entry (files w) d) as [[|l]|] eqn:Hl.
  - exists None, w. split.
    + unfold catch. unfold bind at 1. rewrite get_device_backup_dir_eq, Hl.
      unfold bind at 1, now at 1, get at 1. cbv beta iota zeta.
      unfold bind at 1, tree at 1, get at 1. cbv beta iota zeta. by rewrite Hl.
    + split; [by left|]. by intros _ ?.
  - destruct (Hfin w l Hl) as (r & w' & He & Hr & Hok).
    { unfold directory. by rewrite Hl. }
    exists r, w'. split; [|split; [exact Hr|by intros Hall _; apply Hok]].
    rewrite <- He. unfold catch. unfold bind at 1.
    by rewrite get_device_backup_dir_eq, Hl.
  - destruct (env_io_ok E (trace w) (IoMkdir d)) eqn:Hmk.
    + set (w1 := with_files (update_entry (files w) d (Directory []))
                   (log (EvIo (IoMkdir d) true) w)).
      destruct (Hfin w1 []) as (r & w' & He & Hr & Hok).
      { subst w1. step. apply lookup_update_eq. }
      { unfold directory. by rewrite Hl. }
      exists r, w'. split; [|split; [exact Hr|by intros Hall _; apply Hok]].
      rewrite <- He. unfold catch. unfold bind at 1.
      by rewrite get_device_backup_dir_eq, Hl, Hmk.
    + eexists None, _. split.
      * unfold catch. unfold bind at 1.
        rewrite get_device_backup_dir_eq, Hl, Hmk. reflexivity.
      * step. split; [by left|]. intros (Hall & _). by rewrite Hall in Hmk.
Qed.

Lemma backup_config_stored bm d content w key w' :
  backup_config E bm d content w = (Ok (Some key), w') ->
  exists t,
    lookup_entry (files w') d
    = Some (Directory (put_file (directory (files w) d)
                         {| file_name := key; file_content := content;
                            file_mtime := Some t |})).
Proof.
  intros He.
  destruct (backup_config_run bm d content w) as (r & w'' & He' & Hr & _).
  rewrite He in He'. injection He' as <- <-.
  destruct Hr as (t & mtime & _ & Hr). eauto.
Qed.

Lemma get_backup_content_spec bm d p w l :
  lookup_entry (files w) d = Some (Directory l) ->
  get_backup_content E bm d p w
  = match find_file l p with
    | Some f =>
        (Ok (if env_io_ok E (trace w) (IoRead d p)
             then Some (universal_newlines (file_content f)) else None),
         log (EvIo (IoRead d p) (env_io_ok E (trace w) (IoRead d p))) w)
    | None => (Ok None, w)
    end.
Proof.
  intros Hl.
  unfold get_backup_content, get_device_backup_dir, directory, tree, io.
  unfold bind, ret, get. cbv beta iota zeta. rewrite Hl.
  cbv beta iota zeta. rewrite ?Hl. by destruct (find_file l p).
Qed.

Lemma alerts_of_app a b : alerts_of (a ++ b) = alerts_of a ++ alerts_of b.
Proof. unfold alerts_of. by rewrite flat_map_app. Qed.

Lemma alerts_of_network new : Forall is_network new -> alerts_of new = [].
Proof.
  induction 1 as [|e l He _ IH]; [done|]. destruct e; try done; exact IH.
Qed.

Lemma alerts_of_io new : Forall is_io new -> alerts_of new = [].
Proof.
  induction 1 as [|e l He _ IH]; [done|]. destruct e; try done; exact IH.
Qed.

Lemma compare_configs_same_flag ud A :
  DiffEngine.has_changes (DiffEngine.compare_configs ud A A) = false.
Proof. unfold DiffEngine.compare_configs. by rewrite String.eqb_refl. Qed.

Lemma universal_newlines_id s :
  contains (String cr "") s = false -> universal_newlines s = s.
Proof.
  induction s as [|c s IH]; [done|].
  change (contains (String cr "") (String c s))
    with ((cr =? c)%char && true || contains (String cr "") s).
  rewrite andb_true_r. intros [Hc Hs]%orb_false_elim.
  cbn [universal_newlines]. rewrite Ascii.eqb_sym, Hc. by rewrite IH.
Qed.

(** C6 (as amended). When the capture yields a text and the store
    succeeds under a key not yet used by the device, the pipeline leaves
    exactly one new record in the device's directory, holding the
    captured text, and touches no other device's records; this does not
    depend on the content. The alert collaborator is invoked, once,
    exactly when a latest record was found before storing, its content
    could be read and was not empty, and comparing what was read with
    the capture reports changes. A record is read in text mode, so what
    is read is its text with CR LF and CR turned into LF. So the first
    run of a device (empty directory) stores one record and alerts
    nobody, and so does a run whose capture equals what the latest
    record reads as: a capture equal to the latest record and free of
    carriage returns. *)
Theorem backup_device_stores_and_alerts sch (d : string) (w : World)
    (cfg key : string) :
  let dm := device_manager sch in
  let bm := backup_manager sch in
  let cap := get_config E dm d w in
  let look := get_latest_backup E bm d cap.2 in
  let store := backup_config E bm d cfg look.2 in
  plain_name d = true ->
  cap.1 = Ok (Some cfg) -> cfg <> "" ->
  store.1 = Ok (Some key) ->
  find_file (directory (files w) d) key = None ->
  exists latest r w' new t,
    look.1 = Ok latest
    /\ _backup_device E sch d w = (r, w')
    /\ trace w' = trace w ++ new
    /\ directory (files w') d
       = directory (files w) d
         ++ [{| file_name := key; file_content := cfg; file_mtime := Some t |}]
    /\ (forall other, plain_name other = true -> other <> d ->
          lookup_entry (files w') other = lookup_entry (files w) other)
    /\ alerts_of new
       = match latest with
         | Some p =>
             match find_file (directory (files w) d) p with
             | Some f =>
                 let old_config := universal_newlines (file_content f) in
                 let diff_result :=
                   DiffEngine.compare_configs (differ sch) old_config cfg in
                 if env_io_ok E (trace store.2) (IoRead d p)
                    && negb (old_config =? "")%string
                    && DiffEngine.has_changes diff_result
                 then [(d, diff_result)]
                 else []
             | None => []
             end
         | None => []
         end
    /\ (directory (files w) d = [] -> alerts_of new = [])
    /\ (forall p f, latest = Some p ->
          find_file (directory (files w) d) p = Some f ->
          universal_newlines (file_content f) = cfg -> alerts_of new = [])
    /\ (forall p f, latest = Some p ->
          find_file (directory (files w) d) p = Some f ->
          file_content f = cfg -> contains (String cr "") cfg = false ->
          alerts_of new = []).
Proof.
  intros dm bm cap look store. subst cap look store.
  destruct (get_config E dm d w) as [rc w1] eqn:Ecap. cbn [fst snd].
  destruct (get_latest_backup E bm d w1) as [rl w2] eqn:Hlook. cbn [fst snd].
  destruct (backup_config E bm d cfg w2) as [rs w3] eqn:Hst. cbn [fst snd].
  intros _ -> Hcfg -> Hfresh.
  (* the capture *)
  pose proof (net_get_config dm d w) as (n1 & T1 & K1 & F1 & _).
  rewrite Ecap in T1, F1. cbn [snd] in T1, F1.
  (* the look-up of the baseline *)
  destruct (get_latest_backup_spec bm d w1) as (latest & w2' & Hlook' & Hin & Hempty).
  rewrite Hlook in Hlook'. injection Hlook' as -> <-.
  pose proof (look_get_latest_backup bm d w1) as (n2 & T2 & K2 & _ & F2).
  rewrite Hlook in T2, F2. cbn [snd] in T2, F2.
  rewrite F1 in Hin, Hempty.
  (* the store *)
  pose proof (store_backup_config bm d cfg w2) as (n3 & T3 & K3 & _ & F3).
  rewrite Hst in T3, F3. cbn [snd] in T3, F3.
  destruct (backup_config_stored bm d cfg _ key w3 Hst) as (t & Hdir).
  rewrite F2, F1 in Hdir.
  assert (Hput : put_file (directory (files w) d)
                    {| file_name := key; file_content := cfg; file_mtime := Some t |}
                  = directory (files w) d
                    ++ [{| file_name := key; file_content := cfg; file_mtime := Some t |}])
    by (by apply put_file_fresh).
  rewrite Hput in Hdir.
  assert (Hother : forall other, plain_name other = true -> other <> d ->
            lookup_entry (files w3) other = lookup_entry (files w) other).
  { intros other _ Hne. by rewrite (F3 other Hne), F2, F1. }
  assert (Htr3 : trace w3 = trace w ++ (n1 ++ n2 ++ n3)).
  { by rewrite T3, T2, T1, <- !app_assoc. }
  assert (Ha3 : alerts_of (n1 ++ n2 ++ n3) = []).
  { by rewrite !alerts_of_app, (alerts_of_network n1), (alerts_of_io n2), (alerts_of_io n3). }
  assert (Hd3 : directory (files w3) d
                = directory (files w) d
                  ++ [{| file_name := key; file_content := cfg; file_mtime := Some t |}]).
  { unfold directory at 1. by rewrite Hdir. }
  (* the run of the pipeline up to the store *)
  assert (Hrun : _backup_device E sch d w
    = match latest with
      | Some p =>
          (old_config <- get_backup_content E bm d p ;;
           if truthy old_config then
             let diff_result :=
               DiffEngine.compare_configs (differ sch) (text_of old_config) cfg in
             if DiffEngine.has_changes diff_result
             then send_alert E d diff_result ;; ret tt
             else ret tt
           else ret tt) w3
      | None => (Ok tt, w3)
      end).
  { unfold _backup_device. fold dm bm. unfold bind at 1. rewrite Ecap.
    assert (Ht : truthy (Some cfg) = true).
    { cbn. by apply negb_true_iff, String.eqb_neq. }
    rewrite Ht. cbn [negb text_of].
    unfold bind at 1. rewrite Hlook.
    unfold bind at 1. rewrite Hst. by destruct latest. }
  exists latest. destruct latest as [p|].
  - destruct (Hin p eq_refl) as [f Hf]. rewrite Hf.
    assert (Hne : p <> key).
    { intros ->. by rewrite Hfresh in Hf. }
    assert (Hf3 : find_file (directory (files w) d
                   ++ [{| file_name := key; file_content := cfg; file_mtime := Some t |}]) p
                  = Some f).
    { rewrite <- Hput. by rewrite find_file_put_ne. }
    unfold bind at 1 in Hrun.
    rewrite (get_backup_content_spec bm d p w3 _ Hdir), Hf3 in Hrun.
    set (ok := env_io_ok E (trace w3) (IoRead d p)) in *.
    set (w4 := log (EvIo (IoRead d p) ok) w3) in *.
    assert (Hw4 : trace w4 = trace w ++ (n1 ++ n2 ++ n3) ++ [EvIo (IoRead d p) ok]).
    { subst w4. cbn. by rewrite Htr3, <- !app_assoc. }
    assert (Hquiet : alerts_of ((n1 ++ n2 ++ n3) ++ [EvIo (IoRead d p) ok]) = []).
    { by rewrite alerts_of_app, Ha3. }
    destruct ok; cbn [andb].
    + cbn [truthy text_of] in Hrun.
      cbv zeta.
      destruct (negb (universal_newlines (file_content f) =? "")%string)
        eqn:Hnonempty; cbn [andb].
      * set (x := DiffEngine.compare_configs (differ sch)
                    (universal_newlines (file_content f)) cfg) in *.
        cbv zeta.
        destruct (DiffEngine.has_changes x) eqn:Hch.
        -- unfold bind, send_alert, ret in Hrun.
           set (w5 := log (EvAlert d x (env_alert E (trace w4) d x)) w4) in *.
           assert (Hw5 : trace w5 = trace w ++ ((n1 ++ n2 ++ n3) ++ [EvIo (IoRead d p) true])
                                     ++ [EvAlert d x (env_alert E (trace w4) d x)]).
           { subst w5. cbn [trace log]. by rewrite Hw4, <- !app_assoc. }
           exists (match env_alert E (trace w4) d x with
                   | AlertRaised => Raised
                   | _ => Ok tt
                   end), w5.
           eexists _, t.
           split; [done|]. split.
           { rewrite Hrun. destruct (env_alert E (trace w4) d x); reflexivity. }
           split; [exact Hw5|]. split; [exact Hd3|]. split; [exact Hother|].
           split; [by rewrite alerts_of_app, Hquiet|].
           split.
           { intros Hnil. by rewrite Hnil in Hf. }
           assert (Hsame : universal_newlines (file_content f) <> cfg).
           { intros Hc. subst x. rewrite Hc, compare_configs_same_flag in Hch. done. }
           split.
           { intros p' f' [= <-] Hf' Hc. rewrite Hf' in Hf. by injection Hf as ->. }
           intros p' f' [= <-] Hf' Hc Hcr. rewrite Hf' in Hf. injection Hf as ->.
           exfalso. apply Hsame. rewrite Hc. by apply universal_newlines_id.
        -- eexists _, w4, _, t. split; [done|]. split; [exact Hrun|].
           split; [exact Hw4|]. split; [exact Hd3|]. split; [exact Hother|].
           split; [exact Hquiet|]. split; [by intros _|]. split; by intros.
      * eexists _, w4, _, t. split; [done|]. split; [exact Hrun|].
        split; [exact Hw4|]. split; [exact Hd3|]. split; [exact Hother|].
        split; [exact Hquiet|]. split; [by intros _|]. split; by intros.
    + cbn [truthy] in Hrun.
      eexists _, w4, _, t. split; [done|]. split; [exact Hrun|].
      split; [exact Hw4|]. split; [exact Hd3|]. split; [exact Hother|].
      split; [exact Hquiet|]. split; [by intros _|]. split; by intros.
  - eexists _, w3, _, t. split; [done|]. split; [exact Hrun|].
    split; [exact Htr3|]. split; [exact Hd3|]. split; [exact Hother|].
    split; [exact Ha3|]. split; [by intros _|]. split; by intros.
Qed.

End SchedulerFacts.

Section BackupManagerFacts.
Import PyStr Sys BackupManager.
Context (E : Env).

Ltac run_bm :=
  unfold remove, get_device_backup_dir, set_directory, io, now, tree;
  unfold bind, ret, catch, raise, emit, get, modify;
  cbv beta iota zeta.

Ltac step :=
  cbv beta iota zeta;
  cbn [connections trace files log with_connections with_files].

Hypothesis io_ok : forall tr req, env_io_ok E tr req = true.

Lemma cleanup_file_ok bm dev cutoff f w cur :
  lookup_entry (files w) dev = Some (Directory cur) ->
  (is_cfg f = true -> is_Some (record_time bm f)) ->
  exists w',
    cleanup_file E bm dev cutoff f w = (Ok tt, w')
    /\ lookup_entry (files w') dev
       = Some (Directory (List.filter (fun g => negb (hit bm cutoff [f] g)) cur))
    /\ (forall other, other <> dev ->
          lookup_entry (files w') other = lookup_entry (files w) other)
    /\ map fst (files w') = map fst (files w).
Proof.
  intros Hcur Htime.
  assert (Hkeep : List.filter (fun _ : file => true) cur = cur).
  { clear. induction cur as [|g cur IH]; cbn; [done|]. by rewrite IH. }
  assert (Hrm : forall w1, files w1 = files w ->
    expired bm cutoff f = true ->
    exists w',
      remove E dev (file_name f) w1 = (Ok tt, w')
      /\ lookup_entry (files w') dev
         = Some (Directory (List.filter (fun g => negb (hit bm cutoff [f] g)) cur))
      /\ (forall other, other <> dev ->
            lookup_entry (files w') other = lookup_entry (files w) other)
      /\ map fst (files w') = map fst (files w)).
  { intros w1 Hf1 Hexp. run_bm. rewrite io_ok. step.
    eexists. split; [reflexivity|]. step. rewrite Hf1.
    split.
    - rewrite lookup_update_eq. unfold directory. rewrite Hcur.
      unfold drop_file, hit. cbn [existsb]. rewrite Hexp. cbn [andb].
      do 2 f_equal. apply List.filter_ext. intros g. by rewrite orb_false_r, String.eqb_sym.
    - split; [intros other Hne; by apply lookup_update_ne|].
      apply update_entry_keys. rewrite Hcur. eauto. }
  assert (Hno : expired bm cutoff f = false ->
    lookup_entry (files w) dev
    = Some (Directory (List.filter (fun g => negb (hit bm cutoff [f] g)) cur))).
  { intros Hexp. rewrite Hcur. do 2 f_equal. rewrite <- Hkeep at 1.
    apply List.filter_ext. intros g. unfold hit. cbn [existsb]. by rewrite Hexp. }
  unfold cleanup_file, expired, record_time, is_cfg in *.
  destruct (endswith ".cfg" (file_name f)) eqn:Hcfg.
  2:{ exists w. run_bm. split; [done|]. split; [by apply Hno|done]. }
  cbn [andb] in *.
  destruct (strptime bm (replace ".cfg" "" (file_name f)) key_format) as [ts|] eqn:Hts.
  - destruct (ts <? cutoff) eqn:Hlt.
    + destruct (Hrm w eq_refl eq_refl) as (w' & He & H1 & H2 & H3).
      exists w'. unfold catch. by rewrite He.
    + exists w. run_bm. split; [done|]. split; [by apply Hno|done].
  - unfold catch at 1, raise at 1. unfold bind at 1, io at 1. rewrite io_ok. step.
    destruct (Htime eq_refl) as [mtime Hm]. rewrite Hm in *. cbn [negb].
    destruct (mtime <? cutoff) eqn:Hlt.
    + by apply Hrm.
    + eexists. run_bm. split; [reflexivity|]. step. split; [by apply Hno|done].
Qed.

Lemma filter_twice {A} (p q : A -> bool) l :
  List.filter q (List.filter p l) = List.filter (fun x => p x && q x) l.
Proof.
  induction l as [|x l IH]; cbn; [done|].
  destruct (p x); cbn; [|done]. destruct (q x); by rewrite IH.
Qed.

Lemma cleanup_files_ok bm dev cutoff l : forall w cur,
  lookup_entry (files w) dev = Some (Directory cur) ->
  (forall f, In f l -> is_cfg f = true -> is_Some (record_time bm f)) ->
  exists w',
    cleanup_files E bm dev cutoff l w = (Ok tt, w')
    /\ lookup_entry (files w') dev
       = Some (Directory (List.filter (fun g => negb (hit bm cutoff l g)) cur))
    /\ (forall other, other <> dev ->
          lookup_entry (files w') other = lookup_entry (files w) other)
    /\ map fst (files w') = map fst (files w).
Proof.
  induction l as [|f l IH]; intros w cur Hcur Htime.
  - exists w. split; [done|]. split; [|done]. rewrite Hcur. do 2 f_equal.
    clear. induction cur as [|g cur IH]; cbn; [done|]. by rewrite <- IH at 1.
  - destruct (cleanup_file_ok bm dev cutoff f w cur Hcur) as (w1 & He1 & Hd1 & Hfr1 & Hk1).
    { apply Htime. by left. }
    destruct (IH w1 _ Hd1) as (w2 & He2 & Hd2 & Hfr2 & Hk2).
    { intros g Hg. apply Htime. by right. }
    exists w2. cbn [cleanup_files]. unfold bind. rewrite He1, He2.
    split; [done|]. split.
    + rewrite Hd2, filter_twice. do 2 f_equal. apply List.filter_ext.
      intros g. unfold hit. cbn [existsb]. rewrite orb_false_r.
      by rewrite negb_orb.
    + split; [|congruence]. intros other Hne.
      rewrite (Hfr2 other Hne). by apply Hfr1.
Qed.

Lemma hit_self bm cutoff cur :
  NoDup (map file_name cur) ->
  forall g, In g cur -> hit bm cutoff cur g = expired bm cutoff g.
Proof.
  induction cur as [|f cur IH]; intros Hnd g Hin; [done|].
  apply NoDup_cons in Hnd as [Hnotin Hnd].
  unfold hit. cbn [existsb]. fold (hit bm cutoff cur g).
  destruct Hin as [->|Hin].
  - rewrite String.eqb_refl, andb_true_r.
    destruct (expired bm cutoff g); [done|]. cbn.
    unfold hit. apply not_true_is_false. intros Hex.
    apply existsb_exists in Hex as (h & Hh & Hhit).
    apply andb_prop in Hhit as [_ Hn]. apply String.eqb_eq in Hn.
    apply Hnotin. rewrite <- Hn. apply list_elem_of_In, in_map, Hh.
  - rewrite (IH Hnd g Hin).
    destruct (file_name f =? file_name g)%string eqn:Hn.
    + apply String.eqb_eq in Hn. exfalso. apply Hnotin.
      rewrite Hn. by apply list_elem_of_In, in_map.
    + by rewrite andb_false_r.
Qed.

Lemma cleanup_device_ok bm cutoff dev w :
  (forall cur, lookup_entry (files w) dev = Some (Directory cur) ->
               NoDup (map file_name cur)
               /\ forall f, In f cur -> is_cfg f = true -> is_Some (record_time bm f)) ->
  exists w',
    cleanup_device E bm cutoff dev w = (Ok tt, w')
    /\ lookup_entry (files w') dev = pruned bm cutoff (lookup_entry (files w) dev)
    /\ (forall other, other <> dev ->
          lookup_entry (files w') other = lookup_entry (files w) other)
    /\ map fst (files w') = map fst (files w).
Proof.
  intros Hnd. unfold cleanup_device. run_bm.
  destruct (lookup_entry (files w) dev) as [[|cur]|] eqn:Hcur;
    try (exists w; by rewrite ?Hcur).
  rewrite io_ok. step. destruct (Hnd cur eq_refl) as [Hnd' Htime].
  destruct (cleanup_files_ok bm dev cutoff cur (log (EvIo (IoListdir dev) true) w) cur
              Hcur Htime)
    as (w' & He & Hd & Hfr & Hk).
  exists w'. split; [done|]. split; [|done].
  rewrite Hd. cbn [pruned]. do 2 f_equal.
  apply List.filter_ext_in. intros g Hg. by rewrite hit_self by auto.
Qed.

Lemma cleanup_devices_ok bm cutoff devs : forall w,
  NoDup devs ->
  (forall dev cur, In dev devs -> lookup_entry (files w) dev = Some (Directory cur) ->
                   NoDup (map file_name cur)
                   /\ forall f, In f cur -> is_cfg f = true ->
                                is_Some (record_time bm f)) ->
  exists w',
    cleanup_devices E bm cutoff devs w = (Ok tt, w')
    /\ (forall dev, In dev devs ->
          lookup_entry (files w') dev = pruned bm cutoff (lookup_entry (files w) dev))
    /\ (forall dev, ~ In dev devs ->
          lookup_entry (files w') dev = lookup_entry (files w) dev)
    /\ map fst (files w') = map fst (files w).
Proof.
  induction devs as [|d devs IH]; intros w Hnd Hwf.
  - exists w. split; [done|]. split; [by intros ? []|done].
  - apply NoDup_cons in Hnd as [Hd Hnd].
    destruct (cleanup_device_ok bm cutoff d w) as (w1 & He1 & Hp1 & Hfr1 & Hk1).
    { intros cur. apply Hwf. by left. }
    destruct (IH w1 Hnd) as (w2 & He2 & Hp2 & Hfr2 & Hk2).
    { intros dev cur Hin Hl. apply (Hwf dev cur); [by right|].
      rewrite <- Hl. symmetry. apply Hfr1. intros ->. apply Hd.
      by apply list_elem_of_In. }
    exists w2. cbn [cleanup_devices]. unfold bind. rewrite He1, He2.
    split; [done|]. split; [|split; [|congruence]].
    + intros dev [<-|Hin].
      * rewrite Hfr2, Hp1; [done|]. intros Hin. apply Hd. by apply list_elem_of_In.
      * rewrite Hp2 by done. rewrite Hfr1; [done|].
        intros ->. apply Hd. by apply list_elem_of_In.
    + intros dev Hnot. rewrite Hfr2 by (intros ?; apply Hnot; by right).
      apply Hfr1. intros ->. apply Hnot. by left.
Qed.

Lemma lookup_entry_In t dev e :
  NoDup (map fst t) -> lookup_entry t dev = Some e <-> In (dev, e) t.
Proof.
  induction t as [|[n e'] t IH]; cbn [map fst lookup_entry]; intros Hnd.
  - split; [done|by intros []].
  - apply NoDup_cons in Hnd as [Hn Hnd].
    destruct (n =? dev)%string eqn:Heq.
    + apply String.eqb_eq in Heq as ->. split.
      * intros [= ->]. by left.
      * intros [[= ->]|Hin]; [done|]. exfalso. apply Hn.
        apply list_elem_of_In. by apply (in_map fst) in Hin.
    + apply String.eqb_neq in Heq. rewrite (IH Hnd). split.
      * by right.
      * intros [[= -> ->]|Hin]; [done|done].
Qed.

Lemma lookup_entry_None t dev :
  ~ In dev (map fst t) -> lookup_entry t dev = None.
Proof.
  induction t as [|[n e] t IH]; cbn; [done|]. intros Hnot.
  destruct (n =? dev)%string eqn:Heq.
  - apply String.eqb_eq in Heq. exfalso. apply Hnot. by left.
  - apply IH. intros ?. apply Hnot. by right.
Qed.

Lemma lookup_entry_perm t1 t2 dev :
  NoDup (map fst t1) -> Permutation t1 t2 ->
  lookup_entry t1 dev = lookup_entry t2 dev.
Proof.
  intros Hnd Hp.
  assert (Hnd2 : NoDup (map fst t2)).
  { assert (Hm : map fst t1 ≡ₚ map fst t2) by (by apply Permutation_map).
    by rewrite <- Hm. }
  destruct (lookup_entry t1 dev) as [e|] eqn:H1.
  - symmetry. apply lookup_entry_In; [done|].
    eapply Permutation_in; [exact Hp|]. by apply lookup_entry_In.
  - destruct (lookup_entry t2 dev) as [e|] eqn:H2; [|done].
    apply lookup_entry_In in H2; [|done].
    apply (Permutation_in _ (Permutation_sym Hp)) in H2.
    apply lookup_entry_In in H2; [|done]. congruence.
Qed.

Lemma cleanup_all_ok bm w cutoff :
  wf_tree (files w) ->
  timed_tree bm (files w) ->
  minus_days (env_now E (trace w ++ [EvIo IoListroot true])) (retention_days bm)
  = Some cutoff ->
  exists w',
    cleanup_old_backups E bm None w = (Ok tt, w')
    /\ forall dev,
         lookup_entry (files w') dev = pruned bm cutoff (lookup_entry (files w) dev).
Proof.
  intros [Hkeys Hfiles] Htimed Hcut.
  unfold cleanup_old_backups, listdir_root. run_bm. rewrite io_ok. step.
  rewrite Hcut.
  destruct (cleanup_devices_ok bm cutoff (map fst (files w))
              (log (EvIo IoListroot true) w) Hkeys) as (w' & He & Hin & Hout & _).
  { intros dev cur _ Hl. apply lookup_entry_In in Hl; [|done]. split.
    - by apply (Hfiles dev).
    - intros f. by apply (Htimed dev cur). }
  exists w'. split; [done|]. intros dev.
  destruct (in_dec String.string_dec dev (map fst (files w))) as [Hd|Hd].
  - by apply Hin.
  - rewrite (Hout dev Hd). step. by rewrite (lookup_entry_None _ _ Hd).
Qed.

Lemma directory_pruned bm cutoff t t' dev :
  lookup_entry t' dev = pruned bm cutoff (lookup_entry t dev) ->
  directory t' dev = List.filter (fun f => negb (expired bm cutoff f)) (directory t dev).
Proof.
  unfold directory. intros ->. by destruct (lookup_entry t dev) as [[|cur]|].
Qed.

Lemma wf_tree_perm t1 t2 : wf_tree t1 -> Permutation t1 t2 -> wf_tree t2.
Proof.
  intros [Hk Hf] Hp. split.
  - assert (Hm : map fst t1 ≡ₚ map fst t2) by (by apply Permutation_map).
    by rewrite <- Hm.
  - intros dev l Hin. apply (Hf dev).
    eapply Permutation_in; [apply Permutation_sym, Hp|done].
Qed.

End BackupManagerFacts.

Section RunFacts.
Import PyStr Sys Frames DeviceManager BackupManager Scheduler.
Context (E : Env).

Ltac step :=
  cbv beta iota zeta;
  cbn [connections trace files log with_connections with_files].

Lemma io_of_network new : Forall is_network new -> io_of new = [].
Proof.
  induction 1 as [|e l He _ IH]; [done|]. destruct e; try done; exact IH.
Qed.

Lemma started_of_app a b : started_of (a ++ b) = started_of a ++ started_of b.
Proof. unfold started_of. by rewrite flat_map_app. Qed.

Lemma started_of_unmarked new :
  Forall (fun e => ~ is_mark e) new -> started_of new = [].
Proof.
  induction 1 as [|e l He _ IH]; [done|].
  destruct e; try done; by destruct He.
Qed.

Lemma unmarked_not_cleanup new :
  Forall (fun e => ~ is_mark e) new -> Forall (fun e => e <> EvCleanupStart) new.
Proof. intros H. eapply Forall_impl; [exact H|]. intros e He ->. by apply He. Qed.

Lemma empty_capture_run sch (d : string) (w w1 : World) (out : option string) :
  get_config E (device_manager sch) d w = (Ok out, w1) ->
  truthy out = false ->
  _backup_device E sch d w = (Ok tt, w1)
  /\ files w1 = files w
  /\ exists new, trace w1 = trace w ++ new /\ io_of new = [] /\ alerts_of new = [].
Proof.
  intros Hcap Hout.
  pose proof (net_get_config E (device_manager sch) d w) as (new & T & K & F & _).
  rewrite Hcap in T, F. cbn [snd] in T, F.
  split.
  - unfold _backup_device. unfold bind at 1. rewrite Hcap. by rewrite Hout.
  - split; [done|]. exists new. split; [done|].
    split; [by apply io_of_network|by apply alerts_of_network].
Qed.

(** C10. When the capture comes back as the empty text, which the
    command executor returns as an ordinary result, the pipeline stops
    there: it ends in the very world the capture left, so nothing is
    stored (the backup tree is untouched, no request reaches the file
    system), nothing is compared and no alert is sent. A capture that
    failed outright ([None]) is handled the same way. *)
Theorem empty_capture_is_capture_failure sch (d : string) (w w1 : World) :
  get_config E (device_manager sch) d w = (Ok (Some ""), w1) ->
  _backup_device E sch d w = (Ok tt, w1)
  /\ files w1 = files w
  /\ (exists new, trace w1 = trace w ++ new /\ io_of new = [] /\ alerts_of new = [])
  /\ (forall w0 w0',
        get_config E (device_manager sch) d w0 = (Ok None, w0') ->
        _backup_device E sch d w0 = (Ok tt, w0')).
Proof.
  intros Hcap.
  destruct (empty_capture_run sch d w w1 (Some "") Hcap eq_refl) as (H1 & H2 & H3).
  split; [done|]. split; [done|]. split; [done|].
  intros w0 w0' H0. by destruct (empty_capture_run sch d w0 w0' None H0 eq_refl).
Qed.

(** the loop *)
Lemma guarded_pipeline sch (d : string) (w : World) :
  exists (ok : bool) new w1,
    catch (emit (EvBackupStart d) ;; _backup_device E sch d ;; ret true) (ret false) w
      = (Ok ok, w1)
    /\ (_backup_device E sch d (log (EvBackupStart d) w)).2 = w1
    /\ trace w1 = trace w ++ EvBackupStart d :: new
    /\ Forall (fun e => ~ is_mark e) new
    /\ (forall other, other <> d -> connections w1 !! other = connections w !! other)
    /\ (forall other, other <> d ->
          lookup_entry (files w1) other = lookup_entry (files w) other).
Proof.
  pose proof (pipeline_backup_device E sch d (log (EvBackupStart d) w))
    as (new & T & K & C & F).
  unfold catch, bind, emit, ret. cbv beta iota zeta.
  destruct (_backup_device E sch d (log (EvBackupStart d) w)) as [[[]|] w1];
    cbn [snd] in *.
  - exists true, new, w1. split; [done|]. split; [done|].
    split; [rewrite T; cbn; by rewrite <- app_assoc|]. by split.
  - exists false, new, w1. split; [done|]. split; [done|].
    split; [rewrite T; cbn; by rewrite <- app_assoc|]. by split.
Qed.

Lemma backup_loop_spec sch names : forall s f w,
  exists s' f' new w',
    backup_loop E sch names s f w = (Ok (s', f'), w')
    /\ trace w' = trace w ++ new
    /\ started_of new = names
    /\ Forall (fun e => e <> EvCleanupStart) new
    /\ (s' + f' = s + f + length names)%nat
    /\ (forall other, ~ In other names ->
          connections w' !! other = connections w !! other
          /\ lookup_entry (files w') other = lookup_entry (files w) other).
Proof.
  induction names as [|d names IH]; intros s f w.
  - exists s, f, [], w. cbn. rewrite app_nil_r.
    split; [done|]. split; [done|]. split; [done|]. split; [done|]. split; [lia|done].
  - destruct (guarded_pipeline sch d w) as (ok & n & w1 & He & _ & T & K & C & F).
    cbn [backup_loop]. unfold bind at 1. rewrite He.
    destruct (IH (if ok then S s else s) (if ok then f else S f) w1)
      as (s' & f' & n' & w' & He' & T' & St & Cl & Cnt & Fr).
    exists s', f', ((EvBackupStart d :: n) ++ n'), w'.
    split; [by destruct ok|]. split; [by rewrite T', T, <- app_assoc|].
    split.
    { rewrite started_of_app.
      change (started_of (EvBackupStart d :: n)) with (d :: started_of n).
      by rewrite (started_of_unmarked n K), St. }
    split.
    { apply Forall_app. split; [|done]. constructor; [done|].
      by apply unmarked_not_cleanup. }
    split; [cbn; destruct ok; lia|].
    intros other Hnot.
    assert (Hne : other <> d) by (intros ->; apply Hnot; by left).
    destruct (Fr other) as [Fc Ff]; [intros ?; apply Hnot; by right|].
    split; [by rewrite Fc, C|by rewrite Ff, F].
Qed.

Lemma backup_loop_isolates sch names : forall s f w,
  NoDup names ->
  forall d, In d names -> isolated E sch d w (backup_loop E sch names s f w).2.
Proof.
  induction names as [|d0 names IH]; intros s f w Hnd d Hin; [done|].
  apply NoDup_cons in Hnd as [Hd0 Hnd].
  destruct (guarded_pipeline sch d0 w) as (ok & n & w1 & He & Hrun & T & K & C & F).
  cbn [backup_loop]. unfold bind at 1. rewrite He.
  set (s1 := if ok then S s else s). set (f1 := if ok then f else S f).
  replace (if ok then backup_loop E sch names (S s) f else backup_loop E sch names s (S f))
    with (backup_loop E sch names s1 f1) by (by destruct ok).
  destruct (backup_loop_spec sch names s1 f1 w1)
    as (s' & f' & n' & w' & He' & T' & _ & _ & _ & Fr).
  destruct Hin as [<-|Hin].
  - exists w. destruct (_backup_device E sch d0 (log (EvBackupStart d0) w)) as [r wd] eqn:Hp.
    cbn [snd] in Hrun. subst wd.
    exists r, w1, [], n'. rewrite He'. cbn [snd].
    split; [done|]. split; [by rewrite app_nil_r|]. split; [done|].
    split; [done|]. split; [done|].
    apply Fr. intros Hin. apply Hd0. by apply list_elem_of_In.
  - assert (Hne : d <> d0).
    { intros ->. apply Hd0. by apply list_elem_of_In. }
    destruct (IH s1 f1 w1 Hnd d Hin) as (w_d & r & w_d' & pre & post & Hp & Tp & Tq & Lf & Lc & Ll).
    exists w_d, r, w_d', ((EvBackupStart d0 :: n) ++ pre), post.
    split; [done|]. split; [by rewrite Tp, T, <- app_assoc|]. split; [done|].
    split; [by rewrite Lf, F|]. split; [by rewrite Lc, C|done].
Qed.

Lemma healthy_capture sch (d : string) info (cfg : string) (w : World) :
  healthy E sch d info cfg ->
  (forall c, connections w !! d = Some c -> conn_peer c = info) ->
  exists w1, get_config E (device_manager sch) d w = (Ok (Some cfg), w1).
Proof.
  intros (Hdev & Hn & _ & Hopen & Hprobe & Hsend & _) Hcache.
  unfold get_config, execute_command.
  unfold cached, _check_connection, send_probe, disconnect_quietly, forget.
  unfold bind, ret, get, emit, modify. cbv beta iota zeta.
  destruct (connections w !! d) as [c|] eqn:Hc.
  - rewrite (Hprobe _ c (Hcache c eq_refl)).
    cbn [seq command_loop]. unfold bind, send_command. cbv beta iota zeta.
    rewrite (Hsend _ c (Hcache c eq_refl)). eauto.
  - unfold connect. rewrite Hdev.
    unfold cached, bind, ret, get. cbv beta iota zeta. cbn [connections]. rewrite Hc.
    unfold budget.
    destruct (connection_retries (device_manager sch)) as [|n]; [lia|].
    cbn [seq connect_loop Nat.ltb Nat.leb].
    unfold _check_connection, send_probe, ConnectHandler, store_connection.
    unfold bind, ret, modify. cbv beta iota zeta.
    rewrite Hopen. cbv beta iota zeta. rewrite Hprobe by done.
    cbn [seq command_loop]. unfold bind, send_command. cbv beta iota zeta.
    rewrite Hsend by done. eauto.
Qed.

Lemma In_put_file l f : In f (put_file l f).
Proof.
  induction l as [|g l IH]; cbn; [by left|].
  destruct (file_name g =? file_name f)%string; [by left|by right].
Qed.

Lemma healthy_store sch (d : string) info (cfg : string) (w : World) :
  healthy E sch d info cfg ->
  lookup_entry (files w) d <> Some NotADirectory ->
  exists key w3 l,
    backup_config E (backup_manager sch) d cfg w = (Ok (Some key), w3)
    /\ lookup_entry (files w3) d = Some (Directory l)
    /\ exists f, In f l /\ file_content f = cfg.
Proof.
  intros (_ & _ & _ & _ & _ & _ & Hmk & Hop & Hwr & Hst) Hdir.
  destruct (backup_config_run E (backup_manager sch) d cfg w) as (r & w3 & He & Hr & Hok).
  destruct Hok as [key ->]; [by repeat split|done|].
  destruct Hr as (t & mtime & _ & Hl).
  eexists key, w3, _. split; [done|]. split; [exact Hl|].
  eexists. split; [apply In_put_file|done].
Qed.

Lemma healthy_pipeline sch (d : string) info (cfg : string) (w : World) :
  healthy E sch d info cfg ->
  (forall c, connections w !! d = Some c -> conn_peer c = info) ->
  lookup_entry (files w) d <> Some NotADirectory ->
  exists f, In f (directory (files (_backup_device E sch d w).2) d)
            /\ file_content f = cfg.
Proof.
  intros Hh Hcache Hdir.
  destruct (healthy_capture sch d info cfg w Hh Hcache) as (w1 & Hcap).
  pose proof (net_get_config E (device_manager sch) d w) as (n1 & _ & _ & F1 & _).
  rewrite Hcap in F1. cbn [snd] in F1.
  destruct (get_latest_backup_spec E (backup_manager sch) d w1)
    as (latest & w2 & Hlook & _ & _).
  pose proof (look_get_latest_backup E (backup_manager sch) d w1) as (n2 & _ & _ & _ & F2).
  rewrite Hlook in F2. cbn [snd] in F2.
  destruct (healthy_store sch d info cfg w2 Hh) as (key & w3 & l & Hst & Hl & f & Hf & Hc).
  { by rewrite F2, F1. }
  assert (Hcfg : truthy (Some cfg) = true).
  { destruct Hh as (_ & _ & Hne & _). cbn. by apply negb_true_iff, String.eqb_neq. }
  unfold _backup_device. unfold bind at 1. rewrite Hcap, Hcfg. cbn [negb text_of].
  unfold bind at 1. rewrite Hlook. unfold bind at 1. rewrite Hst.
  exists f. split; [|done].
  destruct latest as [p|]; [|unfold ret; cbn [snd]; unfold directory; by rewrite Hl].
  unfold bind at 1. rewrite (get_backup_content_spec E _ d p w3 l Hl).
  assert (Hlog : forall e w', directory (files (log e w')) d = directory (files w') d) by done.
  assert (Hw3 : directory (files w3) d = l) by (unfold directory; by rewrite Hl).
  destruct (find_file l p) as [g|]; [|cbn [truthy]; unfold ret; cbn [snd]; by rewrite Hw3].
  cbv beta iota zeta. clear Hcfg.
  set (w4 := log _ w3). assert (H4 : directory (files w4) d = l) by done.
  set (old := if env_io_ok E (trace w3) (IoRead d p) then _ else _).
  destruct (truthy old); [|unfold ret; cbn [snd]; by rewrite H4].
  cbv zeta. set (x := DiffEngine.compare_configs _ _ _).
  destruct (DiffEngine.has_changes x); [|unfold ret; cbn [snd]; by rewrite H4].
  unfold bind, send_alert, ret.
  destruct (env_alert E (trace w4) d x); cbn [snd]; by rewrite Hlog, H4.
Qed.

Lemma guarded_cleanup sch (w : World) :
  exists prune_events w',
    catch (emit EvCleanupStart ;;
           cleanup_old_backups E (backup_manager sch) None) (ret tt) w
      = (Ok tt, w')
    /\ trace w' = trace w ++ EvCleanupStart :: prune_events
    /\ Forall is_io prune_events.
Proof.
  pose proof (prune_cleanup_old_backups E (backup_manager sch) None (log EvCleanupStart w))
    as (new & T & K & _).
  unfold catch, bind, emit, ret. cbv beta iota zeta.
  destruct (cleanup_old_backups E (backup_manager sch) None (log EvCleanupStart w))
    as [[[]|] w']; cbn [snd] in T;
    exists new, w'; (split; [done|]); (split; [|done]);
    rewrite T; cbn; by rewrite <- app_assoc.
Qed.

(** C7. The registered devices bear plain names, no two the same, so
    that each name stands for a directory of its own. A full run starts
    the pipeline of every registered device, in order, and never raises:
    a pipeline that raises is counted as failed and the loop goes on.
    Each device's pipeline runs in full, from a world where that
    device's directory and session are as they were when the run began,
    and what it leaves in the directory is still there
    when the loop ends; so a device that answers has its capture stored,
    whatever happened to the others. Pruning starts only after the last
    pipeline has ended, and makes requests to the file system only. With
    no device registered the run does nothing. *)
Theorem backup_all_devices_isolates sch (w : World) :
  let names := map fst (DeviceManager.devices (device_manager sch)) in
  NoDup names ->
  Forall (fun d => plain_name d = true) names ->
  exists counts w_loop loop_events,
    backup_loop E sch names 0 0 w = (Ok counts, w_loop)
    /\ trace w_loop = trace w ++ loop_events
    /\ started_of loop_events = names
    /\ Forall (fun e => e <> EvCleanupStart) loop_events
    /\ (counts.1 + counts.2 = length names)%nat
    /\ (forall d, In d names -> isolated E sch d w w_loop)
    /\ (forall d info cfg,
          In d names -> healthy E sch d info cfg ->
          (forall c, connections w !! d = Some c -> conn_peer c = info) ->
          lookup_entry (files w) d <> Some NotADirectory ->
          exists f, In f (directory (files w_loop) d) /\ file_content f = cfg)
    /\ match names with
       | [] => backup_all_devices E sch w = (Ok None, w)
       | _ =>
           exists w' prune_events,
             backup_all_devices E sch w = (Ok (Some counts), w')
             /\ trace w' = trace w_loop ++ EvCleanupStart :: prune_events
             /\ Forall is_io prune_events
       end.
Proof.
  intros names Hnd _.
  destruct (backup_loop_spec sch names 0 0 w)
    as (s' & f' & loop_events & w_loop & Hloop & T & St & Cl & Cnt & _).
  destruct (guarded_cleanup sch w_loop) as (prune_events & w' & Hcl & T' & K').
  assert (Hiso : forall d, In d names -> isolated E sch d w w_loop).
  { intros d Hd. pose proof (backup_loop_isolates sch names 0%nat 0%nat w Hnd d Hd) as H.
    by rewrite Hloop in H. }
  exists (s', f'), w_loop, loop_events.
  split; [done|]. split; [done|]. split; [done|]. split; [done|].
  split; [cbn; lia|]. split; [done|]. split.
  - intros d info cfg Hd Hh Hcache Hdir.
    destruct (Hiso d Hd) as (w_d & r & w_d' & pre & post & Hp & _ & _ & Lf & Lc & Ll).
    destruct (healthy_pipeline sch d info cfg (log (EvBackupStart d) w_d) Hh)
      as (f & Hf & Hc).
    + cbn [connections log]. by rewrite Lc.
    + cbn [files log]. by rewrite Lf.
    + exists f. split; [|done]. rewrite Hp in Hf. cbn [snd] in Hf.
      unfold directory in *. by rewrite Ll.
  - unfold backup_all_devices. fold names.
    destruct names as [|d0 rest]; [done|].
    exists w', prune_events.
    unfold bind at 1. rewrite Hloop. unfold bind at 1. by rewrite Hcl.
Qed.

End RunFacts.

(* ===================================================================== *)
(** * Worked examples *)
(* ===================================================================== *)

Section MoreStringFacts.
Import PyStr DiffEngine.

Lemma app_cons c (s t : string) : String c s +:+ t = String c (s +:+ t).
Proof. reflexivity. Qed.

Lemma rstrip_cons c s :
  rstrip (String c s)
  = match rstrip s with
    | "" => if isspace c then "" else String c ""
    | r' => String c r'
    end.
Proof. reflexivity. Qed.

Lemma rstrip_idem s : rstrip (rstrip s) = rstrip s.
Proof.
  induction s as [|c s IH]; [done|]. rewrite rstrip_cons.
  destruct (rstrip s) as [|d r] eqn:Hr.
  - destruct (isspace c) eqn:Hc; [done|]. cbn [rstrip]. by rewrite Hc.
  - rewrite rstrip_cons. by rewrite IH.
Qed.

Lemma rstrip_lstrip_fixed t : rstrip t = t -> rstrip (lstrip t) = lstrip t.
Proof.
  induction t as [|c r IH]; [done|]. intros Ht. cbn [lstrip].
  destruct (isspace c) eqn:Hc; [|done]. apply IH.
  rewrite rstrip_cons, Hc in Ht.
  destruct (rstrip r) as [|d r'] eqn:Hr; [done|]. by injection Ht.
Qed.

Lemma lstrip_idem s : lstrip (lstrip s) = lstrip s.
Proof.
  induction s as [|c s IH]; [done|]. cbn [lstrip].
  destruct (isspace c) eqn:Hc; [done|]. cbn [lstrip]. by rewrite Hc.
Qed.

Lemma strip_idem s : strip (strip s) = strip s.
Proof.
  unfold strip. rewrite (rstrip_lstrip_fixed (rstrip s)) by apply rstrip_idem.
  apply lstrip_idem.
Qed.

Lemma no_linebreak_lstrip s : no_linebreak s = true -> no_linebreak (lstrip s) = true.
Proof.
  induction s as [|c s IH]; [done|]. cbn [lstrip no_linebreak].
  intros [Hc Hs]%andb_prop. destruct (isspace c); [by apply IH|].
  cbn [no_linebreak]. by rewrite Hc, Hs.
Qed.

Lemma no_linebreak_rstrip s : no_linebreak s = true -> no_linebreak (rstrip s) = true.
Proof.
  induction s as [|c s IH]; [done|]. rewrite rstrip_cons. cbn [no_linebreak].
  intros [Hc Hs]%andb_prop. specialize (IH Hs).
  destruct (rstrip s) as [|d r].
  - destruct (isspace c); [done|]. cbn [no_linebreak]. by rewrite Hc.
  - cbn [no_linebreak] in *. by rewrite Hc, IH.
Qed.

Lemma no_linebreak_strip s : no_linebreak s = true -> no_linebreak (strip s) = true.
Proof. intros H. by apply no_linebreak_lstrip, no_linebreak_rstrip. Qed.

Lemma splitlines_no_linebreak s :
  Forall (fun l => no_linebreak l = true) (splitlines false s).
Proof.
  induction s as [|c r IH]; [constructor|]. cbn [splitlines].
  destruct (is_linebreak c) eqn:Hc.
  - destruct r as [|d r']; [by constructor|].
    destruct ((c =? cr)%char && (d =? lf)%char) eqn:Hcrlf; [|by constructor].
    constructor; [done|].
    apply andb_prop in Hcrlf as [_ Hd]. apply Ascii.eqb_eq in Hd as ->.
    cbn [splitlines] in IH. change (is_linebreak lf) with true in IH.
    cbv iota in IH.
    destruct r' as [|e r'']; [constructor|].
    change ((lf =? cr)%char) with false in IH. cbn [andb] in IH.
    by inversion IH.
  - destruct (splitlines false r) as [|l ls]; constructor.
    + cbn. by rewrite Hc.
    + constructor.
    + cbn [no_linebreak]. rewrite Hc. by inversion IH.
    + by inversion IH.
Qed.

Lemma splitlines_line_then l t :
  no_linebreak l = true ->
  splitlines false (l +:+ newline +:+ t) = l :: splitlines false t.
Proof.
  induction l as [|c l IH].
  - intros _. change ("" +:+ newline +:+ t) with (String lf t).
    cbn [splitlines]. change (is_linebreak lf) with true. cbv iota.
    destruct t as [|d t']; [done|].
    change ((lf =? cr)%char) with false. done.
  - cbn [no_linebreak]. intros [Hc Hl]%andb_prop. rewrite app_cons.
    cbn [splitlines]. apply negb_true_iff in Hc. rewrite Hc.
    by rewrite (IH Hl).
Qed.

Lemma splitlines_one_line l :
  no_linebreak l = true -> l <> "" -> splitlines false l = [l].
Proof.
  induction l as [|c l IH]; [done|]. cbn [no_linebreak].
  intros [Hc Hl]%andb_prop _. cbn [splitlines]. apply negb_true_iff in Hc.
  rewrite Hc. destruct l as [|d l']; [done|]. by rewrite IH.
Qed.

Lemma splitlines_join ls :
  Forall (fun l => no_linebreak l = true /\ l <> "") ls ->
  splitlines false (join newline ls) = ls.
Proof.
  induction 1 as [|l ls [Hl Hne] Hls IH]; [done|].
  destruct ls as [|l' ls'].
  - cbn [join]. by apply splitlines_one_line.
  - change (join newline (l :: l' :: ls'))
      with (l +:+ newline +:+ join newline (l' :: ls')).
    rewrite splitlines_line_then by done. by rewrite IH.
Qed.

End MoreStringFacts.

Section DiffEngineMore.
Import PyStr DiffEngine.
Variable unified_diff : list string -> list string -> list string.

Lemma count_marked_disjoint l :
  (count_marked "+" "+++" l + count_marked "-" "---" l <= length l)%nat.
Proof.
  unfold count_marked. induction l as [|x l IH]; [done|].
  cbn [List.filter length].
  assert (Hx : startswith "+" x && startswith "-" x = false).
  { destruct x as [|c x]; [done|]. cbn [startswith]. rewrite !andb_true_r.
    destruct (Ascii.eqb_spec "+" c) as [<-|]; done. }
  destruct (startswith "+" x), (startswith "-" x); try done; cbn [andb];
    repeat (destruct (negb _)); cbn [length]; lia.
Qed.

Lemma compare_configs_shape (old_config new_config : string) :
  let r := compare_configs unified_diff old_config new_config in
  modified_lines r = 0%nat
  /\ if has_changes r
     then strip (diff r) <> ""
          /\ added_lines r = count_marked "+" "+++" (splitlines false (diff r))
          /\ removed_lines r = count_marked "-" "---" (splitlines false (diff r))
          /\ (added_lines r + removed_lines r <= length (splitlines false (diff r)))%nat
     else r = no_changes.
Proof.
  unfold compare_configs.
  destruct (_ =? _)%string; [by split|].
  destruct (_ =? _)%string; [by split|].
  destruct (strip (concat _) =? "")%string eqn:Hd; [by split|].
  cbn. split; [done|]. split; [by apply String.eqb_neq|].
  split; [done|]. split; [done|]. apply count_marked_disjoint.
Qed.

(** X1. Whatever the differ, a comparison result has one of two shapes.
    With [has_changes = false] it is the no-change record: empty diff
    text, all counts zero. With [has_changes = true] the diff text is not
    blank, [added_lines] is the number of its lines that start with [+]
    but not with [+++], [removed_lines] the number that start with [-]
    but not with [---], and the two together do not exceed the number of
    lines of the diff. [modified_lines] is always zero. *)
Theorem compare_configs_result (old_config new_config : string) :
  let r := compare_configs unified_diff old_config new_config in
  modified_lines r = 0%nat
  /\ if has_changes r
     then strip (diff r) <> ""
          /\ added_lines r = count_marked "+" "+++" (splitlines false (diff r))
          /\ removed_lines r = count_marked "-" "---" (splitlines false (diff r))
          /\ (added_lines r + removed_lines r <= length (splitlines false (diff r)))%nat
     else r = no_changes.
Proof. apply compare_configs_shape. Qed.

Lemma rstrip_space q : all_space q = true -> rstrip q = "".
Proof.
  induction q as [|c q IH]; [done|]. cbn [all_space rstrip].
  intros [Hc Hq]%andb_prop. by rewrite (IH Hq), Hc.
Qed.

Lemma rstrip_app s t :
  rstrip (s +:+ t) = match rstrip t with "" => rstrip s | r => s +:+ r end.
Proof.
  induction s as [|c s IH].
  - change ("" +:+ t) with t. destruct (rstrip t); reflexivity.
  - change (String c s +:+ t) with (String c (s +:+ t)). cbn [rstrip].
    rewrite IH. destruct (rstrip t) eqn:Ht; [done|].
    destruct s; reflexivity.
Qed.

Lemma lstrip_app_space p s : all_space p = true -> lstrip (p +:+ s) = lstrip s.
Proof.
  induction p as [|c p IH]; [done|].
  change (String c p +:+ s) with (String c (p +:+ s)). cbn [all_space lstrip].
  intros [Hc Hp]%andb_prop. by rewrite Hc, IH.
Qed.

Lemma lstrip_space p : all_space p = true -> lstrip p = "".
Proof.
  induction p as [|c p IH]; [done|]. cbn [all_space lstrip].
  intros [Hc Hp]%andb_prop. by rewrite Hc, IH.
Qed.

Lemma strip_padded p a q :
  all_space p = true -> all_space q = true -> strip (p +:+ a +:+ q) = strip a.
Proof.
  intros Hp Hq. unfold strip.
  rewrite rstrip_app, rstrip_app, (rstrip_space q Hq).
  destruct (rstrip a) eqn:Ha.
  - rewrite (rstrip_space p Hp). done.
  - by rewrite lstrip_app_space.
Qed.

(** X2. Whitespace around either text does not matter to a comparison:
    a text padded on both sides with whitespace (spaces, tabs, line
    breaks) compares exactly as the text itself, on the old side and on
    the new side. *)
Theorem compare_configs_ignores_padding (p q a b : string) :
  all_space p = true -> all_space q = true ->
  compare_configs unified_diff (p +:+ a +:+ q) b = compare_configs unified_diff a b
  /\ compare_configs unified_diff b (p +:+ a +:+ q) = compare_configs unified_diff b a.
Proof.
  intros Hp Hq. unfold compare_configs. by rewrite (strip_padded p a q Hp Hq).
Qed.

Lemma filter_volatile_only vs :
  forallb is_volatile vs = true ->
  List.filter (fun l => negb (is_volatile l)) vs = [].
Proof.
  induction vs as [|v vs IH]; [done|]. cbn [forallb List.filter].
  intros [Hv Hvs]%andb_prop. rewrite Hv. cbn. auto.
Qed.

Lemma filter_dynamic_lines_frame pre vs post :
  forallb is_volatile vs = true ->
  _filter_dynamic_lines (pre ++ vs ++ post) = _filter_dynamic_lines (pre ++ post).
Proof.
  intros Hvs. unfold _filter_dynamic_lines. rewrite !filter_loop_spec.
  cbn [app]. rewrite !List.filter_app. by rewrite (filter_volatile_only vs Hvs).
Qed.

(** X3. Two texts whose lines, after trimming the texts, are the same
    apart from one stretch of lines that the filter drops on both sides
    (volatile lines changed, added or removed at one place) compare as
    unchanged: the result is the no-change record. *)
Theorem compare_configs_volatile_lines (old_config new_config : string)
    (pre vs1 vs2 post : list string) :
  splitlines true (strip old_config) = pre ++ vs1 ++ post ->
  splitlines true (strip new_config) = pre ++ vs2 ++ post ->
  forallb is_volatile vs1 = true ->
  forallb is_volatile vs2 = true ->
  compare_configs unified_diff old_config new_config = no_changes.
Proof.
  intros Ho Hn H1 H2. unfold compare_configs.
  destruct (_ =? _)%string; [done|].
  rewrite Ho, Hn, (filter_dynamic_lines_frame pre vs1 post H1),
    (filter_dynamic_lines_frame pre vs2 post H2).
  by rewrite String.eqb_refl.
Qed.

Lemma compare_configs_flag_filtered (old_config new_config : string) :
  (forall a b, a <> b -> strip (concat (unified_diff a b)) <> "") ->
  has_changes (compare_configs unified_diff old_config new_config)
  = negb (filtered_text old_config =? filtered_text new_config)%string.
Proof.
  intros Hd. unfold compare_configs, filtered_text.
  destruct (String.eqb_spec (strip old_config) (strip new_config)) as [->|Hne].
  { by rewrite String.eqb_refl. }
  destruct (String.eqb_spec
              (strip (concat (_filter_dynamic_lines (splitlines true (strip old_config)))))
              (strip (concat (_filter_dynamic_lines (splitlines true (strip new_config))))))
    as [|Hf]; [done|].
  destruct (String.eqb_spec (strip (concat (unified_diff
              (_filter_dynamic_lines (splitlines true (strip old_config)))
              (_filter_dynamic_lines (splitlines true (strip new_config)))))) "")
    as [Hz|]; [|done].
  exfalso. revert Hz. apply Hd. intros Heq. apply Hf. by rewrite Heq.
Qed.

(** X4. For a differ that yields non-blank output for any two different
    line sequences (as difflib's unified diff does, with its two header
    lines), the change flag says exactly whether the filtered texts
    differ. So the flag is symmetric in the two texts, and being
    unchanged is transitive. *)
Theorem compare_configs_flag_equivalence (a b c : string) :
  (forall x y, x <> y -> strip (concat (unified_diff x y)) <> "") ->
  has_changes (compare_configs unified_diff a b)
  = negb (filtered_text a =? filtered_text b)%string
  /\ has_changes (compare_configs unified_diff a b)
     = has_changes (compare_configs unified_diff b a)
  /\ (has_changes (compare_configs unified_diff a b) = false ->
      has_changes (compare_configs unified_diff b c) = false ->
      has_changes (compare_configs unified_diff a c) = false).
Proof.
  intros Hd. rewrite !compare_configs_flag_filtered by done.
  split; [done|]. split; [by rewrite String.eqb_sym|].
  intros H1%negb_false_iff%String.eqb_eq H2%negb_false_iff%String.eqb_eq.
  rewrite H1, H2. by rewrite String.eqb_refl.
Qed.

Lemma html_line_added line :
  startswith ("<div class=" +:+ quote +:+ "diff-added" +:+ quote +:+ ">") (html_line line)
  = startswith "+" line && negb (startswith "+++" line).
Proof.
  unfold html_line.
  destruct (startswith "+++" line) eqn:H3.
  { cbn [orb]. destruct (startswith "+" line); reflexivity. }
  destruct (startswith "---" line) eqn:Hm3; [|cbn [orb]].
  { cbn [orb]. destruct line as [|c l]; [done|]. cbn [startswith] in Hm3 |- *.
    apply andb_prop in Hm3 as [Hc _]. apply Ascii.eqb_eq in Hc as <-. reflexivity. }
  destruct (startswith "@@" line) eqn:Ha.
  { destruct line as [|c l]; [done|]. cbn [startswith] in Ha |- *.
    apply andb_prop in Ha as [Hc _]. apply Ascii.eqb_eq in Hc as <-. reflexivity. }
  destruct (startswith "+" line); [reflexivity|].
  destruct (startswith "-" line); reflexivity.
Qed.

Lemma html_line_removed line :
  startswith ("<div class=" +:+ quote +:+ "diff-removed" +:+ quote +:+ ">") (html_line line)
  = startswith "-" line && negb (startswith "---" line).
Proof.
  unfold html_line.
  destruct (startswith "---" line) eqn:Hm3.
  { rewrite orb_true_r. destruct (startswith "-" line); reflexivity. }
  destruct (startswith "+++" line) eqn:H3; [|cbn [orb]].
  { cbn [orb]. destruct line as [|c l]; [done|]. cbn [startswith] in H3 |- *.
    apply andb_prop in H3 as [Hc _]. apply Ascii.eqb_eq in Hc as <-. reflexivity. }
  destruct (startswith "@@" line) eqn:Ha.
  { destruct line as [|c l]; [done|]. cbn [startswith] in Ha |- *.
    apply andb_prop in Ha as [Hc _]. apply Ascii.eqb_eq in Hc as <-. reflexivity. }
  destruct (startswith "+" line) eqn:Hp.
  { destruct line as [|c l]; [done|]. cbn [startswith] in Hp |- *.
    rewrite andb_true_r in Hp. apply Ascii.eqb_eq in Hp as <-. reflexivity. }
  destruct (startswith "-" line); reflexivity.
Qed.

Lemma marked_map_html_line class mark header l :
  (forall line,
     startswith ("<div class=" +:+ quote +:+ class +:+ quote +:+ ">") (html_line line)
     = startswith mark line && negb (startswith header line)) ->
  marked class (map html_line l) = count_marked mark header l.
Proof.
  intros H. unfold marked, count_marked.
  induction l as [|x l IH]; [done|]. cbn [map List.filter].
  rewrite H. destruct (_ && _); cbn [length]; by rewrite IH.
Qed.

(** X5. The HTML rendering agrees with the counts of the comparison it
    renders: it has one element per line of the diff, the elements of
    class [diff-added] are as many as [added_lines] and those of class
    [diff-removed] as many as [removed_lines]; an unchanged comparison is
    rendered as the no-change message. *)
Theorem format_diff_marks_counted_lines (old_config new_config : string) :
  let r := compare_configs unified_diff old_config new_config in
  marked "diff-added" (html_diff r) = added_lines r
  /\ marked "diff-removed" (html_diff r) = removed_lines r
  /\ length (html_diff r) = length (splitlines false (diff r))
  /\ format_diff r true
     = if has_changes r then join newline (html_diff r) else "配置无变更".
Proof.
  intros r. unfold html_diff.
  rewrite (marked_map_html_line _ "+" "+++"), (marked_map_html_line _ "-" "---")
    by (apply html_line_added || apply html_line_removed).
  rewrite length_map.
  pose proof (compare_configs_shape old_config new_config) as [_ Hr].
  fold r in Hr. unfold format_diff. destruct (has_changes r) eqn:Hc.
  - destruct Hr as (_ & Ha & Hm & _). by rewrite <- Ha, <- Hm.
  - rewrite Hr. done.
Qed.

End DiffEngineMore.

Section SessionFacts.
Import PyStr Sys DeviceManager.
Context (E : Env).

Ltac run :=
  unfold disconnect, drop_cached;
  unfold cached, forget, store_connection, disconnect_quietly, sleep,
    _check_connection, ConnectHandler, send_probe, send_command;
  unfold bind, ret, emit, get, modify;
  cbv beta iota zeta.

Ltac step :=
  cbv beta iota zeta;
  cbn [connections trace files log with_connections with_files].

Lemma world_eq (a b : World) :
  trace a = trace b -> connections a = connections b -> files a = files b -> a = b.
Proof. destruct a, b; cbn; by intros -> -> ->. Qed.

Lemma disconnect_spec (device_name : string) (w : World) :
  exists w',
    disconnect device_name w = (Ok tt, w')
    /\ connections w' = delete device_name (connections w)
    /\ files w' = files w
    /\ trace w' = trace w ++ match connections w !! device_name with
                             | Some c => [EvDisconnect c]
                             | None => []
                             end
    /\ disconnect device_name w' = (Ok tt, w').
Proof.
  run. destruct (connections w !! device_name) as [c|] eqn:Hc; step.
  - eexists. split; [reflexivity|]. step. rewrite lookup_delete_eq.
    split; [done|]. split; [done|]. split; done.
  - exists w. rewrite Hc. rewrite app_nil_r.
    split; [done|]. split; [by rewrite delete_id|]. done.
Qed.

(** X9. [disconnect] closes the device's cached session, if there is
    one, and deletes exactly that cache entry; for a device without a
    cached session it does nothing at all, so a second [disconnect] right
    after the first changes nothing and closes nothing. *)
Theorem disconnect_releases (device_name : string) (w : World) :
  exists w',
    disconnect device_name w = (Ok tt, w')
    /\ connections w' = delete device_name (connections w)
    /\ files w' = files w
    /\ trace w' = trace w ++ match connections w !! device_name with
                             | Some c => [EvDisconnect c]
                             | None => []
                             end
    /\ disconnect device_name w' = (Ok tt, w').
Proof. apply disconnect_spec. Qed.

Lemma disconnect_each_spec names : forall w,
  NoDup names ->
  exists w',
    disconnect_each names w = (Ok tt, w')
    /\ connections w' = foldr delete (connections w) names
    /\ files w' = files w
    /\ trace w' = trace w
         ++ omap (fun n => EvDisconnect <$> connections w !! n) names.
Proof.
  induction names as [|n names IH]; intros w Hnd.
  - exists w. cbn. by rewrite app_nil_r.
  - apply NoDup_cons in Hnd as [Hn Hnd]. cbn [disconnect_each].
    destruct (disconnect_spec n w) as (w1 & He & Hc & Hf & Ht & _).
    unfold bind at 1. rewrite He.
    destruct (IH w1 Hnd) as (w' & He' & Hc' & Hf' & Ht').
    exists w'. split; [done|].
    assert (Hsame : forall k, k ∈ names -> connections w1 !! k = connections w !! k).
    { intros k Hk. rewrite Hc. apply lookup_delete_ne. intros ->. done. }
    split.
    { rewrite Hc', Hc. cbn [foldr]. clear -Hn.
      induction names as [|k names IH]; [done|]. cbn [foldr].
      apply not_elem_of_cons in Hn as [Hk Hn]. rewrite IH by done.
      apply delete_delete. }
    split; [congruence|].
    rewrite Ht', Ht. cbn [omap]. rewrite <- app_assoc. f_equal.
    assert (Hom : omap (fun k => EvDisconnect <$> connections w1 !! k) names
                  = omap (fun k => EvDisconnect <$> connections w !! k) names).
    { clear -Hsame. induction names as [|k names IH]; [done|]. cbn.
      rewrite Hsame by (by left). cbn in IH. rewrite IH; [done|].
      intros k' Hk'. apply Hsame. by right. }
    rewrite Hom. unfold omap. cbn [list_omap].
    by destruct (connections w !! n).
Qed.

(** X10. [disconnect_all] closes every cached session exactly once and
    leaves the cache empty; it does nothing else. *)
Theorem disconnect_all_releases_everything (w : World) :
  exists new w',
    disconnect_all w = (Ok tt, w')
    /\ connections w' = ∅
    /\ files w' = files w
    /\ trace w' = trace w ++ new
    /\ new ≡ₚ map (fun kc => EvDisconnect kc.2) (map_to_list (connections w)).
Proof.
  unfold disconnect_all. unfold bind at 1, get at 1.
  destruct (disconnect_each_spec ((map_to_list (connections w)).*1) w)
    as (w' & He & Hc & Hf & Ht).
  { apply NoDup_fst_map_to_list. }
  eexists _, w'. split; [exact He|]. split.
  { rewrite Hc. apply map_eq. intros k. rewrite lookup_empty.
    destruct (connections w !! k) as [c|] eqn:Hk.
    - apply elem_of_map_to_list in Hk.
      assert (Hin : k ∈ (map_to_list (connections w)).*1).
      { apply list_elem_of_fmap. by exists (k, c). }
      revert Hin. generalize ((map_to_list (connections w)).*1).
      intros l. induction l as [|x l IH]; [by intros ?%elem_of_nil|].
      intros [->|Hin]%elem_of_cons; cbn [foldr].
      + apply lookup_delete_eq.
      + destruct (decide (x = k)) as [->|Hne]; [apply lookup_delete_eq|].
        rewrite lookup_delete_ne by done. by apply IH.
    - generalize ((map_to_list (connections w)).*1).
      intros l. induction l as [|x l IH]; [done|]. cbn [foldr].
      destruct (decide (x = k)) as [->|Hne]; [apply lookup_delete_eq|].
      by rewrite lookup_delete_ne. }
  split; [done|]. split; [exact Ht|].
  assert (Heq : forall l : list (string * conn),
            (forall k c, (k, c) ∈ l -> connections w !! k = Some c) ->
            omap (fun n => EvDisconnect <$> connections w !! n) l.*1
            = map (fun kc => EvDisconnect kc.2) l).
  { intros l. induction l as [|[k c] l IH]; intros Hl; [done|].
    cbn. rewrite (Hl k c) by (by left). cbn. f_equal. apply IH.
    intros k' c' Hin. apply Hl. by right. }
  rewrite Heq; [done|]. intros k c Hin. by apply elem_of_map_to_list.
Qed.

(** X7. [connect] never raises, sends no command and leaves the backup
    tree and the sessions of other devices alone. The session it returns
    is the one the cache then holds for the device; when it returns
    [None] for a registered device, the cache holds no session for
    it. *)
Theorem connect_result_is_cached dm (device_name : string)
    (retry_count : option nat) (w : World) :
  exists new r w',
    connect E dm device_name retry_count w = (Ok r, w')
    /\ trace w' = trace w ++ new
    /\ sends_of new = []
    /\ files w' = files w
    /\ match r with
       | Some c => connections w' !! device_name = Some c
       | None =>
           is_Some (lookup_device (devices dm) device_name) ->
           connections w' !! device_name = None
       end
    /\ forall other, other <> device_name ->
         connections w' !! other = connections w !! other.
Proof.
  destruct (connect_spec E dm device_name retry_count w)
    as (k & new & r & w' & He & Ht & Hf & _ & _ & _ & Hs & _ & Hsome & Hnone & Hfr & _).
  exists new, r, w'. split; [done|]. split; [done|]. split; [done|].
  split; [done|]. split; [|done].
  destruct r as [c|]; [by apply Hsome|]. intros Hreg. apply Hnone; [done|by left].
Qed.

(** X8. With a session in the cache, [connect] to a registered device
    first probes that session. If the probe succeeds the call returns the
    cached session after that one probe: no connection attempt, no sleep,
    cache as it was. If it fails the session is closed before anything
    else, and the connection attempts follow with their backoff. *)
Theorem connect_probes_cached_session dm (device_name : string)
    (retry_count : option nat) (w : World) (info : device_info) (c : conn) :
  lookup_device (devices dm) device_name = Some info ->
  connections w !! device_name = Some c ->
  if env_probe E (trace w) c
  then connect E dm device_name retry_count w = (Ok (Some c), log (EvProbe c true) w)
  else exists k rest r w',
         connect E dm device_name retry_count w = (Ok r, w')
         /\ trace w' = trace w ++ EvProbe c false :: EvDisconnect c :: rest
         /\ length (opens_of rest) = k
         /\ (k <= budget dm retry_count)%nat
         /\ timing rest = backoff (retry_delay dm) 1 k.
Proof.
  intros Hdev Hc. unfold connect. rewrite Hdev. run. rewrite Hc. step.
  destruct (env_probe E (trace w) c) eqn:Hp; step; [done|].
  set (w1 := with_connections _ _).
  destruct (connect_loop_spec E dm device_name info (budget dm retry_count) 1 w1)
    as (k & rest & r & w' & He & Ht & _ & Hk & Htim & Hlen & _).
  exists k, rest, r, w'. split; [exact He|]. split.
  { rewrite Ht. subst w1. step. by rewrite <- !app_assoc. }
  done.
Qed.

End SessionFacts.

Section RestoreFacts.
Import PyStr Sys DeviceManager.
Context (E : Env).
Variable env_config_set : list event -> conn -> list string -> send_result.

Ltac run :=
  unfold restore_failed, send_config_set;
  unfold cached, forget, store_connection, disconnect_quietly, sleep,
    _check_connection, ConnectHandler, send_probe, send_command;
  unfold bind, ret, emit, get, modify;
  cbv beta iota zeta.

Ltac step :=
  cbv beta iota zeta;
  cbn [connections trace files log with_connections with_files].

Lemma config_lines_loop_spec lines : forall acc,
  config_lines_loop lines acc
  = acc ++ List.filter is_config_line (map strip lines).
Proof.
  induction lines as [|line rest IH]; intros acc; cbn [config_lines_loop map List.filter].
  - by rewrite app_nil_r.
  - unfold is_config_line at 1.
    destruct (negb (strip line =? "")%string && negb (startswith "!" (strip line)));
      cbn [andb]; [|apply IH].
    destruct (negb (startswith "Building configuration" (strip line)));
      cbn [andb]; [|apply IH].
    destruct (negb (startswith "Current configuration" (strip line)));
      [|apply IH].
    rewrite IH. by rewrite <- app_assoc.
Qed.

Lemma save_command_not_empty device_type :
  (_get_save_command device_type =? "")%string = false.
Proof.
  unfold _get_save_command. by repeat (destruct (existsb _ _)).
Qed.

Lemma restore_config_spec dm (device_name config_content : string) (w : World) :
  exists pre body r w',
    restore_config E env_config_set dm device_name config_content w = (Ok r, w')
    /\ trace w' = trace w ++ pre ++ body
    /\ files w' = files w
    /\ sends_of pre = []
    /\ (is_Some (connections w !! device_name) -> pre = [])
    /\ (lookup_device (devices dm) device_name = None -> w' = w)
    /\ (config_lines_of config_content = [] -> body = [])
    /\ (body = [] /\ success r = false /\ output r = ""
        \/ exists info c,
             lookup_device (devices dm) device_name = Some info
             /\ restore_run (config_lines_of config_content)
                  (_get_save_command (device_type info)) c body r
                  (connections w' !! device_name))
    /\ (forall other, other <> device_name ->
          connections w' !! other = connections w !! other).
Proof.
  unfold restore_config.
  destruct (lookup_device (devices dm) device_name) as [info|] eqn:Hdev.
  2:{ eexists [], [], _, w. unfold ret.
      split; [reflexivity|]. split; [by rewrite !app_nil_r|]. split; [done|].
      split; [done|]. split; [done|]. split; [done|]. split; [done|].
      split; [by left|done]. }
  assert (Hbody : forall c w1,
    connections w1 !! device_name = Some c ->
    exists body r w',
      (let config_lines := config_lines_loop (splitlines false config_content) [] in
       match config_lines with
       | [] => ret {| success := false; message := "配置内容为空或无效"; output := "" |}
       | _ :: _ =>
           pushed <- send_config_set env_config_set c config_lines ;;
           match pushed with
           | Output output =>
               let save_command := _get_save_command (device_type info) in
               if negb (save_command =? "")%string
               then saved <- send_command E c save_command ;;
                    match saved with
                    | Output save_output =>
                        ret {| success := true; message := "配置恢复成功";
                               output := output +:+ newline +:+ save_output |}
                    | SendError error => restore_failed device_name error
                    end
               else ret {| success := true; message := "配置恢复成功";
                           output := output |}
           | SendError error => restore_failed device_name error
           end
       end) w1 = (Ok r, w')
      /\ trace w' = trace w1 ++ body
      /\ files w' = files w1
      /\ (config_lines_of config_content = [] -> body = [])
      /\ (body = [] /\ success r = false /\ output r = ""
          \/ restore_run (config_lines_of config_content)
               (_get_save_command (device_type info)) c body r
               (connections w' !! device_name))
      /\ (forall other, other <> device_name ->
            connections w' !! other = connections w1 !! other)).
  { intros c w1 Hc.
    cbv zeta. rewrite config_lines_loop_spec. cbn [app].
    fold (config_lines_of config_content).
    destruct (config_lines_of config_content) as [|l ls] eqn:Hl.
    { eexists [], _, w1. unfold ret.
      split; [reflexivity|]. split; [by rewrite app_nil_r|]. split; [done|].
      split; [done|]. split; [by left|done]. }
    rewrite save_command_not_empty. cbn [negb].
    run. destruct (env_config_set (trace w1) c (l :: ls)) as [out|e] eqn:Hp; step.
    - destruct (env_send E _ c (_get_save_command (device_type info)))
        as [so|e] eqn:Hs; step.
      + eexists _, _, _. split; [reflexivity|]. step.
        split; [by rewrite <- !app_assoc|]. split; [done|]. split; [done|].
        split; [|done]. right. rewrite Hc. constructor.
      + eexists _, _, _. split; [reflexivity|]. step.
        split; [by rewrite <- !app_assoc|]. split; [done|]. split; [done|].
        split.
        * right. rewrite lookup_delete_eq. constructor.
        * intros other Hne. by rewrite lookup_delete_ne.
    - eexists _, _, _. split; [reflexivity|]. step.
      split; [done|]. split; [done|]. split; [done|].
      split.
      + right. rewrite lookup_delete_eq. constructor.
      + intros other Hne. by rewrite lookup_delete_ne. }
  unfold bind at 1, cached, get.
  destruct (connections w !! device_name) as [c|] eqn:Hc.
  - unfold bind at 1, ret at 1.
    destruct (Hbody c w Hc) as (body & r & w' & He & Ht & Hf & Hnil & Hrun & Hfr).
    exists [], body, r, w'. split; [exact He|].
    split; [done|]. split; [done|]. split; [done|]. split; [done|].
    split; [done|]. split; [done|]. split; [|done].
    destruct Hrun as [?|Hrun]; [by left|]. right. by exists info, c.
  - destruct (connect_spec E dm device_name None w)
      as (k & new & r & w1 & He & Ht & Hf & _ & _ & _ & Hs & _ & Hsome & Hnone & Hfr & _).
    unfold bind at 1. rewrite He. destruct r as [c|].
    + destruct (Hbody c w1 (Hsome c eq_refl))
        as (body & r & w' & He' & Ht' & Hf' & Hnil & Hrun & Hfr').
      exists new, body, r, w'. split; [exact He'|].
      split; [by rewrite Ht', Ht, <- app_assoc|]. split; [congruence|].
      split; [done|]. split; [by intros [? ?]|]. split; [done|]. split; [done|].
      split.
      * destruct Hrun as [?|Hrun]; [by left|]. right. by exists info, c.
      * intros other Hne. rewrite Hfr' by done. by apply Hfr.
    + eexists new, [], _, w1. unfold ret.
      split; [reflexivity|]. split; [by rewrite app_nil_r|]. split; [done|].
      split; [done|].
      split; [by intros [? ?]|]. split; [done|]. split; [done|].
      split; [by left|done].
Qed.

(** X12. [restore_config] never raises and leaves the backup tree and
    the sessions of other devices alone. Either it sends nothing and
    reports failure with an empty output, or its exchanges with the
    device are one of three shapes: the lines are pushed and the save
    command for the device's type follows, both answered, and the result
    is a success whose output is the two answers joined by a line feed,
    the session staying cached; or the push fails; or the push is
    answered and the save command fails. In the two failures the result
    carries the error text and the device's cache entry is deleted,
    without closing the session. A save command is always sent after a
    push that was answered. *)
Theorem restore_config_outcome dm (device_name config_content : string) (w : World) :
  exists pre body r w',
    restore_config E env_config_set dm device_name config_content w = (Ok r, w')
    /\ trace w' = trace w ++ pre ++ body
    /\ files w' = files w
    /\ sends_of pre = []
    /\ (body = [] /\ success r = false /\ output r = ""
        \/ exists info c,
             lookup_device (devices dm) device_name = Some info
             /\ restore_run
                  (config_lines_loop (splitlines false config_content) [])
                  (_get_save_command (device_type info)) c body r
                  (connections w' !! device_name))
    /\ (forall other, other <> device_name ->
          connections w' !! other = connections w !! other).
Proof.
  destruct (restore_config_spec dm device_name config_content w)
    as (pre & body & r & w' & He & Ht & Hf & Hs & _ & _ & _ & Hrun & Hfr).
  exists pre, body, r, w'. repeat (split; [done|]). split; [|done].
  rewrite config_lines_loop_spec. exact Hrun.
Qed.

(** X13. Three edges of [restore_config]. For a device that is not
    registered it reports failure and touches nothing. For a text that
    holds no configuration line (blank lines, comments and banners only)
    it reports failure without sending anything, although it may have
    connected first. With a session in the cache it uses that session as
    it is: every event of the call is a send, so there is no probe, no
    connection attempt and no close. *)
Theorem restore_config_shortcuts dm (device_name config_content : string) (w : World) :
  exists new r w',
    restore_config E env_config_set dm device_name config_content w = (Ok r, w')
    /\ trace w' = trace w ++ new
    /\ (lookup_device (devices dm) device_name = None ->
        w' = w /\ success r = false)
    /\ (config_lines_loop (splitlines false config_content) [] = [] ->
        sends_of new = [] /\ success r = false)
    /\ (is_Some (connections w !! device_name) ->
        length (sends_of new) = length new).
Proof.
  destruct (restore_config_spec dm device_name config_content w)
    as (pre & body & r & w' & He & Ht & Hf & Hs & Hcached & Hunk & Hnil & Hrun & _).
  assert (Hlines : config_lines_loop (splitlines false config_content) []
                   = config_lines_of config_content)
    by apply config_lines_loop_spec.
  rewrite <- Hlines in Hnil.
  exists (pre ++ body), r, w'. split; [done|]. split; [done|].
  assert (Hfail : body = [] -> success r = false).
  { intros ->. destruct Hrun as [(_ & ? & _)|(info & c & _ & Hrun)]; [done|].
    inversion Hrun. }
  split.
  { intros Hdev. split; [by apply Hunk|].
    destruct Hrun as [(_ & ? & _)|(info & c & Hinfo & _)]; [done|congruence]. }
  split.
  { intros Hl. rewrite (Hnil Hl), app_nil_r. split; [done|]. by apply Hfail, Hnil. }
  intros Hc. rewrite (Hcached Hc). cbn [app].
  destruct Hrun as [(-> & _)|(info & c & _ & Hrun)]; [done|].
  by inversion Hrun.
Qed.

(** X11. The lines [restore_config] makes of a text to send to a
    device are trimmed, not empty, no comment (no leading [!]) and none
    of the two listing banners, and hold no line break. Joined by line
    feeds and read again they give the same lines: restoring what was
    sent sends the same. *)
Theorem config_lines_clean_and_stable (config_content : string) :
  let config_lines := config_lines_loop (splitlines false config_content) [] in
  Forall (fun line => is_config_line line = true /\ strip line = line
                      /\ no_linebreak line = true) config_lines
  /\ config_lines_loop (splitlines false (join newline config_lines)) []
     = config_lines.
Proof.
  cbv zeta. rewrite !config_lines_loop_spec. cbn [app].
  set (lines := List.filter is_config_line (map strip (splitlines false config_content))).
  assert (Hall : Forall (fun line => is_config_line line = true /\ strip line = line
                                    /\ no_linebreak line = true) lines).
  { apply Forall_forall. intros l Hl. subst lines.
    apply list_elem_of_In, filter_In in Hl as [Hin Hok]. split; [done|].
    apply in_map_iff in Hin as (x & <- & Hx). split; [apply strip_idem|].
    apply no_linebreak_strip.
    pose proof (splitlines_no_linebreak config_content) as Hnb.
    rewrite Forall_forall in Hnb. by apply Hnb, list_elem_of_In. }
  split; [done|].
  rewrite splitlines_join.
  2:{ eapply Forall_impl; [exact Hall|]. intros l (Hok & _ & Hnb). split; [done|].
      intros ->. done. }
  clear -Hall. induction Hall as [|l ls (Hok & Hst & _) _ IH]; [done|].
  cbn [map List.filter]. rewrite Hst, Hok. by rewrite IH.
Qed.

End RestoreFacts.

Section StoreFacts.
Import PyStr Sys Frames BackupManager.
Context (E : Env).

Ltac step :=
  cbv beta iota zeta;
  cbn [connections trace files log with_connections with_files].

Ltac run_bm :=
  unfold remove, get_device_backup_dir, set_directory, now, tree, io;
  unfold catch, bind, ret, raise, get, modify;
  cbv beta iota zeta.

(** The order of texts is a strict total order. *)
Lemma str_lt_irrefl a : str_lt a a = false.
Proof.
  induction a as [|c a IH]; [done|]. cbn [str_lt].
  by rewrite N.ltb_irrefl, N.eqb_refl, IH.
Qed.

Lemma str_lt_trans a : forall b c,
  str_lt a b = true -> str_lt b c = true -> str_lt a c = true.
Proof.
  induction a as [|x a IH]; intros [|y b] [|z c]; cbn [str_lt]; try done.
  intros [H1|[H1 H1']%andb_prop]%orb_prop [H2|[H2 H2']%andb_prop]%orb_prop.
  - apply N.ltb_lt in H1, H2. apply orb_true_intro. left. apply N.ltb_lt. lia.
  - apply N.ltb_lt in H1. apply N.eqb_eq in H2. rewrite <- H2.
    apply orb_true_intro. left. by apply N.ltb_lt.
  - apply N.eqb_eq in H1. apply N.ltb_lt in H2. rewrite H1.
    apply orb_true_intro. left. by apply N.ltb_lt.
  - apply N.eqb_eq in H1, H2. rewrite H1, H2, N.eqb_refl, (IH _ _ H1' H2').
    apply orb_true_r.
Qed.

Lemma code_inj x y : code x = code y -> x = y.
Proof.
  unfold code. intros H. by rewrite <- (ascii_N_embedding x), <- (ascii_N_embedding y), H.
Qed.

Lemma str_lt_total a : forall b,
  str_lt a b = false -> str_lt b a = false -> a = b.
Proof.
  induction a as [|x a IH]; intros [|y b]; cbn [str_lt]; try done.
  intros [H1 H1']%orb_false_elim [H2 H2']%orb_false_elim.
  apply N.ltb_ge in H1, H2. assert (Hxy : code x = code y) by lia.
  rewrite Hxy, N.eqb_refl in H1', H2'. cbn in H1', H2'.
  by rewrite (code_inj _ _ Hxy), (IH b H1' H2').
Qed.

Lemma str_ge_trans a b c :
  str_lt a b = false -> str_lt b c = false -> str_lt a c = false.
Proof.
  intros Hab Hbc. destruct (str_lt a c) eqn:Hac; [|done]. exfalso.
  destruct (str_lt b a) eqn:Hba.
  - rewrite (str_lt_trans _ _ _ Hba Hac) in Hbc. done.
  - rewrite (str_lt_total _ _ Hab Hba) in Hac. congruence.
Qed.

Lemma insert_desc_perm x l : insert_desc x l ≡ₚ x :: l.
Proof.
  induction l as [|y l IH]; [done|]. cbn [insert_desc].
  destruct (str_lt (timestamp x) (timestamp y)); [|done].
  rewrite IH. apply Permutation_swap.
Qed.

Lemma sort_desc_perm l : sort_desc l ≡ₚ l.
Proof.
  induction l as [|x l IH]; [done|]. cbn [sort_desc].
  by rewrite insert_desc_perm, IH.
Qed.

Lemma insert_desc_sorted x l :
  StronglySorted newest_first l -> StronglySorted newest_first (insert_desc x l).
Proof.
  induction 1 as [|y l Hs IH Hy]; cbn [insert_desc].
  - repeat constructor.
  - destruct (str_lt (timestamp x) (timestamp y)) eqn:Hlt.
    + constructor; [exact IH|].
      apply Forall_forall. intros z Hz.
      apply list_elem_of_In, insert_desc_In in Hz as [->|Hz].
      * unfold newest_first. destruct (str_lt (timestamp y) (timestamp x)) eqn:Hyx; [|done].
        pose proof (str_lt_trans _ _ _ Hlt Hyx) as Hc. by rewrite str_lt_irrefl in Hc.
      * rewrite Forall_forall in Hy. by apply Hy, list_elem_of_In.
    + constructor; [by constructor|].
      constructor; [exact Hlt|].
      eapply Forall_impl; [exact Hy|]. cbn. intros z Hz.
      exact (str_ge_trans _ _ _ Hlt Hz).
Qed.

Lemma sort_desc_sorted l : StronglySorted newest_first (sort_desc l).
Proof.
  induction l as [|x l IH]; cbn [sort_desc]; [constructor|].
  by apply insert_desc_sorted.
Qed.

Lemma history_loop_exact bm d l : forall h w,
  exists kept new w',
    history_loop E bm d l h w = (Ok (h ++ omap (record_of bm) kept), w')
    /\ sublist kept (List.filter is_cfg l)
    /\ trace w' = trace w ++ new
    /\ Forall is_io new
    /\ files w' = files w
    /\ connections w' = connections w
    /\ ((forall tr req, env_io_ok E tr req = true) -> kept = List.filter is_cfg l).
Proof.
  induction l as [|f l IH]; intros h w; cbn [history_loop List.filter].
  - exists [], [], w. cbn. rewrite !app_nil_r. repeat split; auto; try constructor.
  - change (is_cfg f) with (endswith ".cfg" (file_name f)).
    destruct (endswith ".cfg" (file_name f)); cbn [negb].
    2:{ apply IH. }
    unfold bind at 1, io at 1.
    destruct (env_io_ok E (trace w) (IoStat d (file_name f))) eqn:Hio; cbn [negb].
    + cbv zeta.
      assert (Hrec : forall acc w1,
        exists kept new w',
          history_loop E bm d l acc w1 = (Ok (acc ++ omap (record_of bm) kept), w')
          /\ sublist kept (List.filter is_cfg l)
          /\ trace w' = trace w1 ++ new
          /\ Forall is_io new
          /\ files w' = files w1
          /\ connections w' = connections w1
          /\ ((forall tr req, env_io_ok E tr req = true) -> kept = List.filter is_cfg l))
        by (intros; apply IH).
      fold (record_time bm f).
      destruct (record_time bm f) as [ts|] eqn:Hts.
      * match goal with |- context [history_loop E bm d l ?acc ?w1] =>
          destruct (Hrec acc w1)
            as (kept & new & w' & He & Hsub & Ht & Hio' & Hf & Hc & Hall) end.
        exists (f :: kept), (EvIo (IoStat d (file_name f)) true :: new), w'.
        split. { rewrite He. cbn [omap list_omap]. unfold record_of at 2.
                 rewrite Hts. by rewrite <- app_assoc. }
        split; [by constructor|]. split; [rewrite Ht; step; by rewrite <- app_assoc|].
        split; [by constructor|]. split; [done|]. split; [done|].
        intros Hok. by rewrite (Hall Hok).
      * match goal with |- context [history_loop E bm d l h ?w1] =>
          destruct (Hrec h w1)
            as (kept & new & w' & He & Hsub & Ht & Hio' & Hf & Hc & Hall) end.
        exists (f :: kept), (EvIo (IoStat d (file_name f)) true :: new), w'.
        split. { rewrite He. cbn [omap list_omap]. unfold record_of at 2.
                 by rewrite Hts. }
        split; [by constructor|]. split; [rewrite Ht; step; by rewrite <- app_assoc|].
        split; [by constructor|]. split; [done|]. split; [done|].
        intros Hok. by rewrite (Hall Hok).
    + match goal with |- context [history_loop E bm d l h ?w1] =>
        destruct (IH h w1) as (kept & new & w' & He & Hsub & Ht & Hio' & Hf & Hc & Hall) end.
      exists kept, (EvIo (IoStat d (file_name f)) false :: new), w'.
      split; [done|]. split; [by constructor|].
      split; [rewrite Ht; step; by rewrite <- app_assoc|].
      split; [by constructor|]. split; [done|]. split; [done|].
      intros Hok. rewrite Hok in Hio. done.
Qed.

Lemma get_backup_history_spec bm d w :
  exists kept new w',
    get_backup_history E bm d w = (Ok (sort_desc (omap (record_of bm) kept)), w')
    /\ sublist kept (List.filter is_cfg (directory (files w) d))
    /\ trace w' = trace w ++ new
    /\ Forall is_io new
    /\ files w' = files w
    /\ connections w' = connections w
    /\ ((forall tr req, env_io_ok E tr req = true) ->
        kept = List.filter is_cfg (directory (files w) d)).
Proof.
  unfold get_backup_history, directory, tree. unfold bind at 1, get at 1.
  destruct (lookup_entry (files w) d) as [[|l]|] eqn:Hl.
  1,3: exists [], [], w; unfold ret; cbn; rewrite app_nil_r; repeat split; auto; try constructor.
  unfold bind at 1, io at 1.
  destruct (env_io_ok E (trace w) (IoListdir d)) eqn:Hio; cbn [negb].
  - unfold bind.
    match goal with |- context [history_loop E bm d l [] ?w1] =>
      destruct (history_loop_exact bm d l [] w1)
        as (kept & new & w' & He & Hsub & Ht & Hio' & Hf & Hc & Hall) end.
    rewrite He. cbn [app]. unfold ret.
    exists kept, (EvIo (IoListdir d) true :: new), w'.
    split; [done|]. split; [done|].
    split; [rewrite Ht; step; by rewrite <- app_assoc|].
    split; [by constructor|]. by repeat split.
  - unfold ret. eexists [], [EvIo (IoListdir d) false], _.
    split; [reflexivity|]. split; [apply sublist_nil_l|]. split; [done|].
    split; [by repeat constructor|]. split; [done|]. split; [done|].
    intros Hok. rewrite Hok in Hio. done.
Qed.

(** X14. [get_backup_history] never raises, changes neither the backup
    tree nor the session cache, and makes requests to the file system
    only. What it returns is, up to order, the records of some of the
    [.cfg] files of the device's directory, each with its time as the
    history renders it (the time parsed from the name, else the
    modification time; a file that has neither is left out), its name
    and its size in bytes; when no request fails these are the records
    of all the [.cfg] files. The list is sorted on the rendered times,
    compared as texts, greatest first. *)
Theorem get_backup_history_sorted bm (device_name : string) (w : World) :
  exists kept new history w',
    get_backup_history E bm device_name w = (Ok history, w')
    /\ trace w' = trace w ++ new
    /\ Forall is_io new
    /\ files w' = files w
    /\ connections w' = connections w
    /\ sublist kept (List.filter is_cfg (directory (files w) device_name))
    /\ history ≡ₚ omap (record_of bm) kept
    /\ StronglySorted
         (fun a b => str_lt (timestamp a) (timestamp b) = false) history
    /\ ((forall tr req, env_io_ok E tr req = true) ->
        kept = List.filter is_cfg (directory (files w) device_name)).
Proof.
  destruct (get_backup_history_spec bm device_name w)
    as (kept & new & w' & He & Hsub & Ht & Hio & Hf & Hc & Hall).
  eexists kept, new, _, w'. split; [exact He|]. repeat (split; [done|]).
  split; [apply sort_desc_perm|]. split; [apply sort_desc_sorted|done].
Qed.

Lemma sorted_head_greatest x l :
  StronglySorted newest_first (x :: l) ->
  forall y, y ∈ x :: l -> str_lt (timestamp x) (timestamp y) = false.
Proof.
  intros Hs y [->|Hy]%elem_of_cons; [apply str_lt_irrefl|].
  inversion Hs as [|? ? _ Hall]; subst. rewrite Forall_forall in Hall. by apply Hall.
Qed.

Lemma record_of_Some bm f x :
  record_of bm f = Some x ->
  exists t, record_time bm f = Some t
            /\ x = {| timestamp := strftime bm history_format t;
                      file_path := file_name f;
                      size := utf8_length (file_content f) |}.
Proof.
  unfold record_of. destruct (record_time bm f) as [t|]; [|done].
  intros [= <-]. eauto.
Qed.

(** The head of the history, when no request fails: its rendered time
    is not below that of any timed record of the directory. *)
Lemma history_head bm d w l x rest :
  (forall tr req, env_io_ok E tr req = true) ->
  lookup_entry (files w) d = Some (Directory l) ->
  (get_backup_history E bm d w).1 = Ok (x :: rest) ->
  forall g u, g ∈ l -> is_cfg g = true -> record_time bm g = Some u ->
              str_lt (timestamp x) (strftime bm history_format u) = false.
Proof.
  intros Hok Hl He g u Hg Hgc Hu.
  destruct (get_backup_history_spec bm d w)
    as (kept & new & w' & He' & _ & _ & _ & _ & _ & Hall).
  rewrite He' in He. cbn [fst] in He. injection He as He.
  rewrite (Hall Hok) in He. unfold directory in He. rewrite Hl in He.
  pose proof (sort_desc_sorted (omap (record_of bm) (List.filter is_cfg l))) as Hs.
  rewrite He in Hs.
  assert (Hin : {| timestamp := strftime bm history_format u;
                   file_path := file_name g;
                   size := utf8_length (file_content g) |} ∈ x :: rest).
  { rewrite <- He, sort_desc_perm. apply list_elem_of_omap. exists g. split.
    - apply list_elem_of_In, filter_In. split; [by apply list_elem_of_In|done].
    - unfold record_of. by rewrite Hu. }
  exact (sorted_head_greatest _ _ Hs _ Hin).
Qed.

(** X15. [get_latest_backup] never changes the backup tree. What it
    returns is the name of a [.cfg] file of the device's directory that
    has a time. When no request to the file system fails, the rendering
    of that time is, as a text, not below the rendering of any other
    record's time; so the record is the newest among those whose times
    the rendering keeps in order; and [None] is returned only if no
    [.cfg] file has a time. *)
Theorem get_latest_backup_newest bm (device_name : string) (w : World) :
  exists latest w',
    get_latest_backup E bm device_name w = (Ok latest, w')
    /\ files w' = files w
    /\ match latest with
       | Some p =>
           exists f t,
             f ∈ directory (files w) device_name
             /\ is_cfg f = true /\ file_name f = p
             /\ record_time bm f = Some t
             /\ ((forall tr req, env_io_ok E tr req = true) ->
                 forall g u,
                   g ∈ directory (files w) device_name ->
                   is_cfg g = true -> record_time bm g = Some u ->
                   str_lt (strftime bm history_format t)
                          (strftime bm history_format u) = false
                   /\ ((t < u -> str_lt (strftime bm history_format t)
                                        (strftime bm history_format u) = true) ->
                       u <= t))
       | None =>
           (forall tr req, env_io_ok E tr req = true) ->
           forall g, g ∈ directory (files w) device_name ->
                     is_cfg g = true -> record_time bm g = None
       end.
Proof.
  unfold get_latest_backup. unfold bind.
  destruct (get_backup_history_spec bm device_name w)
    as (kept & new & w' & He & Hsub & Ht & Hio & Hf & Hc & Hall).
  pose proof (history_head bm device_name w) as Hhead.
  rewrite He in Hhead |- *. cbn [fst] in Hhead.
  pose proof (sort_desc_perm (omap (record_of bm) kept)) as Hperm.
  destruct (sort_desc (omap (record_of bm) kept)) as [|x h] eqn:Hh; unfold ret.
  - exists None, w'. split; [done|]. split; [done|]. intros Hok g Hg Hgc.
    destruct (record_time bm g) as [u|] eqn:Hu; [|done]. exfalso.
    symmetry in Hperm. apply Permutation_nil_r in Hperm.
    assert (Hin : {| timestamp := strftime bm history_format u;
                     file_path := file_name g;
                     size := utf8_length (file_content g) |}
                  ∈ omap (record_of bm) kept).
    { apply list_elem_of_omap. exists g. split.
      - rewrite (Hall Hok). apply list_elem_of_In, filter_In.
        split; [by apply list_elem_of_In|done].
      - unfold record_of. by rewrite Hu. }
    rewrite Hperm in Hin. by apply elem_of_nil in Hin.
  - exists (Some (file_path x)), w'. split; [done|]. split; [done|].
    assert (Hx : x ∈ omap (record_of bm) kept).
    { rewrite <- Hperm. by left. }
    apply list_elem_of_omap in Hx as (f & Hf' & Hrec).
    apply record_of_Some in Hrec as (t & Htime & ->).
    assert (Hin : f ∈ List.filter is_cfg (directory (files w) device_name)).
    { by eapply elem_of_sublist. }
    apply list_elem_of_In, filter_In in Hin as [Hin Hcfg].
    exists f, t. split; [by apply list_elem_of_In|]. split; [done|].
    split; [done|]. split; [done|].
    intros Hok g u Hg Hgc Hu.
    assert (Hge : str_lt (strftime bm history_format t)
                         (strftime bm history_format u) = false).
    { unfold directory in Hg.
      destruct (lookup_entry (files w) device_name) as [[|l]|] eqn:Hl;
        try (by apply elem_of_nil in Hg).
      exact (Hhead l _ h Hok eq_refl eq_refl g u Hg Hgc Hu). }
    split; [exact Hge|]. intros Hmono.
    destruct (Z.le_gt_cases u t) as [?|Hlt]; [done|].
    rewrite (Hmono Hlt) in Hge. done.
Qed.


Lemma find_file_put_eq l f : find_file (put_file l f) (file_name f) = Some f.
Proof.
  induction l as [|g l IH]; cbn.
  - by rewrite String.eqb_refl.
  - destruct (file_name g =? file_name f)%string eqn:Hg; cbn.
    + by rewrite String.eqb_refl.
    + by rewrite Hg.
Qed.

Lemma find_file_drop l p : find_file (drop_file l p) p = None.
Proof.
  unfold drop_file. induction l as [|g l IH]; cbn; [done|].
  destruct (file_name g =? p)%string eqn:Hg; cbn; [done|]. by rewrite Hg.
Qed.

Lemma find_file_drop_ne l p q :
  q <> p -> find_file (drop_file l p) q = find_file l q.
Proof.
  intros Hne. unfold drop_file. induction l as [|g l IH]; cbn; [done|].
  destruct (file_name g =? p)%string eqn:Hg; cbn.
  - apply String.eqb_eq in Hg. destruct (String.eqb_spec (file_name g) q); [congruence|done].
  - destruct (file_name g =? q)%string; [done|exact IH].
Qed.



Lemma endswith_app p s : endswith p (s +:+ p) = true.
Proof.
  induction s as [|c s IH].
  - change ("" +:+ p) with p. destruct p; cbn [endswith]; by rewrite String.eqb_refl.
  - change (String c s +:+ p) with (String c (s +:+ p)). cbn [endswith].
    rewrite IH. apply orb_true_r.
Qed.

Lemma io_ok_storable d :
  (forall tr req, env_io_ok E tr req = true) -> storable E d.
Proof. intros Hok. by repeat split. Qed.

(** What [backup_config] does and what it leaves alone. *)
Lemma backup_config_spec bm d content w :
  exists r new w',
    backup_config E bm d content w = (Ok r, w')
    /\ trace w' = trace w ++ new
    /\ Forall is_io new
    /\ connections w' = connections w
    /\ (forall other, other <> d ->
          lookup_entry (files w') other = lookup_entry (files w) other)
    /\ match r with
       | Some key =>
           exists t mtime,
             key = strftime bm key_format t +:+ ".cfg"
             /\ lookup_entry (files w') d
                = Some (Directory (put_file (directory (files w) d)
                                     {| file_name := key; file_content := content;
                                        file_mtime := Some mtime |}))
       | None =>
           directory (files w') d = directory (files w) d
           \/ exists t text mtime,
                is_beginning text content
                /\ lookup_entry (files w') d
                   = Some (Directory
                             (put_file (directory (files w) d)
                                {| file_name := strftime bm key_format t +:+ ".cfg";
                                   file_content := text;
                                   file_mtime := Some mtime |}))
       end
    /\ (storable E d -> lookup_entry (files w) d <> Some NotADirectory -> is_Some r).
Proof.
  destruct (store_backup_config E bm d content w) as (new & Ht & Hio & Hc & Hfr).
  destruct (backup_config_run E bm d content w) as (r & w' & He & Hr & Hok).
  rewrite He in Ht, Hc, Hfr. cbn [snd] in *.
  by exists r, new, w'.
Qed.

(** X16. [backup_config] never raises, makes requests to the file
    system only, and leaves the session cache and the directories of
    other devices alone. Either it returns the file name, the timestamp
    followed by [.cfg], and the device's directory then holds the text
    under that name (in place of a file of the same name, if there was
    one), everything else in it as before. Or it returns [None], and the
    files of the directory are what they were, or differ in the one file
    of that name, which now holds a beginning of the text: what opening
    for writing and a write that failed have left, or the whole text when
    the check after the write failed. *)
Theorem backup_config_stores_or_leaves bm (device_name config_content : string)
    (w : World) :
  plain_name device_name = true ->
  exists r new w',
    backup_config E bm device_name config_content w = (Ok r, w')
    /\ trace w' = trace w ++ new
    /\ Forall is_io new
    /\ connections w' = connections w
    /\ (forall other, plain_name other = true -> other <> device_name ->
          lookup_entry (files w') other = lookup_entry (files w) other)
    /\ match r with
       | Some key =>
           exists t mtime,
             key = strftime bm key_format t +:+ ".cfg"
             /\ directory (files w') device_name
                = put_file (directory (files w) device_name)
                    {| file_name := key; file_content := config_content;
                       file_mtime := Some mtime |}
       | None =>
           directory (files w') device_name = directory (files w) device_name
           \/ exists t text mtime,
                is_beginning text config_content
                /\ directory (files w') device_name
                   = put_file (directory (files w) device_name)
                       {| file_name := strftime bm key_format t +:+ ".cfg";
                          file_content := text;
                          file_mtime := Some mtime |}
       end.
Proof.
  intros _.
  destruct (backup_config_spec bm device_name config_content w)
    as (r & new & w' & He & Ht & Hio & Hc & Hfr & Hr & _).
  exists r, new, w'. repeat (split; [done|]).
  split; [intros other _; apply Hfr|].
  destruct r as [key|].
  - destruct Hr as (t & mtime & -> & Hl). exists t, mtime. split; [done|].
    unfold directory at 1. by rewrite Hl.
  - destruct Hr as [Hr|(t & text & mtime & Hb & Hl)]; [by left|].
    right. exists t, text, mtime. split; [done|].
    unfold directory at 1. by rewrite Hl.
Qed.

(** X17. What is stored can be read back and is listed. When no
    request to the file system fails and the device's name is not taken
    by a plain file, [backup_config] succeeds, [get_backup_content] for
    the name it returned gives the stored text, and [get_backup_history]
    lists that name. The text is taken to hold no carriage return, as
    Netmiko delivers it: reading is done in text mode, which turns CR LF
    and CR into LF. *)
Theorem backup_config_read_back bm (device_name config_content : string)
    (w : World) :
  (forall tr req, env_io_ok E tr req = true) ->
  lookup_entry (files w) device_name <> Some NotADirectory ->
  contains (String cr "") config_content = false ->
  exists key w1 history,
    backup_config E bm device_name config_content w = (Ok (Some key), w1)
    /\ (get_backup_content E bm device_name key w1).1 = Ok (Some config_content)
    /\ (get_backup_history E bm device_name w1).1 = Ok history
    /\ key ∈ map file_path history.
Proof.
  intros Hok Hdir Hcr.
  destruct (backup_config_spec bm device_name config_content w)
    as (r & new & w1 & He & Ht & Hio & Hc & Hfr & Hr & Hsome).
  destruct (Hsome (io_ok_storable _ Hok) Hdir) as [key ->].
  destruct Hr as (t & mtime & -> & Hl).
  set (f := {| file_name := strftime bm key_format t +:+ ".cfg";
               file_content := config_content; file_mtime := Some mtime |}) in *.
  destruct (get_backup_history_spec bm device_name w1)
    as (kept & new' & w2 & Hh & _ & _ & _ & _ & _ & Hall).
  exists (strftime bm key_format t +:+ ".cfg"), w1,
    (sort_desc (omap (record_of bm) kept)).
  split; [done|]. split.
  { rewrite (get_backup_content_spec E bm device_name _ w1 _ Hl).
    change (strftime bm key_format t +:+ ".cfg") with (file_name f).
    rewrite find_file_put_eq. cbn. rewrite Hok.
    by rewrite (universal_newlines_id _ Hcr). }
  split; [by rewrite Hh|].
  rewrite sort_desc_perm, (Hall Hok). unfold directory. rewrite Hl.
  assert (Hrec : exists x, record_of bm f = Some x /\ file_path x = file_name f).
  { unfold record_of, record_time. cbn [file_mtime].
    destruct (strptime bm _ key_format); eauto. }
  destruct Hrec as (x & Hx & Hp).
  apply list_elem_of_fmap. exists x. split; [done|].
  apply list_elem_of_omap. exists f. split; [|done].
  apply list_elem_of_In, filter_In. split; [apply In_put_file|].
  apply endswith_app.
Qed.

(** What [delete_backup] does, case by case. *)
Lemma delete_backup_spec bm d p w :
  exists w',
    (delete_backup E bm d p w).2 = w'
    /\ connections w' = connections w
    /\ (forall other, other <> d ->
          lookup_entry (files w') other = lookup_entry (files w) other)
    /\ match (delete_backup E bm d p w).1 with
       | Ok true =>
           is_Some (find_file (directory (files w) d) p)
           /\ directory (files w') d = drop_file (directory (files w) d) p
       | Ok false => directory (files w') d = directory (files w) d
       | Raised => lookup_entry (files w) d = None /\ files w' = files w
       end
    /\ ((forall tr req, env_io_ok E tr req = true) ->
        (delete_backup E bm d p w).1
        = match find_file (directory (files w) d) p with
          | Some _ => Ok true
          | None => Ok false
          end).
Proof.
  eexists. split; [reflexivity|].
  unfold delete_backup. run_bm. unfold directory.
  destruct (lookup_entry (files w) d) as [[|l]|] eqn:Hl; step.
  - rewrite Hl. cbn. split; [done|]. split; [done|]. by rewrite Hl.
  - rewrite Hl. destruct (find_file l p) as [f|] eqn:Hf; step.
    + destruct (env_io_ok E (trace w) (IoRemove d p)) eqn:Hr; step.
      * rewrite Hl. cbn. split; [done|].
        split; [intros other Hne; by apply lookup_update_ne|].
        rewrite lookup_update_eq. split; [split; [eauto|done]|]. done.
      * cbn. split; [done|]. split; [done|]. rewrite Hl. split; [done|].
        intros Hok. by rewrite Hok in Hr.
    + cbn. split; [done|]. split; [done|]. rewrite Hl. split; [done|]. done.
  - destruct (env_io_ok E (trace w) (IoMkdir d)) eqn:Hm; step.
    + rewrite lookup_update_eq. cbn.
      split; [done|]. split; [intros other Hne; by apply lookup_update_ne|].
      rewrite lookup_update_eq. split; [done|]. done.
    + cbn. split; [done|]. split; [done|]. split; [done|].
      intros Hok. by rewrite Hok in Hm.
Qed.

(** X18. [delete_backup] leaves the session cache and the directories
    of other devices alone. When it returns [True] the file was there,
    and afterwards the device's directory is what it was without the
    file of that name: that name is gone and every other name is found
    as before. When it returns [False] the files of the directory are
    what they were. It raises only if the device had no directory and
    none could be made. The device and the file are given by plain
    names: a name with a separator or a dot name points elsewhere. *)
Theorem delete_backup_removes_one bm (device_name backup_file : string) (w : World) :
  plain_name device_name = true ->
  plain_name backup_file = true ->
  let run := delete_backup E bm device_name backup_file w in
  connections run.2 = connections w
  /\ (forall other, plain_name other = true -> other <> device_name ->
        lookup_entry (files run.2) other = lookup_entry (files w) other)
  /\ match run.1 with
     | Ok true =>
         is_Some (find_file (directory (files w) device_name) backup_file)
         /\ directory (files run.2) device_name
            = drop_file (directory (files w) device_name) backup_file
         /\ find_file (directory (files run.2) device_name) backup_file = None
         /\ (forall other, other <> backup_file ->
               find_file (directory (files run.2) device_name) other
               = find_file (directory (files w) device_name) other)
     | Ok false =>
         directory (files run.2) device_name = directory (files w) device_name
     | Raised =>
         lookup_entry (files w) device_name = None /\ files run.2 = files w
     end.
Proof.
  intros _ _ run.
  destruct (delete_backup_spec bm device_name backup_file w)
    as (w' & Hw & Hc & Hfr & Hcase & _).
  fold run in Hw, Hcase. rewrite Hw. split; [done|].
  split; [intros other _; apply Hfr|].
  destruct (run.1) as [[|]|]; [|done|done].
  destruct Hcase as [Hsome Hd]. split; [done|]. split; [done|].
  rewrite Hd. split; [apply find_file_drop|].
  intros other Hne. by apply find_file_drop_ne.
Qed.



Ltac store_frame d :=
  repeat first
    [ solve [auto 2 using store_io, store_set_directory,
               store_get_device_backup_dir with nocore]
    | apply (preserves_bind _ (store_step_trans d)); [|intros ?]
    | apply (preserves_catch _ (store_step_trans d))
    | apply (preserves_ret _ (store_step_refl d))
    | apply (preserves_raise _ (store_step_refl d))
    | apply (preserves_get _ (store_step_refl d))
    | match goal with
      | |- preserves _ (if ?b then _ else _) => destruct b
      | |- preserves _ (match ?x with _ => _ end) => destruct x
      end ].

Lemma store_remove d f : preserves (store_step d) (remove E d f).
Proof. unfold remove, tree. store_frame d. Qed.

Lemma store_cleanup_file bm d cutoff f :
  preserves (store_step d) (cleanup_file E bm d cutoff f).
Proof.
  unfold cleanup_file.
  destruct (endswith ".cfg" (file_name f)); [|apply (preserves_ret _ (store_step_refl d))].
  apply (preserves_catch _ (store_step_trans d)).
  - destruct (strptime bm _ _); [|apply (preserves_raise _ (store_step_refl d))].
    destruct (_ <? _); [apply store_remove|apply (preserves_ret _ (store_step_refl d))].
  - apply (preserves_bind _ (store_step_trans d)); [apply store_io|]. intros ok.
    destruct (negb ok); [apply (preserves_raise _ (store_step_refl d))|].
    destruct (file_mtime f); [|apply (preserves_raise _ (store_step_refl d))].
    destruct (_ <? _); [apply store_remove|apply (preserves_ret _ (store_step_refl d))].
Qed.

Lemma store_cleanup_files bm d cutoff l :
  preserves (store_step d) (cleanup_files E bm d cutoff l).
Proof.
  induction l as [|f l IH]; cbn [cleanup_files].
  - apply (preserves_ret _ (store_step_refl d)).
  - apply (preserves_bind _ (store_step_trans d)); [apply store_cleanup_file|done].
Qed.

Lemma store_cleanup_device bm cutoff d :
  preserves (store_step d) (cleanup_device E bm cutoff d).
Proof.
  unfold cleanup_device, tree.
  apply (preserves_bind _ (store_step_trans d));
    [apply (preserves_get _ (store_step_refl d))|]. intros t.
  destruct (lookup_entry t d) as [[|l]|];
    try apply (preserves_ret _ (store_step_refl d)).
  apply (preserves_bind _ (store_step_trans d)); [apply store_io|]. intros ok.
  destruct (negb ok); [apply (preserves_raise _ (store_step_refl d))|].
  apply store_cleanup_files.
Qed.

(** Pruning of a named device, as one step on its directory. *)
Lemma cleanup_named_eq bm d w :
  d <> "" ->
  cleanup_old_backups E bm (Some d) w
  = match minus_days (env_now E (trace w)) (retention_days bm) with
    | Some cutoff_date =>
        match cleanup_device E bm cutoff_date d w with
        | (Ok _, w') => (Ok tt, w')
        | (Raised, w') => (Raised, w')
        end
    | None => (Raised, w)
    end.
Proof.
  intros Hne. unfold cleanup_old_backups. apply String.eqb_neq in Hne. rewrite Hne.
  unfold bind at 1, ret at 1. cbv beta iota zeta.
  unfold bind at 1, now at 1, get at 1. cbv beta iota zeta.
  destruct (minus_days _ _); [|done].
  cbn [cleanup_devices]. unfold bind, ret.
  by destruct (cleanup_device E bm z d w) as [[[]|] w'].
Qed.

(** A record without a time makes the pruning of its directory raise. *)
Lemma cleanup_files_untimed bm d cutoff l :
  (forall tr req, env_io_ok E tr req = true) ->
  (exists f, In f l /\ is_cfg f = true /\ record_time bm f = None) ->
  forall w, (cleanup_files E bm d cutoff l w).1 = Raised.
Proof.
  intros Hok. induction l as [|g l IH]; intros (f & Hin & Hcfg & Htime) w; [done|].
  cbn [cleanup_files]. unfold bind at 1.
  destruct Hin as [->|Hin].
  - unfold cleanup_file. unfold is_cfg in Hcfg. rewrite Hcfg.
    unfold record_time in Htime.
    destruct (strptime bm _ key_format); [done|].
    unfold catch at 1, raise at 1. unfold bind at 1, io at 1. rewrite Hok.
    cbn [negb]. rewrite Htime. done.
  - destruct (cleanup_file E bm d cutoff g w) as [[[]|] w1]; [|done].
    apply IH. eauto.
Qed.

(** X21. [cleanup_old_backups] for one named device makes requests to
    the file system only and never touches the session cache or another
    device's directory, also when it raises. When no request fails, the
    directory holds no two files of one name and every record in it has
    a time, and the cutoff (the current time less the retention period)
    is a time that a datetime can hold, it returns normally and leaves
    in the device's directory exactly the records that are not expired.
    It raises without touching anything when the cutoff is no such
    time, and it raises, with no request failing, when a record has no
    time: its name holds none and its modification time cannot be
    read. *)
Theorem cleanup_of_one_device_is_local bm (device_name : string) (w : World) :
  plain_name device_name = true ->
  let run := cleanup_old_backups E bm (Some device_name) w in
  let cutoff := minus_days (env_now E (trace w)) (retention_days bm) in
  (exists new,
     trace run.2 = trace w ++ new
     /\ Forall is_io new
     /\ connections run.2 = connections w
     /\ forall other, plain_name other = true -> other <> device_name ->
          lookup_entry (files run.2) other = lookup_entry (files w) other)
  /\ (forall cutoff_date,
        cutoff = Some cutoff_date ->
        (forall tr req, env_io_ok E tr req = true) ->
        NoDup (map file_name (directory (files w) device_name)) ->
        (forall f, In f (directory (files w) device_name) -> is_cfg f = true ->
                   is_Some (record_time bm f)) ->
        run.1 = Ok tt
        /\ directory (files run.2) device_name
           = List.filter (fun f => negb (expired bm cutoff_date f))
                         (directory (files w) device_name))
  /\ (cutoff = None -> run = (Raised, w))
  /\ (forall f,
        is_Some cutoff ->
        (forall tr req, env_io_ok E tr req = true) ->
        In f (directory (files w) device_name) -> is_cfg f = true ->
        record_time bm f = None ->
        run.1 = Raised).
Proof.
  intros Hplain run cutoff.
  assert (Hne : device_name <> "") by (by intros ->).
  pose proof (cleanup_named_eq bm device_name w Hne) as Hrun. fold run cutoff in Hrun.
  split; [|split; [|split]].
  - destruct cutoff as [cutoff_date|].
    + destruct (store_cleanup_device bm cutoff_date device_name w)
        as (new & Ht & Hio & Hc & Hfr).
      exists new. rewrite Hrun.
      destruct (cleanup_device E bm cutoff_date device_name w) as [[[]|] w'];
        cbn [snd] in *; (split; [done|]); (split; [done|]); (split; [done|]);
        intros other _; apply Hfr.
    + exists []. rewrite Hrun. cbn [snd]. by rewrite app_nil_r.
  - intros cutoff_date Hcut Hok Hnd Htimed. rewrite Hcut in Hrun.
    destruct (cleanup_device_ok E Hok bm cutoff_date device_name w)
      as (w' & He & Hl & _).
    { intros cur Hcur. unfold directory in Hnd, Htimed. by rewrite Hcur in Hnd, Htimed. }
    rewrite He in Hrun. rewrite Hrun. cbn [fst snd]. split; [done|].
    by apply directory_pruned.
  - intros Hcut. by rewrite Hcut in Hrun.
  - intros f [cutoff_date Hcut] Hok Hin Hcfg Htime. rewrite Hcut in Hrun.
    assert (He : (cleanup_device E bm cutoff_date device_name w).1 = Raised).
    { unfold cleanup_device. unfold bind at 1, tree at 1, get at 1.
      unfold directory in Hin.
      destruct (lookup_entry (files w) device_name) as [[|l]|]; try done.
      unfold bind at 1, io at 1. rewrite Hok. cbn [negb].
      apply cleanup_files_untimed; eauto. }
    rewrite Hrun.
    by destruct (cleanup_device E bm cutoff_date device_name w) as [[[]|] w'].
Qed.

End StoreFacts.

Section ConfigFacts.
Import PyStr Sys Config.

(** [sep not in s] *)
Lemma contains_char_cons sep c s :
  contains (String sep "") (String c s)
  = (sep =? c)%char || contains (String sep "") s.
Proof. cbn [contains startswith]. by rewrite andb_true_r. Qed.

Lemma split_no_sep sep s :
  contains (String sep "") s = false -> split sep s = [s].
Proof.
  induction s as [|c s IH]; [done|]. rewrite contains_char_cons.
  intros [Hc Hs]%orb_false_elim. cbn [split].
  rewrite Ascii.eqb_sym, Hc. by rewrite IH.
Qed.

Lemma split_field sep a rest :
  contains (String sep "") a = false ->
  split sep (a +:+ String sep rest) = a :: split sep rest.
Proof.
  induction a as [|c a IH].
  - intros _. change ("" +:+ String sep rest) with (String sep rest).
    cbn [split]. by rewrite Ascii.eqb_refl.
  - rewrite contains_char_cons. intros [Hc Ha]%orb_false_elim.
    change (String c a +:+ String sep rest) with (String c (a +:+ String sep rest)).
    cbn [split]. rewrite Ascii.eqb_sym, Hc. by rewrite IH.
Qed.

Lemma split_not_nil sep s : split sep s <> [].
Proof.
  induction s as [|c s IH]; [done|]. cbn [split].
  destruct (c =? sep)%char; [done|]. by destruct (split sep s).
Qed.

Lemma split_fields_clean sep s :
  Forall (fun field => contains (String sep "") field = false) (split sep s).
Proof.
  induction s as [|c s IH]; [by repeat constructor|]. cbn [split].
  destruct (Ascii.eqb_spec c sep) as [->|Hne].
  - by constructor.
  - assert (Hc : (sep =? c)%char = false) by (apply Ascii.eqb_neq; congruence).
    destruct (split sep s) as [|f fs].
    + constructor; [|constructor]. rewrite contains_char_cons. by rewrite Hc.
    + inversion IH; subst. constructor; [|done].
      rewrite contains_char_cons. by apply orb_false_intro.
Qed.

Lemma split_app_sep sep a b :
  split sep (a +:+ String sep b) = split sep a ++ split sep b.
Proof.
  induction a as [|c a IH].
  - change ("" +:+ String sep b) with (String sep b). cbn [split].
    by rewrite Ascii.eqb_refl.
  - change (String c a +:+ String sep b) with (String c (a +:+ String sep b)).
    cbn [split]. rewrite IH. destruct (c =? sep)%char; [done|].
    pose proof (split_not_nil sep a). by destruct (split sep a).
Qed.

Lemma split_length sep s : (1 <= length (split sep s))%nat.
Proof. pose proof (split_not_nil sep s). destruct (split sep s); [done|cbn; lia]. Qed.

Lemma device_line_fields (name ip username password device_type : string) :
  contains "," ip = false ->
  contains "," username = false ->
  let fields := split "," (password +:+ "," +:+ device_type) in
  get_devices (Some [(name, device_value ip username password device_type)])
  = [(name, {| Sys.ip := ip; Sys.username := username;
               Sys.password := nth 0 fields "";
               Sys.device_type := nth 1 fields "" |})]
  /\ (contains "," password = false ->
      nth 0 fields "" = password
      /\ nth 1 fields "" = nth 0 (split "," device_type) ""
      /\ (contains "," device_type = false -> nth 1 fields "" = device_type)).
Proof.
  intros Hip Hu fields.
  assert (Hf : fields = split "," password ++ split "," device_type).
  { subst fields. change ("," +:+ device_type) with (String "," device_type).
    apply split_app_sep. }
  split.
  - unfold get_devices, devices_loop.
    change (device_value ip username password device_type)
      with (ip +:+ String "," (username +:+ String ","
              (password +:+ "," +:+ device_type))).
    rewrite (split_field "," ip) by done.
    rewrite (split_field "," username) by done.
    fold fields.
    assert (Hlen : (2 <= length fields)%nat).
    { rewrite Hf, length_app.
      pose proof (split_length "," password). pose proof (split_length "," device_type).
      lia. }
    destruct fields as [|f1 [|f2 fs]]; cbn in Hlen; try lia. reflexivity.
  - intros Hp. rewrite Hf, (split_no_sep "," password Hp). cbn [app nth].
    split; [done|]. split; [done|]. intros Ht. by rewrite (split_no_sep "," _ Ht).
Qed.

(** X23. The line [add_device] stores for a device, read by
    [get_devices] from the same parser, the line holding no percent
    sign: it gives back the address and the user name when these hold no
    comma; the password and the device type read back are the first two
    comma-separated fields of the password followed by the type. So with
    a password that holds no comma the password comes back as written,
    and the type as far as its first comma; a comma in the password
    shifts the fields. *)
Theorem device_line_round_trip (name ip username password device_type : string) :
  plain_value (device_value ip username password device_type) = true ->
  contains "," ip = false ->
  contains "," username = false ->
  let fields := split "," (password +:+ "," +:+ device_type) in
  get_devices (Some [(name, device_value ip username password device_type)])
  = [(name, {| Sys.ip := ip; Sys.username := username;
               Sys.password := nth 0 fields "";
               Sys.device_type := nth 1 fields "" |})]
  /\ (contains "," password = false ->
      nth 0 fields "" = password
      /\ nth 1 fields "" = nth 0 (split "," device_type) ""
      /\ (contains "," device_type = false -> nth 1 fields "" = device_type)).
Proof. intros _. apply device_line_fields. Qed.

(** X24. [update_device] with an empty password keeps the stored one:
    for a stored line that reads with at least four fields, the line an
    update with an empty password stores reads back, from the same
    parser, with the password that the old line reads with, and with the
    new address and user name (these holding no comma). The old line as
    read and the new fields hold no percent sign, so that the parser
    accepts the new line. *)
Theorem update_keeps_stored_password (name old_value ip username device_type : string) :
  plain_value old_value = true ->
  plain_value ip = true ->
  plain_value username = true ->
  plain_value device_type = true ->
  (4 <= length (split "," old_value))%nat ->
  contains "," ip = false ->
  contains "," username = false ->
  exists before after,
    get_devices (Some [(name, old_value)]) = [(name, before)]
    /\ get_devices (Some [(name, updated_value old_value ip username "" device_type)])
       = [(name, after)]
    /\ Sys.password after = Sys.password before
    /\ Sys.ip after = ip
    /\ Sys.username after = username.
Proof.
  intros _ _ _ _ Hlen Hip Hu.
  pose proof (device_line_fields name ip username
                (nth 2 (split "," old_value) "") device_type Hip Hu) as [Hget Hpw].
  unfold updated_value. cbn [String.eqb].
  apply Nat.leb_le in Hlen as Hlenb. rewrite Hlenb.
  eexists _, _. split.
  { unfold get_devices, devices_loop. rewrite Hlenb. reflexivity. }
  split; [exact Hget|]. cbn.
  destruct Hpw as [-> _]; [|done].
  pose proof (split_fields_clean "," old_value) as Hclean.
  rewrite Forall_forall in Hclean. apply Hclean.
  apply list_elem_of_In, nth_In. lia.
Qed.

Lemma devices_loop_app items1 items2 : forall devices,
  devices_loop (items1 ++ items2) devices
  = devices_loop items2 (devices_loop items1 devices).
Proof.
  induction items1 as [|[n v] items1 IH]; intros devices; [done|].
  cbn [app devices_loop]. destruct (4 <=? length (split "," v))%nat; apply IH.
Qed.

(** X25. [get_devices] passes over a line of fewer than four
    comma-separated fields without a word: the devices read are those
    read with the line taken out, the others being unaffected. *)
Theorem malformed_device_line_is_skipped
    (items1 items2 : list (string * string)) (name value : string) :
  (length (split "," value) < 4)%nat ->
  get_devices (Some (items1 ++ (name, value) :: items2))
  = get_devices (Some (items1 ++ items2)).
Proof.
  intros Hlen. unfold get_devices. rewrite !devices_loop_app.
  cbn [devices_loop]. apply Nat.leb_gt in Hlen. by rewrite Hlen.
Qed.

End ConfigFacts.

Section IntFacts.
Import PyStr Sys Scheduler.

Lemma int_digits_all_digits s : forall value digits,
  all_digits s = true ->
  int_digits value digits s = Some (numeral_value value s, (digits + String.length s)%nat).
Proof.
  induction s as [|c s IH]; intros value digits; cbn [all_digits int_digits numeral_value String.length].
  - intros _. by rewrite Nat.add_0_r.
  - intros [Hc Hs]%andb_prop. rewrite Hc, (IH _ _ Hs). do 2 f_equal. lia.
Qed.

Lemma int_unsigned_all_digits s :
  all_digits s = true -> s <> "" ->
  int_unsigned s = Some (numeral_value 0 s, String.length s).
Proof.
  destruct s as [|c s]; [done|]. cbn [all_digits int_unsigned].
  intros [Hc Hs]%andb_prop _. rewrite Hc, (int_digits_all_digits _ _ _ Hs). done.
Qed.

Lemma digit_pretty_N_char d :
  (d < 10)%N -> is_digit (pretty_N_char d) = true /\ digit (pretty_N_char d) = Z.of_N d.
Proof.
  intros Hd.
  assert (d = 0 \/ d = 1 \/ d = 2 \/ d = 3 \/ d = 4 \/ d = 5 \/ d = 6 \/ d = 7
          \/ d = 8 \/ d = 9)%N as H by lia.
  repeat (destruct H as [->|H]; [by split|]). by subst.
Qed.

Lemma pretty_N_go_digits x : forall s,
  all_digits s = true -> all_digits (pretty_N_go x s) = true.
Proof.
  induction (N.lt_wf_0 x) as [x _ IH]. intros s Hs.
  destruct (decide (x = 0)%N) as [->|Hx]; [by rewrite pretty_N_go_0|].
  rewrite pretty_N_go_step by lia. apply IH.
  - apply N.div_lt; lia.
  - cbn [all_digits]. rewrite Hs.
    by destruct (digit_pretty_N_char (x `mod` 10)%N) as [-> _];
      [apply N.mod_lt|].
Qed.

Lemma pretty_N_go_value x : forall s,
  numeral_value 0 (pretty_N_go x s) = numeral_value (Z.of_N x) s.
Proof.
  induction (N.lt_wf_0 x) as [x _ IH]. intros s.
  destruct (decide (x = 0)%N) as [->|Hx]; [by rewrite pretty_N_go_0|].
  rewrite pretty_N_go_step by lia. rewrite IH by (apply N.div_lt; lia).
  cbn [numeral_value].
  destruct (digit_pretty_N_char (x `mod` 10)%N) as [_ ->]; [by apply N.mod_lt|].
  f_equal. rewrite (N.div_mod x 10) at 3 by done. lia.
Qed.

Lemma pretty_N_go_length x : forall (k : nat) s,
  (x < 10 ^ N.of_nat k)%N ->
  (String.length (pretty_N_go x s) <= String.length s + k)%nat.
Proof.
  induction (N.lt_wf_0 x) as [x _ IH]. intros k s Hk.
  destruct (decide (x = 0)%N) as [->|Hx]; [rewrite pretty_N_go_0; lia|].
  rewrite pretty_N_go_step by lia.
  destruct k as [|k]; [cbn in Hk; lia|].
  assert (Hlt : (x `div` 10 < x)%N) by (apply N.div_lt; lia).
  assert (Hb : (x `div` 10 < 10 ^ N.of_nat k)%N).
  { apply N.Div0.div_lt_upper_bound.
    rewrite Nat2N.inj_succ, N.pow_succ_r' in Hk. exact Hk. }
  pose proof (IH _ Hlt k (String (pretty_N_char (x `mod` 10)) s) Hb) as H.
  cbn [String.length] in H. lia.
Qed.

Lemma pretty_N_go_not_empty x s : (0 < x)%N -> pretty_N_go x s <> "".
Proof.
  revert s. induction (N.lt_wf_0 x) as [x _ IH]. intros s Hx.
  rewrite pretty_N_go_step by done.
  destruct (decide (x `div` 10 = 0)%N) as [->|Hd]; [by rewrite pretty_N_go_0|].
  apply IH; [apply N.div_lt; lia|by apply N.neq_0_lt_0].
Qed.

(** The numeral of a natural number: digits only, read back as the
    number. *)
Lemma pretty_N_numeral (x : N) :
  all_digits (pretty x) = true /\ pretty x <> ""
  /\ numeral_value 0 (pretty x) = Z.of_N x.
Proof.
  unfold pretty, pretty_N. destruct (decide (x = 0)%N) as [->|Hx]; [done|].
  split; [by apply pretty_N_go_digits|]. split; [apply pretty_N_go_not_empty; lia|].
  by rewrite pretty_N_go_value.
Qed.

Lemma pretty_N_length (x : N) (k : nat) :
  (x < 10 ^ N.of_nat k)%N -> (1 <= k)%nat -> (String.length (pretty x) <= k)%nat.
Proof.
  intros Hx Hk. unfold pretty, pretty_N.
  destruct (decide (x = 0)%N) as [->|Hne]; [cbn; lia|].
  etrans; [by apply pretty_N_go_length|]. cbn. lia.
Qed.

Lemma all_digits_first s :
  all_digits s = true -> s <> "" ->
  exists c r, s = String c r /\ is_digit c = true.
Proof.
  destruct s as [|c r]; [done|]. cbn. intros [Hc _]%andb_prop _. eauto.
Qed.

Lemma is_digit_not_special c :
  is_digit c = true ->
  int_space c = false /\ (c =? "+")%char = false /\ (c =? "-")%char = false
  /\ (c =? ":")%char = false.
Proof. by destruct c as [[] [] [] [] [] [] [] []]. Qed.

Lemma int_all_digits max_str_digits s :
  all_digits s = true -> s <> "" -> (String.length s <= 640)%nat ->
  int max_str_digits s = Some (numeral_value 0 s)
  /\ int max_str_digits ("-" +:+ s) = Some (- numeral_value 0 s).
Proof.
  intros Hs Hne Hlen.
  destruct (all_digits_first s Hs Hne) as (c & r & -> & Hc).
  destruct (is_digit_not_special c Hc) as (Hsp & Hplus & Hminus & _).
  pose proof (int_unsigned_all_digits _ Hs Hne) as Hu.
  assert (Hlim : forall b, b && (640 <? String.length (String c r))%nat = false).
  { intros b. apply Nat.ltb_ge in Hlen. rewrite Hlen. apply andb_false_r. }
  split.
  - unfold int. cbn [int_lstrip]. rewrite Hsp, Hplus, Hminus. cbn [snd fst].
    rewrite Hu. by rewrite Hlim.
  - unfold int. change ("-" +:+ String c r) with (String "-" (String c r)).
    cbn [int_lstrip]. change (int_space "-") with false. cbv iota.
    change (("-" =? "+")%char) with false. change (("-" =? "-")%char) with true.
    cbv iota. cbn [snd fst]. rewrite Hu. by rewrite Hlim.
Qed.

Lemma int_pretty_Z max_str_digits (z : Z) :
  Z.abs z < 10 ^ 640 -> int max_str_digits (pretty z) = Some z.
Proof.
  intros Hz.
  assert (Hpos : forall p : positive, Z.pos p < 10 ^ 640 ->
            all_digits (pretty (Npos p)) = true /\ pretty (Npos p) <> ""
            /\ (String.length (pretty (Npos p)) <= 640)%nat
            /\ numeral_value 0 (pretty (Npos p)) = Z.pos p).
  { intros p Hp. destruct (pretty_N_numeral (Npos p)) as (Hd & Hne & Hv).
    split; [done|]. split; [done|]. split; [|done].
    apply pretty_N_length; [|lia].
    apply N2Z.inj_lt. rewrite N2Z.inj_pow. exact Hp. }
  destruct z as [|p|p].
  - change (pretty 0) with "0".
    by destruct (int_all_digits max_str_digits "0") as [-> _]; [| |cbn; lia|].
  - destruct (Hpos p Hz) as (Hd & Hne & Hl & Hv).
    change (pretty (Z.pos p)) with (pretty (Npos p)).
    destruct (int_all_digits max_str_digits _ Hd Hne Hl) as [-> _]. by rewrite Hv.
  - destruct (Hpos p Hz) as (Hd & Hne & Hl & Hv).
    change (pretty (Z.neg p)) with ("-" +:+ pretty (Npos p)).
    destruct (int_all_digits max_str_digits _ Hd Hne Hl) as [_ ->]. by rewrite Hv.
Qed.

Lemma all_digits_no_colon s : all_digits s = true -> contains ":" s = false.
Proof.
  induction s as [|c s IH]; [done|]. cbn [all_digits].
  intros [Hc Hs]%andb_prop.
  change (contains ":" (String c s))
    with ((":" =? c)%char && true || contains ":" s).
  rewrite andb_true_r, Ascii.eqb_sym.
  destruct (is_digit_not_special c Hc) as (_ & _ & _ & ->). by apply IH.
Qed.

Lemma pretty_Z_no_colon (z : Z) : contains ":" (pretty z) = false.
Proof.
  destruct z as [|p|p]; [done| |].
  - apply all_digits_no_colon. apply (pretty_N_numeral (Npos p)).
  - change (pretty (Z.neg p)) with (String "-" (pretty (Npos p))).
    change (contains ":" (String "-" ?s)) with (contains ":" s).
    apply all_digits_no_colon. apply (pretty_N_numeral (Npos p)).
Qed.

(** X26. The time of the daily run, as [_setup_schedule] reads it: an
    hour and a minute written as decimal numerals around one colon are
    read as those two numbers, whatever they are (negative or beyond the
    clock's range alike: this step checks no range); a text without a
    colon gives the fallback, ten past ten. The numerals are of at most
    640 digits, below any limit on the digits of [int]. *)
Theorem scheduled_time_reads_numerals (max_str_digits : nat) (hour minute : Z) :
  Z.abs hour < 10 ^ 640 ->
  Z.abs minute < 10 ^ 640 ->
  scheduled_time max_str_digits (pretty hour +:+ ":" +:+ pretty minute)
  = (hour, minute)
  /\ forall backup_time,
       contains ":" backup_time = false ->
       scheduled_time max_str_digits backup_time = (10, 10).
Proof.
  intros Hh Hm. split.
  - unfold scheduled_time.
    change (":" +:+ pretty minute) with (String ":" (pretty minute)).
    rewrite (split_field ":" (pretty hour)) by apply pretty_Z_no_colon.
    rewrite (split_no_sep ":" (pretty minute)) by apply pretty_Z_no_colon.
    cbn [map]. by rewrite !int_pretty_Z.
  - intros backup_time Hc. unfold scheduled_time.
    rewrite (split_no_sep ":" backup_time Hc). cbn [map].
    by destruct (int max_str_digits backup_time).
Qed.

End IntFacts.

Section AppFacts.
Import PyStr Sys Frames DeviceManager BackupManager Scheduler App.
Context (E : Env).

Ltac step :=
  cbv beta iota zeta;
  cbn [connections trace files log with_connections with_files].

Lemma sends_of_io new : Forall is_io new -> sends_of new = [].
Proof.
  induction 1 as [|e l He _ IH]; [done|]. destruct e; try done; exact IH.
Qed.

Lemma command_run_output dm name command retry c body out cache :
  command_run dm name command retry c body (Some out) cache ->
  last (sends_of body) = Some (command, Output out).
Proof.
  intros H. inversion H as [| | | |m re c' out' Hr Hm Hs Hre|]; subst; [done|].
  change (sends_of (EvSend c command (SendError m) :: EvDisconnect c
                      :: re ++ [EvSend c' command (Output out)]))
    with ((command, SendError m)
            :: sends_of (re ++ [EvSend c' command (Output out)])).
  rewrite sends_of_app, Hs. done.
Qed.

Lemma find_file_NoDup l f :
  NoDup (map file_name l) -> f ∈ l -> find_file l (file_name f) = Some f.
Proof.
  induction l as [|g l IH]; [by intros _ ?%elem_of_nil|].
  cbn [map find_file]. intros [Hg Hnd]%NoDup_cons [->|Hin]%elem_of_cons.
  - by rewrite String.eqb_refl.
  - destruct (String.eqb_spec (file_name g) (file_name f)) as [Heq|_]; [|by apply IH].
    exfalso. apply Hg. rewrite Heq. apply list_elem_of_fmap. by exists f.
Qed.

(** X28. The manual backup ([POST /api/backup]) never raises, leaves
    other devices' directories alone and never calls the notifier,
    whatever the previous record holds. When it reports the backup as
    done, the file it names is in the device's directory and holds the
    text, not empty, that the device answered last to the capture
    command. When it reports that the store failed, the files of the
    directory are what they were, or differ in one file that holds a
    beginning of that answer; in the other cases they are what they
    were. *)
Theorem manual_backup_never_alerts dm bm (device_name : string) (w : World) :
  plain_name device_name = true ->
  exists r new w',
    backup_device E dm bm device_name w = (Ok r, w')
    /\ trace w' = trace w ++ new
    /\ alerts_of new = []
    /\ (forall other, plain_name other = true -> other <> device_name ->
          lookup_entry (files w') other = lookup_entry (files w) other)
    /\ match r with
       | BackupDone backup_file _ =>
           exists f,
             find_file (directory (files w') device_name) backup_file = Some f
             /\ file_content f <> ""
             /\ last (sends_of new) = Some (backup_command dm, Output (file_content f))
       | BackupStoreFailed =>
           directory (files w') device_name = directory (files w) device_name
           \/ exists config_content t text mtime,
                last (sends_of new) = Some (backup_command dm, Output config_content)
                /\ is_beginning text config_content
                /\ directory (files w') device_name
                   = put_file (directory (files w) device_name)
                       {| file_name := strftime bm key_format t +:+ ".cfg";
                          file_content := text;
                          file_mtime := Some mtime |}
       | _ =>
           directory (files w') device_name = directory (files w) device_name
       end.
Proof.
  intros _. unfold backup_device.
  destruct (String.eqb_spec device_name "") as [->|Hname].
  { exists BackupNameMissing, [], w. unfold ret. by rewrite app_nil_r. }
  unfold get_config.
  destruct (execute_command_spec E dm device_name (backup_command dm) true w)
    as (pre & body & cfg & w1 & He & Ht & Hf & Hpre & Hshape & _).
  destruct (net_get_config E dm device_name w) as (new1 & Ht1 & Hn1 & _).
  unfold get_config in Ht1. rewrite He in Ht1. cbn [snd] in Ht1.
  assert (Hnew1 : new1 = pre ++ body).
  { rewrite Ht in Ht1. by apply app_inv_head in Ht1. }
  unfold bind at 1. rewrite He.
  assert (Ha1 : alerts_of (pre ++ body) = []).
  { rewrite <- Hnew1. by apply alerts_of_network. }
  destruct (truthy cfg) eqn:Htr; cbn [negb].
  2:{ exists BackupCaptureFailed, (pre ++ body), w1. unfold ret.
      split; [done|]. split; [done|].
      split; [done|]. split; [intros other _ _; by rewrite Hf|]. by rewrite Hf. }
  destruct cfg as [out|]; [|done]. cbn [text_of].
  assert (Hout : out <> "").
  { intros ->. done. }
  destruct (backup_config_spec E bm device_name out w1)
    as (r & new2 & w2 & He2 & Ht2 & Hio2 & _ & Hfr2 & Hr2 & _).
  unfold bind at 1. rewrite He2.
  assert (Hsends : last (sends_of (pre ++ body)) = Some (backup_command dm, Output out)).
  { rewrite sends_of_app, Hpre. cbn [app].
    destruct Hshape as [(_ & ? & _)|[c Hrun]]; [done|].
    by eapply command_run_output. }
  destruct r as [key|].
  2:{ exists BackupStoreFailed, ((pre ++ body) ++ new2), w2. unfold ret.
      split; [done|]. split; [by rewrite Ht2, Ht, <- !app_assoc|].
      split. { rewrite alerts_of_app, Ha1, alerts_of_io; done. }
      split; [intros other _ Hne; rewrite Hfr2 by done; by rewrite Hf|].
      destruct Hr2 as [Hr2|(t & text & mtime & Hb & Hl)].
      - left. by rewrite Hr2, Hf.
      - right. exists out, t, text, mtime. split.
        + rewrite sends_of_app, (sends_of_io new2), app_nil_r by done. exact Hsends.
        + split; [done|]. unfold directory at 1. by rewrite Hl, Hf. }
  destruct (get_backup_history_spec E bm device_name w2)
    as (kept & new3 & w3 & He3 & _ & Ht3 & Hio3 & Hf3 & _).
  unfold bind. rewrite He3. unfold ret.
  eexists _, (((pre ++ body) ++ new2) ++ new3), w3.
  split; [reflexivity|]. split; [by rewrite Ht3, Ht2, Ht, <- !app_assoc|].
  split.
  { rewrite (alerts_of_app (_ ++ new2)), (alerts_of_app (pre ++ body)), Ha1,
      !alerts_of_io; done. }
  split; [intros other _ Hne; rewrite Hf3, Hfr2 by done; by rewrite Hf|].
  destruct Hr2 as (t & mtime & -> & Hl).
  eexists. split.
  { rewrite Hf3. unfold directory at 1. rewrite Hl.
    match goal with |- find_file (put_file _ ?f) _ = _ =>
      exact (find_file_put_eq _ f) end. }
  split; [done|]. cbn [file_content].
  rewrite !sends_of_app, (sends_of_io new2), (sends_of_io new3), !app_nil_r by done.
  by rewrite <- sends_of_app.
Qed.

Lemma truthy_text o : truthy o = true -> o = Some (text_of o) /\ text_of o <> "".
Proof.
  destruct o as [s|]; [|done]. cbn. intros H. split; [done|]. intros ->. done.
Qed.

Lemma universal_newlines_empty s : universal_newlines s = "" -> s = "".
Proof.
  destruct s as [|c s]; [done|]. cbn [universal_newlines].
  destruct (c =? cr)%char; [|done]. destruct s as [|d s]; [done|].
  by destruct (d =? lf)%char.
Qed.

(** X29. [GET /api/diff] without the two file names compares the two
    records at the head of the history, the first in the place of the
    old configuration and the second in the place of the new one, each
    as it is read in text mode. With no request to the file system
    failing (and no two files of one name): the route changes nothing in
    the backup tree; the first record is one whose rendered time is, as
    a text, not below that of any record of the directory, the second
    among them, so it is the newest wherever the rendering keeps the
    order of the times; the summary is that of the comparison; the route
    reports too few backups only when fewer than two [.cfg] files have a
    time, and an unreadable backup only when one of the two is empty. *)
Theorem get_diff_default_order (differ : list string -> list string -> list string)
    bm (device_name backup1 backup2 : string) (w : World) (l : list file) :
  device_name <> "" ->
  backup1 = "" \/ backup2 = "" ->
  (forall tr req, env_io_ok E tr req = true) ->
  lookup_entry (files w) device_name = Some (Directory l) ->
  NoDup (map file_name l) ->
  exists r w',
    get_diff E differ bm device_name backup1 backup2 w = (Ok r, w')
    /\ files w' = files w
    /\ match r with
       | DiffDone p1 p2 diff_result summary =>
           exists newest second t1 t2,
             newest ∈ l /\ second ∈ l
             /\ file_name newest = p1 /\ file_name second = p2
             /\ record_time bm newest = Some t1
             /\ record_time bm second = Some t2
             /\ (forall g u, g ∈ l -> is_cfg g = true -> record_time bm g = Some u ->
                   str_lt (strftime bm history_format t1)
                          (strftime bm history_format u) = false
                   /\ ((t1 < u -> str_lt (strftime bm history_format t1)
                                         (strftime bm history_format u) = true) ->
                       u <= t1))
             /\ diff_result
                = DiffEngine.compare_configs differ
                    (universal_newlines (file_content newest))
                    (universal_newlines (file_content second))
             /\ summary = DiffEngine.get_summary diff_result
       | DiffTooFewBackups =>
           (length (omap (record_of bm) (List.filter is_cfg l)) < 2)%nat
       | DiffUnreadable =>
           exists f, f ∈ l /\ is_cfg f = true /\ file_content f = ""
       | DiffNameMissing => False
       end.
Proof.
  intros Hname Hb Hok Hl Hnd. unfold get_diff.
  apply String.eqb_neq in Hname. rewrite Hname.
  assert (Hsel : (backup1 =? "")%string || (backup2 =? "")%string = true).
  { destruct Hb as [->| ->]; [done|]. apply orb_true_r. }
  rewrite Hsel.
  pose proof (history_head E bm device_name w l) as Hhead.
  destruct (get_backup_history_spec E bm device_name w)
    as (kept & new & w1 & He & _ & _ & _ & Hf1 & _ & Hall).
  rewrite (Hall Hok) in He. unfold directory in He. rewrite Hl in He.
  rewrite He in Hhead. cbn [fst] in Hhead.
  pose proof (sort_desc_perm (omap (record_of bm) (List.filter is_cfg l))) as Hperm.
  unfold bind at 1. unfold bind at 1. rewrite He.
  assert (Hlen : length (sort_desc (omap (record_of bm) (List.filter is_cfg l)))
                 = length (omap (record_of bm) (List.filter is_cfg l))).
  { by rewrite Hperm. }
  destruct (sort_desc (omap (record_of bm) (List.filter is_cfg l)))
    as [|x1 [|x2 rest]] eqn:Hh; unfold ret.
  - exists DiffTooFewBackups, w1. split; [done|]. split; [done|]. cbn in Hlen. lia.
  - exists DiffTooFewBackups, w1. split; [done|]. split; [done|]. cbn in Hlen. lia.
  - assert (Hin : forall x, x ∈ x1 :: x2 :: rest ->
              exists f t, record_time bm f = Some t
                          /\ x = {| timestamp := strftime bm history_format t;
                                    file_path := file_name f;
                                    size := utf8_length (file_content f) |}
                          /\ f ∈ l /\ is_cfg f = true).
    { intros x Hx. rewrite Hperm in Hx.
      apply list_elem_of_omap in Hx as (f & Hf & Hrec).
      apply record_of_Some in Hrec as (t & Htime & ->).
      apply list_elem_of_In, filter_In in Hf as [Hf Hc].
      exists f, t. split; [done|]. split; [done|].
      split; [by apply list_elem_of_In|done]. }
    destruct (Hin x1) as (f1 & t1 & Ht1 & -> & Hf1in & Hc1); [by left|].
    destruct (Hin x2) as (f2 & t2 & Ht2 & -> & Hf2in & Hc2); [right; by left|].
    cbn [file_path].
    assert (Hl1 : lookup_entry (files w1) device_name = Some (Directory l))
      by (by rewrite Hf1).
    unfold bind at 1.
    rewrite (get_backup_content_spec E bm device_name (file_name f1) w1 l Hl1).
    rewrite (find_file_NoDup l f1 Hnd Hf1in), Hok.
    set (w2 := log _ w1).
    assert (Hl2 : lookup_entry (files w2) device_name = Some (Directory l))
      by (by subst w2).
    unfold bind at 1.
    rewrite (get_backup_content_spec E bm device_name (file_name f2) w2 l Hl2).
    rewrite (find_file_NoDup l f2 Hnd Hf2in), Hok.
    cbn [truthy text_of].
    destruct (String.eqb_spec (universal_newlines (file_content f1)) "") as [Hc1e|_];
      cbn [negb orb].
    { eexists DiffUnreadable, _. split; [reflexivity|]. split; [by subst w2|].
      exists f1. split; [done|]. split; [done|]. by apply universal_newlines_empty. }
    destruct (String.eqb_spec (universal_newlines (file_content f2)) "") as [Hc2e|_];
      cbn [negb orb].
    { eexists DiffUnreadable, _. split; [reflexivity|]. split; [by subst w2|].
      exists f2. split; [done|]. split; [done|]. by apply universal_newlines_empty. }
    eexists (DiffDone _ _ _ _), _. split; [reflexivity|]. split; [by subst w2|].
    exists f1, f2, t1, t2. repeat (split; [done|]).
    split; [|done].
    intros g u Hg Hgc Hu.
    pose proof (Hhead _ _ Hok Hl eq_refl g u Hg Hgc Hu) as Hge. cbn [timestamp] in Hge.
    split; [exact Hge|]. intros Hmono.
    destruct (Z.le_gt_cases u t1) as [?|Hlt]; [done|].
    rewrite (Hmono Hlt) in Hge. done.
Qed.

End AppFacts.

Section CountFacts.
Import PyStr Sys Frames DeviceManager BackupManager Scheduler.
Context (E : Env).

Lemma pipeline_returns sch (d : string) (w : World) :
  (forall tr dev x, env_alert E tr dev x <> AlertRaised) ->
  exists w', _backup_device E sch d w = (Ok tt, w').
Proof.
  intros Halert. unfold _backup_device, get_config.
  destruct (execute_command_spec E (device_manager sch) d
              (backup_command (device_manager sch)) true w)
    as (pre & body & cfg & w1 & He & _).
  unfold bind at 1. rewrite He.
  destruct (truthy cfg); cbn [negb]; [|by eexists].
  destruct (get_latest_backup_spec E (backup_manager sch) d w1)
    as (latest & w2 & He2 & _).
  unfold bind at 1. rewrite He2.
  destruct (backup_config_spec E (backup_manager sch) d (text_of cfg) w2)
    as (r & new & w3 & He3 & _ & _ & _ & _ & Hr & _).
  unfold bind at 1. rewrite He3.
  destruct r as [key|]; [|by eexists].
  destruct latest as [p|]; [|by eexists].
  destruct Hr as (t & mtime & _ & Hl).
  unfold bind at 1.
  rewrite (get_backup_content_spec E (backup_manager sch) d p w3 _ Hl).
  destruct (find_file _ p) as [f|].
  - destruct (truthy _); [|by eexists].
    destruct (DiffEngine.has_changes _); [|by eexists].
    unfold bind, send_alert, ret.
    match goal with |- context [env_alert E ?tr ?dev ?x] =>
      pose proof (Halert tr dev x); destruct (env_alert E tr dev x) end;
      [by eexists|by eexists|done].
  - cbn [truthy]. by eexists.
Qed.

Lemma backup_loop_counts sch names :
  (forall tr dev x, env_alert E tr dev x <> AlertRaised) ->
  forall s f w,
    exists w', backup_loop E sch names s f w = (Ok ((s + length names)%nat, f), w').
Proof.
  intros Halert. induction names as [|d names IH]; intros s f w.
  - exists w. cbn. by rewrite Nat.add_0_r.
  - cbn [backup_loop]. unfold bind at 1, catch, emit.
    unfold bind at 1. unfold bind at 1.
    destruct (pipeline_returns sch d (log (EvBackupStart d) w) Halert) as [w1 He].
    rewrite He. unfold ret.
    destruct (IH (S s) f w1) as [w' He']. exists w'. rewrite He'.
    do 3 f_equal. cbn [length]. lia.
Qed.

(** X27. The two counters of a full run, when the notifier never
    raises (as [EmailNotifier.send_alert], which catches everything):
    the run returns normally and counts every registered device as a
    success and none as failed, whatever happened to the captures and
    the stores. A pipeline only fails, for the counters, by raising, and
    it gives up on a failed capture or store by returning. *)
Theorem backup_all_devices_counts sch (w : World) :
  (forall tr dev x, env_alert E tr dev x <> AlertRaised) ->
  exists w',
    backup_all_devices E sch w
    = (Ok (match DeviceManager.devices (device_manager sch) with
           | [] => None
           | _ => Some (length (DeviceManager.devices (device_manager sch)), 0%nat)
           end), w').
Proof.
  intros Halert. unfold backup_all_devices.
  destruct (DeviceManager.devices (device_manager sch)) as [|d0 ds] eqn:Hd;
    [by eexists|].
  cbn [map]. set (names := _ :: _).
  destruct (backup_loop_counts sch names Halert 0%nat 0%nat w) as [w1 He].
  unfold bind at 1. rewrite He.
  destruct (guarded_cleanup E sch w1) as (ev & w2 & Hc & _).
  unfold bind at 1. rewrite Hc. unfold ret. exists w2.
  subst names. cbn [length]. by rewrite length_map.
Qed.


End CountFacts.

Section RetentionFacts.
Import PyStr Sys Frames BackupManager.
Context (E : Env).

Lemma about_stat d f ok : about_device d (EvIo (IoStat d f) ok).
Proof. by eexists _, _. Qed.

Lemma about_remove d f ok : about_device d (EvIo (IoRemove d f) ok).
Proof. by eexists _, _. Qed.

Lemma about_listdir d ok : about_device d (EvIo (IoListdir d) ok).
Proof. by eexists _, _. Qed.

Lemma prune_trace_app d r n1 n2 :
  prune_trace d (Ok tt) n1 -> prune_trace d r n2 -> prune_trace d r (n1 ++ n2).
Proof.
  intros [Ha1 Hf1] [Ha2 Hf2]. split; [by apply Forall_app|].
  destruct r as [u|].
  - by apply Forall_app.
  - destruct Hf2 as (pre & e & -> & Hpre). exists (n1 ++ pre), e.
    split; [by rewrite app_assoc|]. by apply Forall_app.
Qed.

Lemma remove_run d f w :
  exists (ok : bool) w',
    remove E d f w = ((if ok then Ok tt else Raised), w')
    /\ trace w' = trace w ++ [EvIo (IoRemove d f) ok].
Proof.
  unfold remove, bind, io, tree, get, set_directory, modify, raise.
  destruct (env_io_ok E (trace w) (IoRemove d f)) eqn:Hok.
  - by exists true; eexists.
  - by exists false; eexists.
Qed.

Lemma cleanup_file_run bm d cutoff f w :
  exists new,
    trace (cleanup_file E bm d cutoff f w).2 = trace w ++ new
    /\ prune_trace d (cleanup_file E bm d cutoff f w).1 new.
Proof.
  assert (Hh : forall w0,
    exists new,
      trace ((ok <- io E (IoStat d (file_name f)) ;;
              if negb ok then raise
              else match file_mtime f with
                   | None => raise
                   | Some mtime =>
                       if mtime <? cutoff then remove E d (file_name f) else ret tt
                   end) w0).2 = trace w0 ++ new
      /\ prune_trace d
           ((ok <- io E (IoStat d (file_name f)) ;;
             if negb ok then raise
             else match file_mtime f with
                  | None => raise
                  | Some mtime =>
                      if mtime <? cutoff then remove E d (file_name f) else ret tt
                  end) w0).1 new).
  { intros w0. unfold bind, io. cbv beta iota zeta.
    destruct (env_io_ok E (trace w0) _) eqn:Hok; cbn [negb].
    2:{ exists [EvIo (IoStat d (file_name f)) false]. split; [done|].
        split; [repeat constructor; apply about_stat|].
        exists [], (EvIo (IoStat d (file_name f)) false). by split. }
    destruct (file_mtime f) as [mtime|].
    2:{ exists [EvIo (IoStat d (file_name f)) true]. split; [done|].
        split; [repeat constructor; apply about_stat|].
        exists [], (EvIo (IoStat d (file_name f)) true). by split. }
    destruct (mtime <? cutoff).
    - destruct (remove_run d (file_name f) (log (EvIo (IoStat d (file_name f)) true) w0))
        as (ok & w' & -> & Ht).
      exists [EvIo (IoStat d (file_name f)) true; EvIo (IoRemove d (file_name f)) ok].
      split; [cbn [snd]; rewrite Ht; cbn [trace log]; by rewrite <- app_assoc|].
      split; [repeat constructor; [apply about_stat|apply about_remove]|].
      destruct ok; cbn [fst].
      + repeat constructor; by intros [].
      + exists [EvIo (IoStat d (file_name f)) true], (EvIo (IoRemove d (file_name f)) false).
        split; [done|]. repeat constructor. by intros [].
    - exists [EvIo (IoStat d (file_name f)) true]. split; [done|].
      split; [repeat constructor; apply about_stat|].
      repeat constructor. by intros []. }
  unfold cleanup_file.
  destruct (endswith ".cfg" (file_name f)).
  2:{ exists []. split; [by rewrite app_nil_r|]. split; constructor. }
  unfold catch.
  destruct (strptime bm _ key_format) as [ts|].
  - destruct (ts <? cutoff).
    + destruct (remove_run d (file_name f) w) as (ok & w' & -> & Ht).
      destruct ok.
      * exists [EvIo (IoRemove d (file_name f)) true]. split; [done|].
        split; [repeat constructor; apply about_remove|].
        repeat constructor. by intros [].
      * destruct (Hh w') as (new & Htr & Hev).
        exists ([EvIo (IoRemove d (file_name f)) false] ++ new).
        split; [by rewrite Htr, Ht, <- app_assoc|].
        apply prune_trace_app; [|done].
        split; repeat constructor; [apply about_remove|by intros []].
    + exists []. split; [by rewrite app_nil_r|]. split; constructor.
  - unfold raise at 1. apply Hh.
Qed.

Lemma cleanup_files_run bm d cutoff l : forall w,
  exists new,
    trace (cleanup_files E bm d cutoff l w).2 = trace w ++ new
    /\ prune_trace d (cleanup_files E bm d cutoff l w).1 new.
Proof.
  induction l as [|f l IH]; intros w; cbn [cleanup_files].
  - exists []. split; [by rewrite app_nil_r|]. split; constructor.
  - unfold bind.
    destruct (cleanup_file_run bm d cutoff f w) as (n1 & Ht1 & He1).
    destruct (cleanup_file E bm d cutoff f w) as [[[]|] w1]; cbn [fst snd] in *.
    + destruct (IH w1) as (n2 & Ht2 & He2). exists (n1 ++ n2).
      split; [by rewrite Ht2, Ht1, <- app_assoc|]. by apply prune_trace_app.
    + by exists n1.
Qed.

Lemma cleanup_device_run bm cutoff d w :
  exists new,
    trace (cleanup_device E bm cutoff d w).2 = trace w ++ new
    /\ prune_trace d (cleanup_device E bm cutoff d w).1 new.
Proof.
  unfold cleanup_device, tree. unfold bind at 1 3, get at 1 2. cbv beta iota zeta.
  destruct (lookup_entry (files w) d) as [[|l]|];
    try (exists []; split; [by rewrite app_nil_r|]; split; constructor).
  unfold bind, io.
  destruct (env_io_ok E (trace w) (IoListdir d)) eqn:Hok; cbn [negb].
  - destruct (cleanup_files_run bm d cutoff l (log (EvIo (IoListdir d) true) w))
      as (new & Ht & He).
    exists ([EvIo (IoListdir d) true] ++ new).
    split; [rewrite Ht; cbn [trace log]; by rewrite <- app_assoc|].
    apply prune_trace_app; [|done].
    split; repeat constructor; [apply about_listdir|by intros []].
  - exists [EvIo (IoListdir d) false]. split; [done|].
    split; [repeat constructor; apply about_listdir|].
    exists [], (EvIo (IoListdir d) false). by split.
Qed.

Lemma cleanup_devices_run bm cutoff devs : forall w,
  exists new,
    trace (cleanup_devices E bm cutoff devs w).2 = trace w ++ new
    /\ (forall dev, dev ∉ devs ->
          lookup_entry (files (cleanup_devices E bm cutoff devs w).2) dev
          = lookup_entry (files w) dev)
    /\ match (cleanup_devices E bm cutoff devs w).1 with
       | Ok _ => Forall (fun e => ~ fatal_failure e) new
       | Raised =>
           exists done d rest pre e,
             devs = done ++ d :: rest
             /\ new = pre ++ [e]
             /\ Forall (fun e => ~ fatal_failure e) pre
             /\ about_device d e
             /\ forall dev, dev ∉ done ++ [d] ->
                  lookup_entry (files (cleanup_devices E bm cutoff devs w).2) dev
                  = lookup_entry (files w) dev
       end.
Proof.
  induction devs as [|d devs IH]; intros w; cbn [cleanup_devices].
  - exists []. split; [by rewrite app_nil_r|]. split; [done|]. constructor.
  - unfold bind.
    destruct (cleanup_device_run bm cutoff d w) as (n1 & Ht1 & Ha1 & He1).
    destruct (store_cleanup_device E bm cutoff d w) as (_ & _ & _ & _ & Hfr).
    destruct (cleanup_device E bm cutoff d w) as [[[]|] w1]; cbn [fst snd] in *.
    + destruct (IH w1) as (n2 & Ht2 & Hout & He2). exists (n1 ++ n2).
      split; [by rewrite Ht2, Ht1, <- app_assoc|]. split.
      { intros dev [Hd Hdev]%not_elem_of_cons. by rewrite (Hout dev Hdev), (Hfr dev Hd). }
      destruct (cleanup_devices E bm cutoff devs w1) as [[[]|] w2]; cbn [fst snd] in *.
      * by apply Forall_app.
      * destruct He2 as (done & d' & rest & pre & e & -> & -> & Hpre & Hab & Hrest).
        exists (d :: done), d', rest, (n1 ++ pre), e.
        split; [done|]. split; [by rewrite app_assoc|].
        split; [by apply Forall_app|]. split; [done|].
        intros dev Hdev. cbn [app] in Hdev.
        apply not_elem_of_cons in Hdev as [Hd Hdev].
        by rewrite (Hrest dev Hdev), (Hfr dev Hd).
    + exists n1. split; [done|]. split.
      { intros dev [Hd _]%not_elem_of_cons. by apply Hfr. }
      destruct He1 as (pre & e & -> & Hpre).
      exists [], d, devs, pre, e. split; [done|]. split; [done|]. split; [done|].
      split.
      { apply Forall_app in Ha1 as [_ Ha1]. by inversion Ha1. }
      intros dev Hdev. apply Hfr. intros ->. apply Hdev. by left.
Qed.

Lemma fatal_is_last (pre' : list event) e' pre e post :
  Forall (fun e => ~ fatal_failure e) pre' ->
  pre' ++ [e'] = pre ++ e :: post ->
  fatal_failure e ->
  post = [].
Proof.
  intros Hpre Heq Hf.
  destruct post as [|z post _] using rev_ind; [done|]. exfalso.
  rewrite app_comm_cons, app_assoc in Heq.
  apply app_inj_tail in Heq as [-> _].
  apply Forall_app in Hpre as [_ Hpre]. inversion Hpre as [|? ? Hn _]. by apply Hn.
Qed.

(** C8 (as amended). Pruning of all devices. When no request to the file
    system fails, every record of the tree has a time (its name holds
    one, or its modification time can be read) and the cutoff, the
    current time less the retention period, is a time a datetime can
    hold: pruning returns normally and leaves, in every device's
    directory, exactly the records that are not expired, a record being
    removed if and only if its name ends in [.cfg] and its time (parsed
    from the name, or else the file's modification time) is before the
    cutoff; and the outcome per device is the same whatever order the
    backup directory lists the devices in. In any environment: a failed
    listing, of the backup directory or of a device's, or a failed
    reading of a file's status, is the last event of the run, which
    raises; and a run that raises either has touched no file (the backup
    directory could not be listed, or the cutoff is no datetime), or has
    stopped at a request about one device [d], and then no device listed
    after [d] had anything removed. *)
Theorem cleanup_removes_expired bm (w : World) :
  wf_tree (files w) ->
  ((forall tr req, env_io_ok E tr req = true) ->
   timed_tree bm (files w) ->
   forall cutoff_date,
     minus_days (env_now E (trace w ++ [EvIo IoListroot true])) (retention_days bm)
     = Some cutoff_date ->
     exists w',
       cleanup_old_backups E bm None w = (Ok tt, w')
       /\ (forall dev,
             directory (files w') dev
             = List.filter (fun f => negb (expired bm cutoff_date f))
                           (directory (files w) dev))
       /\ (forall w2,
             trace w2 = trace w -> Permutation (files w) (files w2) ->
             exists w2',
               cleanup_old_backups E bm None w2 = (Ok tt, w2')
               /\ forall dev, directory (files w2') dev = directory (files w') dev))
  /\ (forall r w',
        cleanup_old_backups E bm None w = (r, w') ->
        exists new,
          trace w' = trace w ++ new
          /\ (forall pre e post,
                new = pre ++ e :: post -> fatal_failure e ->
                r = Raised /\ post = [])
          /\ (r = Raised ->
              (files w' = files w
               /\ (new = [EvIo IoListroot false]
                   \/ minus_days (env_now E (trace w ++ [EvIo IoListroot true]))
                                 (retention_days bm) = None))
              \/ exists done d rest req ok,
                   map fst (files w) = done ++ d :: rest
                   /\ last new = Some (EvIo req ok)
                   /\ request_device req = Some d
                   /\ forall dev, dev ∉ done ++ [d] ->
                        lookup_entry (files w') dev = lookup_entry (files w) dev)).
Proof.
  intros Hwf. split.
  - intros Hok Htimed cutoff_date Hcut.
    destruct (cleanup_all_ok E Hok bm w cutoff_date Hwf Htimed Hcut) as (w' & He & Hl).
    exists w'. split; [done|]. split.
    + intros dev. by apply directory_pruned.
    + intros w2 Htr Hp.
      assert (Htimed2 : timed_tree bm (files w2)).
      { intros dev l f Hin. apply (Htimed dev l f).
        eapply Permutation_in; [apply Permutation_sym, Hp|done]. }
      destruct (cleanup_all_ok E Hok bm w2 cutoff_date (wf_tree_perm _ _ Hwf Hp) Htimed2)
        as (w2' & He2 & Hl2); [by rewrite Htr|].
      exists w2'. split; [done|]. intros dev.
      rewrite (directory_pruned bm cutoff_date (files w) (files w') dev) by apply Hl.
      rewrite (directory_pruned bm cutoff_date (files w2) (files w2') dev) by apply Hl2.
      unfold directory.
      by rewrite (lookup_entry_perm (files w) (files w2) dev (proj1 Hwf) Hp).
  - intros r w'. unfold cleanup_old_backups, listdir_root.
    unfold bind at 1. unfold bind at 1. unfold io at 1.
    destruct (env_io_ok E (trace w) IoListroot) eqn:Hroot.
    2:{ unfold raise at 1. intros [= <- <-]. exists [EvIo IoListroot false].
        split; [done|]. split.
        - intros pre e post Heq _. split; [done|].
          destruct pre as [|? pre]; [by injection Heq|].
          injection Heq as _ Heq. by destruct pre.
        - intros _. left. split; [done|]. by left. }
    unfold bind at 1, tree at 1, get at 1, ret at 1.
    unfold bind at 1, now at 1, get at 1. cbv beta iota zeta. cbn [trace log files].
    destruct (minus_days _ _) as [cutoff|] eqn:Hcut.
    2:{ unfold raise at 1. intros [= <- <-]. exists [EvIo IoListroot true].
        split; [done|]. split.
        - intros pre e post Heq Hf. exfalso.
          destruct pre as [|? pre]; [injection Heq as <- _; done|].
          injection Heq as _ Heq. by destruct pre.
        - intros _. left. split; [done|]. by right. }
    destruct (cleanup_devices_run bm cutoff (map fst (files w))
                (log (EvIo IoListroot true) w)) as (new & Ht & Hout & Hev).
    intros Hrun. rewrite Hrun in Ht, Hout, Hev. cbn [fst snd trace log files] in *.
    exists (EvIo IoListroot true :: new).
    split; [rewrite Ht; by rewrite <- app_assoc|].
    destruct r as [[]|].
    + split; [|done]. intros pre e post Heq Hf. exfalso.
      assert (Hall : Forall (fun e => ~ fatal_failure e) (EvIo IoListroot true :: new)).
      { constructor; [by intros []|done]. }
      rewrite Heq in Hall. apply Forall_app in Hall as [_ Hall].
      inversion Hall as [|? ? Hn _]. by apply Hn.
    + destruct Hev as (done & d & rest & pre0 & e0 & Hdevs & -> & Hpre & Hab & Hrest).
      split.
      * intros pre e post Heq Hf. split; [done|].
        apply (fatal_is_last (EvIo IoListroot true :: pre0) e0 pre e post);
          [constructor; [by intros []|done]|done|done].
      * intros _. right. destruct Hab as (req & ok & -> & Hreq).
        exists done, d, rest, req, ok. split; [done|]. split; [|done].
        rewrite app_comm_cons. by rewrite last_snoc.
Qed.

End RetentionFacts.

Section SummaryFacts.
Import PyStr DiffEngine.

Lemma digits_prefix_unique d1 : forall d2 t1 t2,
  all_digits d1 = true -> all_digits d2 = true ->
  d1 +:+ String " " t1 = d2 +:+ String " " t2 ->
  d1 = d2 /\ t1 = t2.
Proof.
  induction d1 as [|c d1 IH]; intros [|c2 d2] t1 t2 H1 H2 Heq.
  - cbn in Heq. by injection Heq.
  - cbn in Heq, H2. injection Heq as <- _. done.
  - cbn in Heq, H1. injection Heq as -> _. done.
  - cbn [all_digits] in H1, H2. apply andb_prop in H1 as [_ H1], H2 as [_ H2].
    change (String c (d1 +:+ String " " t1) = String c2 (d2 +:+ String " " t2)) in Heq.
    injection Heq as -> Heq. destruct (IH _ _ _ H1 H2 Heq) as [-> ->]. done.
Qed.

Lemma pretty_nat_digits (n : nat) : all_digits (pretty n) = true.
Proof. apply (pretty_N_numeral (N.of_nat n)). Qed.

(** X6. The summary text determines what it summarises: two results
    with the same summary agree on the change flag and, when changed, on
    the number of added and of removed lines. *)
Theorem get_summary_tells_counts (a b : DiffResult) :
  get_summary a = get_summary b ->
  has_changes a = has_changes b
  /\ (has_changes a = true ->
      added_lines a = added_lines b /\ removed_lines a = removed_lines b).
Proof.
  unfold get_summary.
  destruct (has_changes a), (has_changes b); cbn [negb]; intros Heq;
    [|discriminate Heq|discriminate Heq|done].
  split; [done|]. intros _.
  apply (inj (String.append "新增 ")) in Heq.
  change (" 行, 删除 " +:+ ?x) with (String " " ("行, 删除 " +:+ x)) in Heq.
  apply digits_prefix_unique in Heq as [Ha Hr]; [|apply pretty_nat_digits..].
  apply (inj pretty) in Ha. split; [done|].
  apply (inj (String.append "行, 删除 ")) in Hr.
  change (" 行") with (String " " "行") in Hr.
  apply digits_prefix_unique in Hr as [Hr _]; [|apply pretty_nat_digits..].
  by apply (inj pretty) in Hr.
Qed.

End SummaryFacts.

Section Examples.
Import PyStr Sys Samples DeviceManager BackupManager Scheduler.

(** C4 at a device that never answers: three attempts, sleeps of two
    and four seconds. *)
Lemma connect_linear_backoff_witness :
  0 < retry_delay dm
  /\ exists k new r w',
       connect (r1_down "hostname R2") dm "R1" None fresh = (Ok r, w')
       /\ trace w' = trace fresh ++ new
       /\ length (opens_of new) = k
       /\ (k <= budget dm None)%nat
       /\ budget (init (devices dm) (backup_command dm)) None = 3%nat
       /\ timing new = backoff (retry_delay dm) 1 k
       /\ sleeps_of new = map (fun j => retry_delay dm * Z.of_nat j) (seq 1 (k - 1))
       /\ StronglySorted Z.lt (sleeps_of new)
       /\ (is_Some (lookup_device (devices dm) "R1") ->
           k = budget dm None \/ is_Some r
           \/ last (opens_of new) = Some AuthRejected)
       /\ (forall info,
             lookup_device (devices dm) "R1" = Some info ->
             connect_run (retry_delay dm) info (budget dm None)
               (connections fresh !! "R1") new r)
       /\ (is_Some (lookup_device (devices dm) "R1") ->
           r = None -> rejections new = [] -> k = budget dm None).
Proof.
  split; [reflexivity|].
  apply (connect_linear_backoff (r1_down "hostname R2") dm "R1" None fresh);
    reflexivity.
Defined.

(** C1, counterexample. The first send fails with an error that is not
    connection-class, retry being allowed: the call returns [None] after
    that one send, and the session is still in the cache. *)
Lemma execute_command_keeps_session_after_command_error :
  let run := execute_command command_error dm "R1" "show running-config" true fresh in
  run.1 = Ok None
  /\ sends_of (trace run.2)
     = [("show running-config",
         SendError "Search pattern never detected in send_command_expect: R1#")]
  /\ is_connection_error "Search pattern never detected in send_command_expect: R1#" = false
  /\ connections run.2 !! "R1" = Some {| conn_peer := r1; conn_serial := 0 |}.
Proof. vm_compute. repeat split. Qed.

(** C8, counterexample. Listing R1 fails: pruning raises there, and the
    expired record of R2, next in line, is still in place. *)
Lemma cleanup_stops_at_unlistable_directory :
  let run := cleanup_old_backups r1_unlistable bm None stocked in
  let cutoff_date := 63837408001000000 in
  minus_days (env_now r1_unlistable (trace stocked ++ [EvIo IoListroot true]))
             (retention_days bm) = Some cutoff_date
  /\ run.1 = Raised
  /\ expired bm cutoff_date (old_record "hostname R2") = true
  /\ directory (files run.2) "R2"
     = [old_record "hostname R2"; recent_record "hostname R2"].
Proof. vm_compute. repeat split. Qed.

(** C8 on a tree of two devices, each with one expired and one recent
    record. *)
Lemma cleanup_removes_expired_witness :
  let cutoff_date := 63837408001000000 in
  wf_tree (files stocked)
  /\ (forall tr req, env_io_ok (calm "") tr req = true)
  /\ timed_tree bm (files stocked)
  /\ minus_days (env_now (calm "") (trace stocked ++ [EvIo IoListroot true]))
                (retention_days bm) = Some cutoff_date
  /\ exists w',
       cleanup_old_backups (calm "") bm None stocked = (Ok tt, w')
       /\ (forall dev,
             directory (files w') dev
             = List.filter (fun f => negb (expired bm cutoff_date f))
                           (directory (files stocked) dev))
       /\ (forall w2,
             trace w2 = trace stocked -> Permutation (files stocked) (files w2) ->
             exists w2',
               cleanup_old_backups (calm "") bm None w2 = (Ok tt, w2')
               /\ forall dev, directory (files w2') dev = directory (files w') dev).
Proof.
  intros cutoff_date.
  assert (Hio : forall tr req, env_io_ok (calm "") tr req = true) by reflexivity.
  assert (Hwf : wf_tree (files stocked)).
  { split.
    - exact (bool_decide_unpack (NoDup ["R1"; "R2"]) I).
    - intros dev l [[= <- <-]|[[= <- <-]|[]]];
        exact (bool_decide_unpack (NoDup ["1000.cfg"; "63839999000000000.cfg"]) I). }
  assert (Htimed : timed_tree bm (files stocked)).
  { intros dev l f [[= <- <-]|[[= <- <-]|[]]] [<-|[<-|[]]] _; by eexists. }
  assert (Hcut : minus_days (env_now (calm "") (trace stocked ++ [EvIo IoListroot true]))
                            (retention_days bm) = Some cutoff_date) by reflexivity.
  split; [exact Hwf|]. split; [exact Hio|]. split; [exact Htimed|].
  split; [exact Hcut|].
  exact (proj1 (cleanup_removes_expired (calm "") bm stocked Hwf)
           Hio Htimed cutoff_date Hcut).
Defined.

(** C6 at a run of R1 whose capture differs from the latest of the two
    records it holds: a third record is stored and the alert is sent. *)
Lemma backup_device_stores_and_alerts_witness :
  let cfg := "hostname R1-core" in
  let key := "63840000006000000.cfg" in
  let E := calm cfg in
  let cap := get_config E dm "R1" stocked in
  let look := get_latest_backup E bm "R1" cap.2 in
  let store := backup_config E bm "R1" cfg look.2 in
  plain_name "R1" = true
  /\ cap.1 = Ok (Some cfg) /\ cfg <> "" /\ store.1 = Ok (Some key)
  /\ find_file (directory (files stocked) "R1") key = None
  /\ look.1 = Ok (Some "63839999000000000.cfg")
  /\ alerts_of (trace (_backup_device E sch "R1" stocked).2)
     = [("R1", DiffEngine.compare_configs (differ sch) "hostname R1" cfg)]
  /\ exists latest r w' new t,
       look.1 = Ok latest
       /\ _backup_device E sch "R1" stocked = (r, w')
       /\ trace w' = trace stocked ++ new
       /\ directory (files w') "R1"
          = directory (files stocked) "R1"
            ++ [{| file_name := key; file_content := cfg; file_mtime := Some t |}]
       /\ (forall other, plain_name other = true -> other <> "R1" ->
             lookup_entry (files w') other = lookup_entry (files stocked) other)
       /\ alerts_of new
          = match latest with
            | Some p =>
                match find_file (directory (files stocked) "R1") p with
                | Some f =>
                    let old_config := universal_newlines (file_content f) in
                    let diff_result :=
                      DiffEngine.compare_configs (differ sch) old_config cfg in
                    if env_io_ok E (trace store.2) (IoRead "R1" p)
                       && negb (old_config =? "")%string
                       && DiffEngine.has_changes diff_result
                    then [("R1", diff_result)]
                    else []
                | None => []
                end
            | None => []
            end
       /\ (directory (files stocked) "R1" = [] -> alerts_of new = [])
       /\ (forall p f, latest = Some p ->
             find_file (directory (files stocked) "R1") p = Some f ->
             universal_newlines (file_content f) = cfg -> alerts_of new = [])
       /\ (forall p f, latest = Some p ->
             find_file (directory (files stocked) "R1") p = Some f ->
             file_content f = cfg -> contains (String cr "") cfg = false ->
             alerts_of new = []).
Proof.
  intros cfg key E cap look store.
  assert (H0 : plain_name "R1" = true) by reflexivity.
  assert (H1 : cap.1 = Ok (Some cfg)) by (vm_compute; reflexivity).
  assert (H2 : cfg <> "") by discriminate.
  assert (H3 : store.1 = Ok (Some key)) by (vm_compute; reflexivity).
  assert (H4 : find_file (directory (files stocked) "R1") key = None) by reflexivity.
  split; [exact H0|]. split; [exact H1|]. split; [exact H2|]. split; [exact H3|].
  split; [exact H4|]. split; [vm_compute; reflexivity|].
  split; [vm_compute; reflexivity|].
  exact (backup_device_stores_and_alerts E sch "R1" stocked cfg key H0 H1 H2 H3 H4).
Defined.

(** C6, counterexample. The capture of R1 differs from its latest record
    and is stored under the key of that record (same second): capture
    and store succeed, the directory still holds one record, and no alert
    is sent, the content read back as baseline being the new one. *)
Lemma backup_device_overwrites_on_same_key :
  let cfg := "hostname R1-core" in
  let E := calm cfg in
  let cap := get_config E dm "R1" colliding in
  let look := get_latest_backup E bm "R1" cap.2 in
  let store := backup_config E bm "R1" cfg look.2 in
  let run := _backup_device E sch "R1" colliding in
  cap.1 = Ok (Some cfg)
  /\ look.1 = Ok (Some "63840000005000000.cfg")
  /\ store.1 = Ok (Some "63840000005000000.cfg")
  /\ map file_content (directory (files colliding) "R1") = ["hostname R1"]
  /\ DiffEngine.has_changes
       (DiffEngine.compare_configs (differ sch) "hostname R1" cfg) = true
  /\ map file_name (directory (files run.2) "R1") = ["63840000005000000.cfg"]
  /\ alerts_of (trace run.2) = [].
Proof. vm_compute. repeat split. Qed.

(** Two runs of R1 with the same capture, which holds a carriage
    return: the second run stores a second record with the same bytes
    and alerts, the record read back for the comparison having its line
    ends as LF. *)
Lemma backup_device_alerts_on_carriage_return :
  let cfg := "hostname R1" +:+ String cr (String lf "interface Vlan1") in
  let E := calm cfg in
  let first := _backup_device E sch "R1" fresh in
  let second := _backup_device E sch "R1" first.2 in
  first.1 = Ok tt /\ second.1 = Ok tt
  /\ map file_content (directory (files second.2) "R1") = [cfg; cfg]
  /\ alerts_of (trace first.2) = []
  /\ alerts_of (trace second.2)
     = [("R1", DiffEngine.compare_configs (differ sch) (universal_newlines cfg) cfg)]
  /\ DiffEngine.has_changes
       (DiffEngine.compare_configs (differ sch) (universal_newlines cfg) cfg) = true.
Proof. vm_compute. repeat split. Qed.

(** C10 at a device that answers the capture command with the empty
    text. *)
Lemma empty_capture_is_capture_failure_witness :
  let E := calm "" in
  let w1 := (get_config E (device_manager sch) "R1" fresh).2 in
  get_config E (device_manager sch) "R1" fresh = (Ok (Some ""), w1)
  /\ _backup_device E sch "R1" fresh = (Ok tt, w1)
  /\ files w1 = files fresh
  /\ (exists new, trace w1 = trace fresh ++ new /\ io_of new = [] /\ alerts_of new = [])
  /\ (forall w0 w0',
        get_config E (device_manager sch) "R1" w0 = (Ok None, w0') ->
        _backup_device E sch "R1" w0 = (Ok tt, w0')).
Proof.
  intros E w1.
  assert (H : get_config E (device_manager sch) "R1" fresh = (Ok (Some ""), w1))
    by (vm_compute; reflexivity).
  split; [exact H|].
  exact (empty_capture_is_capture_failure E sch "R1" fresh w1 H).
Defined.

(** C7 on the two sample devices, R1 being down. *)
Lemma backup_all_devices_isolates_witness :
  let E := r1_down "hostname R2" in
  let names := map fst (DeviceManager.devices (device_manager sch)) in
  NoDup names
  /\ Forall (fun d => plain_name d = true) names
  /\ exists counts w_loop loop_events,
       backup_loop E sch names 0 0 fresh = (Ok counts, w_loop)
       /\ trace w_loop = trace fresh ++ loop_events
       /\ started_of loop_events = names
       /\ Forall (fun e => e <> EvCleanupStart) loop_events
       /\ (counts.1 + counts.2 = length names)%nat
       /\ (forall d, In d names -> isolated E sch d fresh w_loop)
       /\ (forall d info cfg,
             In d names -> healthy E sch d info cfg ->
             (forall c, connections fresh !! d = Some c -> conn_peer c = info) ->
             lookup_entry (files fresh) d <> Some NotADirectory ->
             exists f, In f (directory (files w_loop) d) /\ file_content f = cfg)
       /\ match names with
          | [] => backup_all_devices E sch fresh = (Ok None, fresh)
          | _ =>
              exists w' prune_events,
                backup_all_devices E sch fresh = (Ok (Some counts), w')
                /\ trace w' = trace w_loop ++ EvCleanupStart :: prune_events
                /\ Forall is_io prune_events
          end.
Proof.
  intros E names.
  assert (H : NoDup names) by exact (bool_decide_unpack (NoDup ["R1"; "R2"]) I).
  assert (Hp : Forall (fun d => plain_name d = true) names)
    by (repeat constructor).
  split; [exact H|]. split; [exact Hp|].
  exact (backup_all_devices_isolates E sch fresh H Hp).
Defined.

(** With R1 down and R2 answering, a full run leaves R1 without any
    record and R2 with its capture, and R2 passes as healthy. *)
Lemma full_run_with_one_device_down :
  let E := r1_down "hostname R2" in
  let run := backup_all_devices E sch fresh in
  run.1 = Ok (Some (2%nat, 0%nat))
  /\ started_of (trace run.2) = ["R1"; "R2"]
  /\ directory (files run.2) "R1" = []
  /\ map file_content (directory (files run.2) "R2") = ["hostname R2"]
  /\ healthy E sch "R2" r2 "hostname R2".
Proof.
  split; [vm_compute; reflexivity|]. split; [vm_compute; reflexivity|].
  split; [vm_compute; reflexivity|]. split; [vm_compute; reflexivity|].
  repeat split; try done. cbn. lia.
Qed.

(** C5, counterexample. A timeout followed by a rejection: an
    authentication rejection occurs, and the call has made two attempts
    and slept once; the rejected attempt is its last event. *)
Lemma rejection_after_timeout :
  let run := connect timeout_then_rejected dm "R1" None fresh in
  run.1 = Ok None
  /\ opens_of (trace run.2) = [TimedOut; AuthRejected]
  /\ sleeps_of (trace run.2) = [2]
  /\ last (trace run.2) = Some (EvOpen r1 AuthRejected).
Proof. vm_compute. repeat split. Qed.

End Examples.

Section MoreExamples.
Import PyStr Sys Samples DeviceManager BackupManager Scheduler DiffEngine Config App.

Lemma compare_configs_ignores_padding_witness :
  let p := newline +:+ "  " in
  let q := " " +:+ newline in
  all_space p = true
  /\ all_space q = true
  /\ compare_configs unified_diff_headers (p +:+ "hostname R1" +:+ q) "hostname R2"
     = compare_configs unified_diff_headers "hostname R1" "hostname R2"
  /\ compare_configs unified_diff_headers "hostname R2" (p +:+ "hostname R1" +:+ q)
     = compare_configs unified_diff_headers "hostname R2" "hostname R1".
Proof.
  split; [reflexivity|]. split; [reflexivity|].
  apply (compare_configs_ignores_padding unified_diff_headers); reflexivity.
Defined.

Lemma compare_configs_volatile_lines_witness :
  let old_config := ntp_capture "17179860" in
  let new_config := ntp_capture "17179999" in
  let pre := ["hostname R1" +:+ newline] in
  let post := ["interface Vlan1"] in
  let vs1 := ["ntp clock-period 17179860" +:+ newline] in
  let vs2 := ["ntp clock-period 17179999" +:+ newline] in
  splitlines true (strip old_config) = pre ++ vs1 ++ post
  /\ splitlines true (strip new_config) = pre ++ vs2 ++ post
  /\ forallb is_volatile vs1 = true
  /\ forallb is_volatile vs2 = true
  /\ old_config <> new_config
  /\ compare_configs unified_diff_headers old_config new_config = no_changes.
Proof.
  split; [reflexivity|]. split; [reflexivity|]. split; [reflexivity|].
  split; [reflexivity|]. split; [discriminate|].
  apply (compare_configs_volatile_lines unified_diff_headers
           (ntp_capture "17179860") (ntp_capture "17179999")
           ["hostname R1" +:+ newline]
           ["ntp clock-period 17179860" +:+ newline]
           ["ntp clock-period 17179999" +:+ newline]
           ["interface Vlan1"]); reflexivity.
Defined.

Lemma compare_configs_flag_equivalence_witness :
  let a := "hostname R1" in
  let b := ntp_capture "17179860" in
  let c := ntp_capture "17179999" in
  (forall x y : list string,
      x <> y -> strip (concat (unified_diff_headers x y)) <> "")
  /\ has_changes (compare_configs unified_diff_headers a b)
     = negb (filtered_text a =? filtered_text b)%string
  /\ has_changes (compare_configs unified_diff_headers a b)
     = has_changes (compare_configs unified_diff_headers b a)
  /\ (has_changes (compare_configs unified_diff_headers a b) = false ->
      has_changes (compare_configs unified_diff_headers b c) = false ->
      has_changes (compare_configs unified_diff_headers a c) = false).
Proof.
  assert (H : forall x y : list string,
             x <> y -> strip (concat (unified_diff_headers x y)) <> "").
  { intros x y Hne. unfold unified_diff_headers.
    destruct (decide (x = y)); [done|discriminate]. }
  split; [exact H|].
  exact (compare_configs_flag_equivalence unified_diff_headers
           "hostname R1" (ntp_capture "17179860") (ntp_capture "17179999") H).
Defined.

Lemma get_summary_tells_counts_witness :
  let a := {| has_changes := true; diff := "+a"; added_lines := 12;
              removed_lines := 3; modified_lines := 0 |} in
  let b := {| has_changes := true; diff := "+b"; added_lines := 12;
              removed_lines := 3; modified_lines := 0 |} in
  get_summary a = get_summary b
  /\ has_changes a = has_changes b
  /\ (has_changes a = true ->
      added_lines a = added_lines b /\ removed_lines a = removed_lines b).
Proof.
  split; [reflexivity|].
  apply (get_summary_tells_counts
           {| has_changes := true; diff := "+a"; added_lines := 12;
              removed_lines := 3; modified_lines := 0 |}
           {| has_changes := true; diff := "+b"; added_lines := 12;
              removed_lines := 3; modified_lines := 0 |}).
  reflexivity.
Defined.

Lemma connect_probes_cached_session_witness :
  lookup_device (devices dm) "R1" = Some r1
  /\ connections connected !! "R1" = Some r1_session
  /\ connect (calm "hostname R1") dm "R1" None connected
     = (Ok (Some r1_session), log (EvProbe r1_session true) connected).
Proof.
  split; [reflexivity|]. split; [reflexivity|].
  exact (connect_probes_cached_session (calm "hostname R1") dm "R1" None connected
           r1 r1_session eq_refl eq_refl).
Defined.

Lemma backup_config_read_back_witness :
  (forall tr req, env_io_ok (calm "hostname R1") tr req = true)
  /\ lookup_entry (files fresh) "R1" <> Some NotADirectory
  /\ contains (String cr "") "hostname R1" = false
  /\ exists key w1 history,
       backup_config (calm "hostname R1") bm "R1" "hostname R1" fresh
       = (Ok (Some key), w1)
       /\ (get_backup_content (calm "hostname R1") bm "R1" key w1).1
          = Ok (Some "hostname R1")
       /\ (get_backup_history (calm "hostname R1") bm "R1" w1).1 = Ok history
       /\ key ∈ map file_path history.
Proof.
  split; [done|]. split; [done|]. split; [reflexivity|].
  apply (backup_config_read_back (calm "hostname R1") bm "R1" "hostname R1" fresh);
    done.
Defined.

Lemma backup_config_stores_or_leaves_witness :
  let run := backup_config disk_full bm "R1" "hostname R1" stocked in
  plain_name "R1" = true
  /\ run.1 = Ok None
  /\ map file_content (directory (files run.2) "R1")
     = ["hostname R1"; "hostname R1"; "host"]
  /\ exists r new w',
       run = (Ok r, w')
       /\ trace w' = trace stocked ++ new
       /\ Forall is_io new
       /\ connections w' = connections stocked
       /\ (forall other, plain_name other = true -> other <> "R1" ->
             lookup_entry (files w') other = lookup_entry (files stocked) other)
       /\ match r with
          | Some key =>
              exists t mtime,
                key = strftime bm key_format t +:+ ".cfg"
                /\ directory (files w') "R1"
                   = put_file (directory (files stocked) "R1")
                       {| file_name := key; file_content := "hostname R1";
                          file_mtime := Some mtime |}
          | None =>
              directory (files w') "R1" = directory (files stocked) "R1"
              \/ exists t text mtime,
                   is_beginning text "hostname R1"
                   /\ directory (files w') "R1"
                      = put_file (directory (files stocked) "R1")
                          {| file_name := strftime bm key_format t +:+ ".cfg";
                             file_content := text;
                             file_mtime := Some mtime |}
          end.
Proof.
  split; [reflexivity|]. split; [vm_compute; reflexivity|].
  split; [vm_compute; reflexivity|].
  exact (backup_config_stores_or_leaves disk_full bm "R1" "hostname R1" stocked eq_refl).
Defined.

Lemma delete_backup_removes_one_witness :
  let run := delete_backup (calm "hostname R1") bm "R1" "1000.cfg" stocked in
  plain_name "R1" = true
  /\ plain_name "1000.cfg" = true
  /\ run.1 = Ok true
  /\ connections run.2 = connections stocked
  /\ (forall other, plain_name other = true -> other <> "R1" ->
        lookup_entry (files run.2) other = lookup_entry (files stocked) other)
  /\ match run.1 with
     | Ok true =>
         is_Some (find_file (directory (files stocked) "R1") "1000.cfg")
         /\ directory (files run.2) "R1"
            = drop_file (directory (files stocked) "R1") "1000.cfg"
         /\ find_file (directory (files run.2) "R1") "1000.cfg" = None
         /\ (forall other, other <> "1000.cfg" ->
               find_file (directory (files run.2) "R1") other
               = find_file (directory (files stocked) "R1") other)
     | Ok false =>
         directory (files run.2) "R1" = directory (files stocked) "R1"
     | Raised =>
         lookup_entry (files stocked) "R1" = None /\ files run.2 = files stocked
     end.
Proof.
  split; [reflexivity|]. split; [reflexivity|]. split; [reflexivity|].
  exact (delete_backup_removes_one (calm "hostname R1") bm "R1" "1000.cfg" stocked
           eq_refl eq_refl).
Defined.



Lemma cleanup_of_one_device_is_local_witness :
  let E := calm "hostname R1" in
  let run := cleanup_old_backups E bm (Some "R1") stocked in
  let cutoff := minus_days (env_now E (trace stocked)) (retention_days bm) in
  plain_name "R1" = true
  /\ cutoff = Some 63837408000000000
  /\ map file_name (directory (files run.2) "R1") = ["63839999000000000.cfg"]
  /\ map file_name (directory (files run.2) "R2")
     = ["1000.cfg"; "63839999000000000.cfg"]
  /\ (exists new,
        trace run.2 = trace stocked ++ new
        /\ Forall is_io new
        /\ connections run.2 = connections stocked
        /\ forall other, plain_name other = true -> other <> "R1" ->
             lookup_entry (files run.2) other = lookup_entry (files stocked) other)
  /\ (forall cutoff_date,
        cutoff = Some cutoff_date ->
        (forall tr req, env_io_ok E tr req = true) ->
        NoDup (map file_name (directory (files stocked) "R1")) ->
        (forall f, In f (directory (files stocked) "R1") -> is_cfg f = true ->
                   is_Some (record_time bm f)) ->
        run.1 = Ok tt
        /\ directory (files run.2) "R1"
           = List.filter (fun f => negb (expired bm cutoff_date f))
                         (directory (files stocked) "R1"))
  /\ (cutoff = None -> run = (Raised, stocked))
  /\ (forall f,
        is_Some cutoff ->
        (forall tr req, env_io_ok E tr req = true) ->
        In f (directory (files stocked) "R1") -> is_cfg f = true ->
        record_time bm f = None ->
        run.1 = Raised).
Proof.
  split; [reflexivity|]. split; [reflexivity|]. split; [reflexivity|].
  split; [reflexivity|].
  exact (cleanup_of_one_device_is_local (calm "hostname R1") bm "R1" stocked eq_refl).
Defined.


Lemma device_line_round_trip_witness :
  let fields := split "," ("secret" +:+ "," +:+ "cisco_ios") in
  plain_value (device_value "10.0.0.1" "admin" "secret" "cisco_ios") = true
  /\ contains "," "10.0.0.1" = false
  /\ contains "," "admin" = false
  /\ get_devices (Some [("R1", device_value "10.0.0.1" "admin" "secret" "cisco_ios")])
     = [("R1", {| ip := "10.0.0.1"; username := "admin";
                  password := nth 0 fields "";
                  device_type := nth 1 fields "" |})]
  /\ (contains "," "secret" = false ->
      nth 0 fields "" = "secret"
      /\ nth 1 fields "" = nth 0 (split "," "cisco_ios") ""
      /\ (contains "," "cisco_ios" = false -> nth 1 fields "" = "cisco_ios")).
Proof.
  split; [reflexivity|]. split; [reflexivity|]. split; [reflexivity|].
  apply (device_line_round_trip "R1" "10.0.0.1" "admin" "secret" "cisco_ios");
    reflexivity.
Defined.

Lemma update_keeps_stored_password_witness :
  let old_value := "10.0.0.1,admin,secret,cisco_ios" in
  plain_value old_value = true
  /\ plain_value "10.0.0.9" = true
  /\ plain_value "operator" = true
  /\ plain_value "cisco_nxos" = true
  /\ (4 <= length (split "," old_value))%nat
  /\ contains "," "10.0.0.9" = false
  /\ contains "," "operator" = false
  /\ exists before after,
       get_devices (Some [("R1", old_value)]) = [("R1", before)]
       /\ get_devices
            (Some [("R1", updated_value old_value "10.0.0.9" "operator" "" "cisco_nxos")])
          = [("R1", after)]
       /\ password after = password before
       /\ ip after = "10.0.0.9"
       /\ username after = "operator".
Proof.
  split; [reflexivity|]. split; [reflexivity|]. split; [reflexivity|].
  split; [reflexivity|].
  split; [cbn; lia|]. split; [reflexivity|]. split; [reflexivity|].
  apply (update_keeps_stored_password "R1" "10.0.0.1,admin,secret,cisco_ios"
           "10.0.0.9" "operator" "cisco_nxos");
    [reflexivity|reflexivity|reflexivity|reflexivity|cbn; lia|reflexivity|reflexivity].
Defined.

Lemma malformed_device_line_is_skipped_witness :
  let good := ("R1", "10.0.0.1,admin,secret,cisco_ios") in
  (length (split "," "10.0.0.2,admin") < 4)%nat
  /\ get_devices (Some ([good] ++ ("R2", "10.0.0.2,admin") :: []))
     = get_devices (Some ([good] ++ [])).
Proof.
  split; [cbn; lia|].
  apply (malformed_device_line_is_skipped
           [("R1", "10.0.0.1,admin,secret,cisco_ios")] [] "R2" "10.0.0.2,admin").
  cbn. lia.
Defined.

Lemma scheduled_time_reads_numerals_witness :
  Z.abs 2 < 10 ^ 640
  /\ Z.abs 30 < 10 ^ 640
  /\ scheduled_time 4300 (pretty 2 +:+ ":" +:+ pretty 30) = (2, 30)
  /\ forall backup_time,
       contains ":" backup_time = false ->
       scheduled_time 4300 backup_time = (10, 10).
Proof.
  split; [reflexivity|]. split; [reflexivity|].
  apply (scheduled_time_reads_numerals 4300 2 30); reflexivity.
Defined.

Lemma backup_all_devices_counts_witness :
  let E := r1_down "hostname R2" in
  (forall tr dev x, env_alert E tr dev x <> AlertRaised)
  /\ exists w',
       backup_all_devices E sch fresh
       = (Ok (match DeviceManager.devices (device_manager sch) with
              | [] => None
              | _ => Some (length (DeviceManager.devices (device_manager sch)), 0%nat)
              end), w').
Proof.
  assert (H : forall tr dev x, env_alert (r1_down "hostname R2") tr dev x <> AlertRaised)
    by done.
  split; [exact H|].
  exact (backup_all_devices_counts (r1_down "hostname R2") sch fresh H).
Defined.

Lemma manual_backup_never_alerts_witness :
  let E := calm "hostname R1" in
  let run := backup_device E dm bm "R1" stocked in
  plain_name "R1" = true
  /\ run.1 = Ok (BackupDone "63840000003000000.cfg" (Some "63840000003000000"))
  /\ exists r new w',
       run = (Ok r, w')
       /\ trace w' = trace stocked ++ new
       /\ alerts_of new = []
       /\ (forall other, plain_name other = true -> other <> "R1" ->
             lookup_entry (files w') other = lookup_entry (files stocked) other)
       /\ match r with
          | BackupDone backup_file _ =>
              exists f,
                find_file (directory (files w') "R1") backup_file = Some f
                /\ file_content f <> ""
                /\ last (sends_of new)
                   = Some (backup_command dm, Output (file_content f))
          | BackupStoreFailed =>
              directory (files w') "R1" = directory (files stocked) "R1"
              \/ exists config_content t text mtime,
                   last (sends_of new) = Some (backup_command dm, Output config_content)
                   /\ is_beginning text config_content
                   /\ directory (files w') "R1"
                      = put_file (directory (files stocked) "R1")
                          {| file_name := strftime bm key_format t +:+ ".cfg";
                             file_content := text;
                             file_mtime := Some mtime |}
          | _ =>
              directory (files w') "R1" = directory (files stocked) "R1"
          end.
Proof.
  split; [reflexivity|]. split; [vm_compute; reflexivity|].
  exact (manual_backup_never_alerts (calm "hostname R1") dm bm "R1" stocked eq_refl).
Defined.

Lemma get_diff_default_order_witness :
  let E := calm "" in
  let l := [old_record "hostname R1"; recent_record "hostname R1"] in
  "R1" <> ""
  /\ ("" = "" \/ "" = "")
  /\ (forall tr req, env_io_ok E tr req = true)
  /\ lookup_entry (files stocked) "R1" = Some (Directory l)
  /\ NoDup (map file_name l)
  /\ exists r w',
       get_diff E unified_diff_headers bm "R1" "" "" stocked = (Ok r, w')
       /\ files w' = files stocked
       /\ match r with
          | DiffDone p1 p2 diff_result summary =>
              exists newest second t1 t2,
                newest ∈ l /\ second ∈ l
                /\ file_name newest = p1 /\ file_name second = p2
                /\ record_time bm newest = Some t1
                /\ record_time bm second = Some t2
                /\ (forall g u, g ∈ l -> is_cfg g = true -> record_time bm g = Some u ->
                      str_lt (strftime bm history_format t1)
                             (strftime bm history_format u) = false
                      /\ ((t1 < u -> str_lt (strftime bm history_format t1)
                                            (strftime bm history_format u) = true) ->
                          u <= t1))
                /\ diff_result
                   = compare_configs unified_diff_headers
                       (universal_newlines (file_content newest))
                       (universal_newlines (file_content second))
                /\ summary = get_summary diff_result
          | DiffTooFewBackups =>
              (length (omap (record_of bm) (List.filter is_cfg l)) < 2)%nat
          | DiffUnreadable =>
              exists f, f ∈ l /\ is_cfg f = true /\ file_content f = ""
          | DiffNameMissing => False
          end.
Proof.
  assert (Hnd : NoDup (map file_name [old_record "hostname R1";
                                      recent_record "hostname R1"]))
    by exact (bool_decide_unpack (NoDup ["1000.cfg"; "63839999000000000.cfg"]) I).
  split; [done|]. split; [by left|]. split; [done|]. split; [reflexivity|].
  split; [exact Hnd|].
  apply (get_diff_default_order (calm "") unified_diff_headers bm "R1" "" "" stocked
           [old_record "hostname R1"; recent_record "hostname R1"]);
    [done|by left|done|reflexivity|exact Hnd].
Defined.

End MoreExamples.
